(** * design2wp-gutenberg: the layout-to-markup compiler

    A shallow embedding of the two compilers of the repository and of the
    block builders under them, followed by the properties of the
    specification that concern them:
    - [converter.py], the portable dialect (core blocks), whose entry
      point is [convert_layout];
    - [kadence_blocks.py], the native-extension dialect, whose builders
      mint random identifiers;
    - [page_builder.py], whose entry point [build_page_content] composes
      the builders of [kadence_blocks.py] with a few core blocks of
      [gutenberg_blocks.py], with its footer builder, its search-engine
      metadata and its slugs;
    - the arithmetic of [svg_processor.py] (file stems, the chunks of a
      tall image) and the slug of a page in [main.py].

    Conventions of the embedding.
    - A Python [str] is a [string]; each character stands for one code
      point below 256.
    - A JSON object with a known set of keys is a record whose fields are
      [option]s: [None] is an absent key, so [d.get(k)] is the field and
      [d.get(k, v)] is [get_or v] of the field.  A dictionary whose keys
      are data (a padding mapping, a block's attributes) is an association
      list in insertion order.
    - A Python exception is the [Raise] case of [result].
    - [if x:] is [truthy x]; [a or b] is [por a b] or [or_else a b].
    - The random source of [random.choices] is threaded through the
      builders that draw from it. *)

From Stdlib Require Import String Ascii List ZArith QArith Qround Bool Lia.
From Stdlib Require Import DecimalString.
From Equations Require Import Equations.
Import ListNotations.

Set Implicit Arguments.
Set Warnings "-register-all".
Local Open Scope Z_scope.
Local Open Scope list_scope.
Local Open Scope string_scope.

(** ** The Python runtime the code relies on *)

Module Py.

Inductive py_error : Type :=
  | KeyError (key : string)
  | AttributeError (what : string)
  | ValueError (what : string).

Inductive result (A : Type) : Type :=
  | Ok (a : A)
  | Raise (e : py_error).
Arguments Ok {A} a.
Arguments Raise {A} e.

Definition bind {A B} (m : result A) (k : A -> result B) : result B :=
  match m with
  | Ok a => k a
  | Raise e => Raise e
  end.

(** [[f(x) for x in l]]: evaluated left to right, the first exception
    leaves the comprehension. *)
Definition mapM {A B} (f : A -> result B) : list A -> result (list B) :=
  fix go (l : list A) : result (list B) :=
    match l with
    | [] => Ok []
    | x :: l' =>
        match f x with
        | Raise e => Raise e
        | Ok y => match go l' with
                  | Raise e => Raise e
                  | Ok ys => Ok (y :: ys)
                  end
        end
    end.

(** [[f(x) for x in d.get(k, [])]], where [o] is [d.get(k)]. *)
Definition mapM_get {A B} (f : A -> result B) (o : option (list A)) : result (list B) :=
  match o with
  | None => Ok []
  | Some l => mapM f l
  end.

(** Truth value testing ([if x:], [x or y], [not x]). *)
Class Truthy (A : Type) : Type := truthy : A -> bool.

#[export] Instance truthy_string : Truthy string :=
  fun s => match s with EmptyString => false | String _ _ => true end.
#[export] Instance truthy_Z : Truthy Z :=
  fun z => negb (z =? 0)%Z.
#[export] Instance truthy_bool : Truthy bool :=
  fun b => b.
#[export] Instance truthy_list {A} : Truthy (list A) :=
  fun l => match l with [] => false | _ :: _ => true end.
#[export] Instance truthy_option {A} `{Truthy A} : Truthy (option A) :=
  fun o => match o with None => false | Some a => truthy a end.

(** [a or b] on two optional values of one type. *)
Definition por {A} `{Truthy A} (a b : option A) : option A :=
  if truthy a then a else b.

(** [a or b] where [b] is not [None]. *)
Definition or_else {A} `{Truthy A} (a : option A) (b : A) : A :=
  match a with
  | Some x => if truthy x then x else b
  | None => b
  end.

(** [d.get(k, default)] once [d.get(k)] is the field [o]. *)
Definition get_or {A} (default : A) (o : option A) : A :=
  match o with Some a => a | None => default end.

(** [str(n)] for an [int]. *)
Definition str_of_int (n : Z) : string := NilZero.string_of_int (Z.to_int n).

(** [f"{x}"] for an optional string: [None] prints as its name. *)
Definition fstr (o : option string) : string := get_or "None" o.

Definition dq : ascii := ascii_of_nat 34.
Definition nl : string := String (ascii_of_nat 10) EmptyString.

(** [s.replace(c, by)] for a one-character pattern [c]. *)
Fixpoint replace_char (c : ascii) (by_ : string) (s : string) : string :=
  match s with
  | EmptyString => EmptyString
  | String a s' =>
      if Ascii.eqb a c then by_ ++ replace_char c by_ s'
      else String a (replace_char c by_ s')
  end.

(** Literals of the source that hold double quotes are written with a
    backquote in their place; [lit] puts the double quotes back.  It is
    applied to constants only. *)
Definition lit (s : string) : string :=
  replace_char "`"%char (String dq EmptyString) s.

(** [l.append(x)] *)
Definition list_append {A} (l : list A) (x : A) : list A := (l ++ [x])%list.

(** [a / b] on two [int]s and [round(x)].  A float is modelled by the
    exact quotient.  For an integer [a] the fractional part of [a / 10]
    is a multiple of one tenth: it is one half, which a double holds
    exactly, or at least one tenth away from it, which no rounding error
    of the division bridges; so [round] sees the same side of the half
    in the double as in the exact quotient.  [round] rounds halves to
    the even neighbour. *)
Definition true_div (a b : Z) : Q := (inject_Z a / inject_Z b)%Q.

Definition round (x : Q) : Z :=
  let f := Qfloor x in
  match Qcompare (x - inject_Z f) (1 # 2) with
  | Lt => f
  | Gt => f + 1
  | Eq => if Z.even f then f else f + 1
  end.

(** A [float] is held by its exact value and by the text that [repr]
    gives for it, which is what [json.dumps] writes. *)
Record float : Type := Float { float_value : Q; float_repr : string }.

#[export] Instance truthy_float : Truthy float :=
  fun x => negb (Qeq_bool (float_value x) 0).

(** [o == s] for a value [o] that may be [None]. *)
Definition eq_str (o : option string) (s : string) : bool :=
  match o with Some x => String.eqb x s | None => false end.

(** [len(l)] *)
Definition len {A} (l : list A) : Z := Z.of_nat (List.length l).

(** [s[:n]] *)
Definition take (n : nat) (s : string) : string := substring 0 n s.

(** [sub in s] *)
Fixpoint contains (sub s : string) : bool :=
  prefix sub s ||
  match s with
  | EmptyString => false
  | String _ s' => contains sub s'
  end.

(** Dictionaries from strings to strings, in insertion order. *)
Definition dict : Type := list (string * string).

Fixpoint dict_get (k : string) (d : dict) : option string :=
  match d with
  | [] => None
  | (k', v) :: d' => if String.eqb k' k then Some v else dict_get k d'
  end.

Definition dict_in (k : string) (d : dict) : bool :=
  match dict_get k d with Some _ => true | None => false end.

(** [d[k] = v]: an existing key keeps its place. *)
Fixpoint dict_set (k v : string) (d : dict) : dict :=
  match d with
  | [] => [(k, v)]
  | (k', v') :: d' =>
      if String.eqb k' k then (k', v) :: d' else (k', v') :: dict_set k v d'
  end.

End Py.
Export Py.

Notation "x <- m ;; k" := (Py.bind m (fun x => k))
  (at level 61, m at next level, right associativity).

(** ** JSON values and [json.dumps] *)

Module Json.

Inductive json : Type :=
  | JNull
  | JBool (b : bool)
  | JInt (n : Z)
  | JFloat (x : float)
  | JStr (s : string)
  | JArr (items : list json)
  | JObj (members : list (string * json)).

Definition obj : Type := list (string * json).

Fixpoint get (k : string) (o : obj) : option json :=
  match o with
  | [] => None
  | (k', v) :: o' => if String.eqb k' k then Some v else get k o'
  end.

(** [o[k] = v] *)
Fixpoint set (k : string) (v : json) (o : obj) : obj :=
  match o with
  | [] => [(k, v)]
  | (k', v') :: o' =>
      if String.eqb k' k then (k', v) :: o' else (k', v') :: set k v o'
  end.

(** [o.setdefault(k, {})[k2] = v] *)
Definition set_in (k k2 : string) (v : json) (o : obj) : obj :=
  match get k o with
  | Some (JObj inner) => set k (JObj (set k2 v inner)) o
  | _ => set k (JObj [(k2, v)]) o
  end.

Definition of_dict (d : dict) : json :=
  JObj (map (fun kv => (fst kv, JStr (snd kv))) d).

Definition hex_digit (n : N) : ascii :=
  get_or "0"%char (String.get (N.to_nat n) "0123456789abcdef").

(** The escapes of [json.dumps]; with [ensure_ascii] the code points
    above 126 are escaped too. *)
Definition escape_char (ensure_ascii : bool) (c : ascii) : string :=
  let n := N_of_ascii c in
  if (n =? 34)%N then "\" ++ String dq EmptyString
  else if (n =? 92)%N then "\\"
  else if (n =? 10)%N then "\n"
  else if (n =? 13)%N then "\r"
  else if (n =? 9)%N then "\t"
  else if (n =? 8)%N then "\b"
  else if (n =? 12)%N then "\f"
  else if ((n <? 32) || (ensure_ascii && (126 <? n)))%N
       then "\u00" ++ String (hex_digit (n / 16)) (String (hex_digit (n mod 16)) EmptyString)
  else String c EmptyString.

(** [json.dumps(v, ensure_ascii=..., separators=(item_sep, key_sep))] *)
Section Dumps.
Variable ensure_ascii : bool.
Variables item_sep key_sep : string.

Fixpoint escape (s : string) : string :=
  match s with
  | EmptyString => EmptyString
  | String c s' => escape_char ensure_ascii c ++ escape s'
  end.

Definition quote (s : string) : string :=
  String dq (escape s) ++ String dq EmptyString.

Fixpoint dumps_with (v : json) : string :=
    match v with
    | JNull => "null"
    | JBool true => "true"
    | JBool false => "false"
    | JInt n => str_of_int n
    | JFloat x => float_repr x
    | JStr s => quote s
    | JArr items =>
        "[" ++ String.concat item_sep (map dumps_with items) ++ "]"
    | JObj members =>
        "{" ++ String.concat item_sep
                 (map (fun kv => quote (fst kv) ++ key_sep ++ dumps_with (snd kv)) members)
            ++ "}"
    end.
End Dumps.

(** The truth value of a JSON value read as a Python object. *)
#[export] Instance truthy_json : Truthy json :=
  fun v => match v with
         | JNull => false
         | JBool b => b
         | JInt n => truthy n
         | JFloat x => truthy x
         | JStr s => truthy s
         | JArr items => truthy items
         | JObj members => truthy members
         end.

End Json.
Export Json.

(** ** The layout document (spec section 3, as [converter.py] reads it) *)

(** An entry of the [items] list of a [buttons] content item. *)
Module Button.
Record t : Type := Build {
  text : option string;
  url : option string;
  bg_color : option string;
  text_color : option string;
  style : option string;
  border_radius : option string }.
Definition empty : t := Build None None None None None None.
End Button.

(** A content item.  The key [items] holds button entries in a [buttons]
    item, strings in a [list] item and column entries in a [columns]
    item; the record has one field for each reading ([buttons],
    [entries], [columns]).  A column entry is a dictionary of which only
    the key [content] is read. *)
Module Item.
Inductive t : Type := Build {
  type : option string;
  text : option string;
  level : option Z;
  color : option string;
  font_size : option string;
  align : option string;
  url : option string;
  alt : option string;
  width : option Z;
  height : option Z;
  buttons : option (list Button.t);
  entries : option (list string);
  ordered : option bool;
  columns : option (list entry) }
with entry : Type := Entry {
  content : option (list t) }.

Definition empty : t :=
  Build None None None None None None None None None None None None None None.

(** [{**item, "align": a}] *)
Definition with_align (item : t) (a : string) : t :=
  Build (type item) (text item) (level item) (color item) (font_size item)
        (Some a) (url item) (alt item) (width item) (height item)
        (buttons item) (entries item) (ordered item) (columns item).
End Item.

(** The structured [background] of a section, or whatever else the key
    holds when it is not a dictionary. *)
Module Background.
Record object : Type := Build {
  type : option string;
  value : option string;
  url : option string;
  overlay_opacity : option Z }.
Inductive t : Type :=
  | Object (o : object)
  | Flat (s : string).
Definition empty : object := Build None None None None.
End Background.

Module CardStyle.
Record t : Type := Build {
  background_color : option string;
  border_color : option string;
  border_width : option string;
  text_color : option string;
  padding : option dict;
  border_radius : option string }.
Definition empty : t := Build None None None None None None.
End CardStyle.

(** An entry of the [items] list of a columns, features or stats section. *)
Module Card.
Record t : Type := Build {
  align : option string;
  content : option (list Item.t);
  card_style : option CardStyle.t;
  background_color : option string;
  border_color : option string;
  border_width : option string;
  text_color : option string;
  padding : option dict;
  border_radius : option string }.
End Card.

(** An entry of the [images] list of a gallery or logo-strip section. *)
Module Image.
Record t : Type := Build {
  description : option string;
  url : option string;
  caption_title : option string;
  caption_meta : option string }.
End Image.

Module Layout.
Record t : Type := Build { columns : option Z }.
Definition empty : t := Build None.
End Layout.

Module Styling.
Record t : Type := Build {
  padding : option dict;
  card_border_radius : option string }.
Definition empty : t := Build None None.
End Styling.

Module Section_.
Record t : Type := Build {
  type : option string;
  background : option Background.t;
  background_color : option string;
  padding : option dict;
  min_height : option Z;
  align : option string;
  content : option (list Item.t);
  items : option (list Card.t);
  images : option (list Image.t);
  layout : option Layout.t;
  styling : option Styling.t }.
Definition empty : t :=
  Build None None None None None None None None None None None.
End Section_.

Module Document.
Record t : Type := Build {
  page_title : option string;
  sections : option (list Section_.t) }.
End Document.

(** ** [converter.py]: serializers and atomic block builders *)

Module Converter.

(** [_J = lambda d: json.dumps(d, separators=(',', ':'))] *)
Definition _J (d : json) : string := dumps_with true "," ":" d.

Definition jstr (o : option string) : json :=
  match o with Some s => JStr s | None => JNull end.

Definition _placeholder_svg (desc : string) (w h : Z) : string :=
  let t := take 60 (replace_char "&"%char "and" (replace_char "'"%char "" desc)) in
  "data:image/svg+xml,%3Csvg xmlns='http://www.w3.org/2000/svg' " ++
  "width='" ++ str_of_int w ++ "' height='" ++ str_of_int h ++
  "'%3E%3Crect fill='%23ccc' width='" ++ str_of_int w ++ "' " ++
  "height='" ++ str_of_int h ++
  "'/%3E%3Ctext x='50%25' y='50%25' text-anchor='middle' " ++
  "fill='%23666' font-size='20'%3E" ++ t ++ "%3C/text%3E%3C/svg%3E".

(** The list [parts] of [_build_css] when it is joined.  Every argument
    is a keyword of the source with default [None]. *)
Definition _build_css_parts
    (border_color border_width border_radius color background_color
     min_height : option string)
    (padding : option dict) (font_size : option string) : list string :=
  let parts : list string := [] in
  let parts := if truthy border_color
               then list_append parts ("border-color:" ++ fstr border_color) else parts in
  let parts := if truthy border_width
               then list_append parts ("border-width:" ++ fstr border_width) else parts in
  let parts := if truthy border_radius
               then list_append parts ("border-radius:" ++ fstr border_radius) else parts in
  let parts := if truthy color
               then list_append parts ("color:" ++ fstr color) else parts in
  let parts := if truthy background_color
               then list_append parts ("background-color:" ++ fstr background_color)
               else parts in
  let parts := if truthy min_height
               then list_append parts ("min-height:" ++ fstr min_height) else parts in
  let parts :=
    match padding with
    | Some d =>
        if truthy d then
          fold_left
            (fun parts side =>
               if dict_in side d
               then list_append parts ("padding-" ++ side ++ ":" ++ fstr (dict_get side d))
               else parts)
            ["top"; "right"; "bottom"; "left"] parts
        else parts
    | None => parts
    end in
  let parts := if truthy font_size
               then list_append parts ("font-size:" ++ fstr font_size) else parts in
  parts.

Definition _build_css
    (border_color border_width border_radius color background_color
     min_height : option string)
    (padding : option dict) (font_size : option string) : string :=
  String.concat ";"
    (_build_css_parts border_color border_width border_radius color
       background_color min_height padding font_size).

(** [f' style="{css}"' if css else ""] *)
Definition style_attr_of (css : string) : string :=
  if truthy css then lit " style=`" ++ css ++ lit "`" else "".

(** The list [classes] of [_heading]. *)
Definition _heading_classes (color align : option string) : list string :=
  let classes := ["wp-block-heading"] in
  let classes := if truthy color then list_append classes ("has-text-color") else classes in
  let classes := if truthy align
                 then list_append classes ("has-text-align-" ++ fstr align) else classes in
  classes.

Definition _heading (text : string) (level : Z)
    (color font_size align : option string) : string :=
  let attrs : obj := [] in
  let style : obj := [] in
  let style := if truthy color then set_in "color" "text" (jstr color) style else style in
  let style := if truthy font_size
               then set_in "typography" "fontSize" (jstr font_size) style else style in
  let attrs := if truthy align then set "textAlign" (jstr align) attrs else attrs in
  let attrs := if negb (level =? 2)%Z then set "level" (JInt level) attrs else attrs in
  let attrs := if truthy style then set "style" (JObj style) attrs else attrs in
  let tag := "h" ++ str_of_int level in
  let classes := _heading_classes color align in
  let css := _build_css None None None color None None None font_size in
  let style_attr := style_attr_of css in
  let class_attr := lit " class=`" ++ String.concat " " classes ++ lit "`" in
  "<!-- wp:heading " ++ _J (JObj attrs) ++ " -->" ++ nl ++
  "<" ++ tag ++ class_attr ++ style_attr ++ ">" ++ text ++ "</" ++ tag ++ ">" ++ nl ++
  "<!-- /wp:heading -->".

(** The list [classes] of [_paragraph]. *)
Definition _paragraph_classes (color align : option string) : list string :=
  let classes : list string := [] in
  let classes := if truthy align
                 then list_append classes ("has-text-align-" ++ fstr align) else classes in
  let classes := if truthy color then list_append classes ("has-text-color") else classes in
  classes.

Definition _paragraph (text : string) (color font_size align : option string) : string :=
  let attrs : obj := [] in
  let style : obj := [] in
  let style := if truthy color then set_in "color" "text" (jstr color) style else style in
  let style := if truthy font_size
               then set_in "typography" "fontSize" (jstr font_size) style else style in
  let attrs := if truthy align then set "align" (jstr align) attrs else attrs in
  let attrs := if truthy style then set "style" (JObj style) attrs else attrs in
  let classes := _paragraph_classes color align in
  let css := _build_css None None None color None None None font_size in
  let style_attr := style_attr_of css in
  let class_attr := if truthy classes
                    then lit " class=`" ++ String.concat " " classes ++ lit "`" else "" in
  let html_text := replace_char (ascii_of_nat 10) "<br>" text in
  let attr_str := if truthy attrs then " " ++ _J (JObj attrs) else "" in
  "<!-- wp:paragraph" ++ attr_str ++ " -->" ++ nl ++
  "<p" ++ class_attr ++ style_attr ++ ">" ++ html_text ++ "</p>" ++ nl ++
  "<!-- /wp:paragraph -->".

Definition _image (url : option string) (alt : string) (width height : Z) : string :=
  let src := if truthy url then fstr url
             else _placeholder_svg (if truthy alt then alt else "Bilde") width height in
  let attrs : obj := [("sizeSlug", JStr "large")] in
  "<!-- wp:image " ++ _J (JObj attrs) ++ " -->" ++ nl ++
  lit "<figure class=`wp-block-image size-large`>" ++
  lit "<img src=`" ++ src ++ lit "` alt=`" ++ alt ++ lit "`/></figure>" ++ nl ++
  "<!-- /wp:image -->".

Definition _button (text url : string) (bg_color text_color : option string)
    (style_type : string) (border_radius : option string) : string :=
  let attrs : obj := [] in
  let style : obj := [] in
  let link_classes := ["wp-block-button__link"] in
  let outer_classes := ["wp-block-button"] in
  let '(style, link_classes, outer_classes, css) :=
    if String.eqb style_type "outline" then
      let outer_classes := list_append outer_classes ("is-style-outline") in
      if truthy bg_color then
        let style := set_in "border" "width" (JStr "2px") style in
        let style := set_in "border" "color" (jstr bg_color) style in
        let style := set_in "color" "text" (jstr bg_color) style in
        let link_classes := list_append link_classes ("has-text-color") in
        let link_classes := list_append link_classes ("has-border-color") in
        (style, link_classes, outer_classes,
         _build_css bg_color (Some "2px") None bg_color None None None None)
      else (style, link_classes, outer_classes, "")
    else
      let '(style, link_classes, css_bg) :=
        if truthy bg_color
        then (set_in "color" "background" (jstr bg_color) style,
              list_append link_classes ("has-background"), bg_color)
        else (style, link_classes, None) in
      let '(style, link_classes, css_color) :=
        if truthy text_color
        then (set_in "color" "text" (jstr text_color) style,
              list_append link_classes ("has-text-color"), text_color)
        else (style, link_classes, None) in
      let '(style, css_radius) :=
        if truthy border_radius
        then (set_in "border" "radius" (jstr border_radius) style, border_radius)
        else (style, None) in
      (style, link_classes, outer_classes,
       _build_css None None css_radius css_color css_bg None None None) in
  let link_classes := list_append link_classes ("wp-element-button") in
  let attrs := if truthy style then set "style" (JObj style) attrs else attrs in
  let link_style := style_attr_of css in
  let attr_str := if truthy attrs then " " ++ _J (JObj attrs) else "" in
  "<!-- wp:button" ++ attr_str ++ " -->" ++ nl ++
  lit "<div class=`" ++ String.concat " " outer_classes ++ lit "`>" ++
  lit "<a class=`" ++ String.concat " " link_classes ++ lit "` href=`" ++ url ++ lit "`" ++
  link_style ++ ">" ++ text ++ "</a>" ++
  "</div>" ++ nl ++
  "<!-- /wp:button -->".

(** The list [classes] of [_buttons]. *)
Definition _buttons_classes : list string := ["wp-block-buttons"].

Definition _buttons (inner : list string) (align : option string) : string :=
  let attrs : obj := [] in
  let classes := _buttons_classes in
  let attrs := if truthy align
               then set "layout" (JObj [("type", JStr "flex"); ("justifyContent", jstr align)])
                        attrs
               else attrs in
  let content := String.concat nl inner in
  let attr_str := if truthy attrs then " " ++ _J (JObj attrs) else "" in
  "<!-- wp:buttons" ++ attr_str ++ " -->" ++ nl ++
  lit "<div class=`" ++ String.concat " " classes ++ lit "`>" ++ nl ++ content ++ nl ++
  "</div>" ++ nl ++
  "<!-- /wp:buttons -->".

Definition _spacer (height : Z) : string :=
  "<!-- wp:spacer " ++ _J (JObj [("height", JStr (str_of_int height ++ "px"))]) ++ " -->" ++ nl ++
  lit "<div style=`height:" ++ str_of_int height ++ lit "px` aria-hidden=`true` " ++
  lit "class=`wp-block-spacer`></div>" ++ nl ++
  "<!-- /wp:spacer -->".

Definition _separator : string :=
  "<!-- wp:separator -->" ++ nl ++
  lit "<hr class=`wp-block-separator has-alpha-channel-opacity`/>" ++ nl ++
  "<!-- /wp:separator -->".

(** The image dictionaries that the gallery converters hand to [_gallery]. *)
Module GalleryImage.
Record t : Type := Build {
  alt : option string;
  url : option string;
  caption : option string }.
End GalleryImage.

Definition _gallery_image (img : GalleryImage.t) : string :=
  let src := if truthy (GalleryImage.url img) then fstr (GalleryImage.url img)
             else _placeholder_svg (get_or "Bilde" (GalleryImage.alt img)) 600 400 in
  let alt := get_or "" (GalleryImage.alt img) in
  let caption := get_or "" (GalleryImage.caption img) in
  let img_attrs : obj := [("sizeSlug", JStr "large")] in
  let caption_html :=
    if truthy caption
    then lit "<figcaption class=`wp-element-caption`>" ++ caption ++ "</figcaption>"
    else "" in
  "<!-- wp:image " ++ _J (JObj img_attrs) ++ " -->" ++ nl ++
  lit "<figure class=`wp-block-image size-large`>" ++
  lit "<img src=`" ++ src ++ lit "` alt=`" ++ alt ++ lit "`/>" ++ caption_html ++ "</figure>" ++ nl ++
  "<!-- /wp:image -->".

Definition _gallery (images : list GalleryImage.t) (columns : Z) (crop : bool) : string :=
  let img_blocks := map _gallery_image images in
  let attrs : obj := [("columns", JInt columns); ("linkTo", JStr "none")] in
  let attrs := if crop then set "imageCrop" (JBool true) attrs else attrs in
  let inner := String.concat (nl ++ nl) img_blocks in
  "<!-- wp:gallery " ++ _J (JObj attrs) ++ " -->" ++ nl ++
  lit "<figure class=`wp-block-gallery has-nested-images columns-" ++ str_of_int columns ++
  lit " is-cropped`>" ++ nl ++
  inner ++ nl ++
  "</figure>" ++ nl ++
  "<!-- /wp:gallery -->".

Definition _list_block (items : list string) (ordered : bool) : string :=
  let tag := if ordered then "ol" else "ul" in
  let li_blocks :=
    map (fun item => "<!-- wp:list-item -->" ++ nl ++ "<li>" ++ item ++ "</li>" ++ nl ++
                     "<!-- /wp:list-item -->") items in
  let inner := String.concat nl li_blocks in
  let attrs : obj := [] in
  let attrs := if ordered then set "ordered" (JBool true) attrs else attrs in
  let attr_str := if truthy attrs then " " ++ _J (JObj attrs) else "" in
  "<!-- wp:list" ++ attr_str ++ " -->" ++ nl ++
  "<" ++ tag ++ ">" ++ nl ++ inner ++ nl ++ "</" ++ tag ++ ">" ++ nl ++
  "<!-- /wp:list -->".

(** ** [converter.py]: container blocks *)

(** The list [classes] of [_group]. *)
Definition _group_classes (bg_color text_color border_radius align : option string)
  : list string :=
  let classes := ["wp-block-group"] in
  let classes := if truthy align then list_append classes ("align" ++ fstr align) else classes in
  let classes := if truthy border_radius then classes else classes in
  let classes := if truthy text_color then list_append classes "has-text-color" else classes in
  let classes := if truthy bg_color then list_append classes "has-background" else classes in
  classes.

(** The declarations that [_group] asks [_build_css] for. *)
Definition _group_css_parts (bg_color text_color : option string) (padding : option dict)
    (min_height border_radius : option string) : list string :=
  _build_css_parts None None border_radius text_color bg_color min_height padding None.

Definition _group (inner : list string) (bg_color text_color : option string)
    (padding : option dict) (min_height border_radius align : option string)
    (layout_type : string) : string :=
  let attrs : obj := [("layout", JObj [("type", JStr layout_type)])] in
  let style : obj := [] in
  let style := if truthy bg_color
               then set_in "color" "background" (jstr bg_color) style else style in
  let style := if truthy text_color
               then set_in "color" "text" (jstr text_color) style else style in
  let style := if truthy padding
               then set_in "spacing" "padding" (of_dict (get_or [] padding)) style else style in
  let style := if truthy min_height
               then set_in "dimensions" "minHeight" (jstr min_height) style else style in
  let style := if truthy border_radius
               then set_in "border" "radius" (jstr border_radius) style else style in
  let attrs := if truthy align then set "align" (jstr align) attrs else attrs in
  let attrs := if truthy style then set "style" (JObj style) attrs else attrs in
  let classes := _group_classes bg_color text_color border_radius align in
  let css := String.concat ";"
               (_group_css_parts bg_color text_color padding min_height border_radius) in
  let style_attr := style_attr_of css in
  let content := String.concat nl inner in
  "<!-- wp:group " ++ _J (JObj attrs) ++ " -->" ++ nl ++
  lit "<div class=`" ++ String.concat " " classes ++ lit "`" ++ style_attr ++ ">" ++ nl ++
  content ++ nl ++
  "</div>" ++ nl ++
  "<!-- /wp:group -->".

Definition _columns (inner : list string) (align : option string) : string :=
  let attrs : obj := [] in
  let classes := ["wp-block-columns"] in
  let '(attrs, classes) :=
    if truthy align
    then (set "align" (jstr align) attrs, list_append classes ("align" ++ fstr align))
    else (attrs, classes) in
  "<!-- wp:columns " ++ _J (JObj attrs) ++ " -->" ++ nl ++
  lit "<div class=`" ++ String.concat " " classes ++ lit "`>" ++ nl ++
  String.concat "" inner ++ nl ++
  "</div>" ++ nl ++
  "<!-- /wp:columns -->".

Definition _column (inner : list string) (width bg_color text_color : option string)
    (padding : option dict) (border_radius border_color border_width : option string)
  : string :=
  let attrs : obj := [] in
  let style : obj := [] in
  let attrs := if truthy width then set "width" (jstr width) attrs else attrs in
  let style := if truthy bg_color
               then set_in "color" "background" (jstr bg_color) style else style in
  let style := if truthy text_color
               then set_in "color" "text" (jstr text_color) style else style in
  let style := if truthy padding
               then set_in "spacing" "padding" (of_dict (get_or [] padding)) style else style in
  let style := if truthy border_radius
               then set_in "border" "radius" (jstr border_radius) style else style in
  let style := if truthy border_width
               then set_in "border" "width" (jstr border_width) style else style in
  let style := if truthy border_color
               then set_in "border" "color" (jstr border_color) style else style in
  let attrs := if truthy style then set "style" (JObj style) attrs else attrs in
  let classes := ["wp-block-column"] in
  let classes := if truthy border_color || truthy border_width
                 then list_append classes "has-border-color" else classes in
  let classes := if truthy text_color then list_append classes "has-text-color" else classes in
  let classes := if truthy bg_color then list_append classes "has-background" else classes in
  let css := _build_css border_color border_width border_radius text_color bg_color
                        None padding None in
  let style_attr := style_attr_of css in
  let content := String.concat nl inner in
  "<!-- wp:column " ++ _J (JObj attrs) ++ " -->" ++ nl ++
  lit "<div class=`" ++ String.concat " " classes ++ lit "`" ++ style_attr ++ ">" ++ nl ++
  content ++ nl ++
  "</div>" ++ nl ++
  "<!-- /wp:column -->".

(** [dim_class_val = round(dim_ratio / 10) * 10] *)
Definition dim_class_val (dim_ratio : Z) : Z := round (true_div dim_ratio 10) * 10.

Definition _cover (inner : list string) (bg_image_url : option string)
    (dim_ratio min_height : Z) (overlay_color align : option string) : string :=
  let attrs : obj := [("dimRatio", JInt dim_ratio); ("minHeight", JInt min_height);
                      ("isDark", JBool true)] in
  let attrs := if truthy bg_image_url then set "url" (jstr bg_image_url) attrs else attrs in
  let attrs := if truthy overlay_color
               then set "overlayColor" (jstr overlay_color) attrs else attrs in
  let attrs := if truthy align then set "align" (jstr align) attrs else attrs in
  let content := String.concat nl inner in
  let dim_class_val := dim_class_val dim_ratio in
  let classes := ["wp-block-cover"] in
  let classes := if truthy align then list_append classes ("align" ++ fstr align) else classes in
  let classes := list_append classes "is-dark" in
  let img_tag := "" in
  let img_tag :=
    if truthy bg_image_url
    then lit "<img class=`wp-block-cover__image-background` alt=`` " ++
         lit "src=`" ++ fstr bg_image_url ++ lit "` data-object-fit=`cover`/>"
    else img_tag in
  "<!-- wp:cover " ++ _J (JObj attrs) ++ " -->" ++ nl ++
  lit "<div class=`" ++ String.concat " " classes ++ lit "` style=`min-height:" ++
  str_of_int min_height ++ lit "px`>" ++
  img_tag ++
  lit "<span aria-hidden=`true` class=`wp-block-cover__background has-background-dim-" ++
  str_of_int dim_class_val ++ lit " has-background-dim`></span>" ++
  lit "<div class=`wp-block-cover__inner-container`>" ++ nl ++
  content ++ nl ++
  "</div></div>" ++ nl ++
  "<!-- /wp:cover -->".

(** ** [converter.py]: the content item converter *)

Definition _convert_button (b : Button.t) : result string :=
  match Button.text b with
  | None => Raise (KeyError "text")
  | Some text =>
      Ok (_button text (get_or "#" (Button.url b)) (Button.bg_color b)
                  (Button.text_color b) (get_or "fill" (Button.style b))
                  (Button.border_radius b))
  end.

Fixpoint _convert_content_item (item : Item.t) : result string :=
  let t := Item.type item in
  if eq_str t "heading" then
    match Item.text item with
    | None => Raise (KeyError "text")
    | Some text =>
        Ok (_heading text (get_or 2 (Item.level item)) (Item.color item)
                     (Item.font_size item) (Item.align item))
    end
  else if eq_str t "paragraph" then
    match Item.text item with
    | None => Raise (KeyError "text")
    | Some text =>
        Ok (_paragraph text (Item.color item) (Item.font_size item) (Item.align item))
    end
  else if eq_str t "image" then
    Ok (_image (Item.url item) (get_or "" (Item.alt item))
               (get_or 800 (Item.width item)) (get_or 400 (Item.height item)))
  else if eq_str t "buttons" then
    btns <- mapM_get _convert_button (Item.buttons item) ;;
    Ok (_buttons btns (Item.align item))
  else if eq_str t "list" then
    Ok (_list_block (get_or [] (Item.entries item)) (get_or false (Item.ordered item)))
  else if eq_str t "spacer" then
    Ok (_spacer (get_or 40 (Item.height item)))
  else if eq_str t "separator" then
    Ok _separator
  else if eq_str t "columns" then
    let col_items := Item.columns item in
    col_blocks <-
      mapM_get (fun col_item =>
                  col_inner <- mapM_get _convert_content_item (Item.content col_item) ;;
                  Ok (_column col_inner None None None None None None None))
               col_items ;;
    Ok (_columns col_blocks (Some "wide"))
  else
    Ok ("<!-- unknown content type: " ++ fstr t ++ " -->").

(** ** [converter.py]: alignment propagation *)

Definition _apply_section_align (content_item : Item.t) (section_align : option string)
  : Item.t :=
  if negb (truthy section_align) then content_item
  else if truthy (Item.align content_item) then content_item
  else if eq_str (Item.type content_item) "heading"
          || eq_str (Item.type content_item) "paragraph"
          || eq_str (Item.type content_item) "buttons"
       then Item.with_align content_item (fstr section_align)
  else content_item.

Definition _DEFAULT_SECTION_ALIGN : dict :=
  [("hero", "center"); ("cta", "center"); ("image-gallery", "center");
   ("features", "center"); ("stats", "center"); ("testimonial", "center");
   ("quote", "center"); ("logo-strip", "center")].

Definition _resolve_section_align (section : Section_.t) : option string :=
  let explicit := Section_.align section in
  if truthy explicit then explicit
  else match Section_.type section with
       | Some t => dict_get t _DEFAULT_SECTION_ALIGN
       | None => None
       end.

(** [[_convert_content_item(_apply_section_align(c, a)) for c in content]] *)
Definition convert_aligned (content : option (list Item.t)) (section_align : option string)
  : result (list string) :=
  mapM_get (fun c => _convert_content_item (_apply_section_align c section_align)) content.

(** [{**pad, "left": pad.get("left", "40px"), "right": pad.get("right", "40px")}] *)
Definition with_side_padding (pad : dict) : dict :=
  dict_set "right" (get_or "40px" (dict_get "right" pad))
    (dict_set "left" (get_or "40px" (dict_get "left" pad)) pad).

(** ** [converter.py]: section converters *)

(** [bg.get(...)] on the value of the key [background]: a value that is
    not a dictionary has no [get]. *)
Definition as_object (bg : option Background.t) : result Background.object :=
  match bg with
  | None => Ok Background.empty
  | Some (Background.Object o) => Ok o
  | Some (Background.Flat _) => Raise (AttributeError "get")
  end.

Definition _convert_hero (section : Section_.t) : result string :=
  let bg := Section_.background section in
  let section_align := Some (or_else (_resolve_section_align section) "center") in
  content <- convert_aligned (Section_.content section) section_align ;;
  let min_h := get_or 600 (Section_.min_height section) in
  bg <- as_object bg ;;
  if eq_str (Background.type bg) "image" then
    let img_url := or_else (Background.url bg) (_placeholder_svg "Hero bakgrunn" 1920 800) in
    Ok (_cover content (Some img_url) (get_or 50 (Background.overlay_opacity bg)) min_h
               None (Some "full"))
  else
    let bg_color := get_or "#1a1a2e" (Background.value bg) in
    Ok (_group content (Some bg_color) None
               (Some [("top", "80px"); ("bottom", "80px"); ("left", "40px"); ("right", "40px")])
               (Some (str_of_int min_h ++ "px")) None (Some "full") "constrained").

Definition _convert_card (section : Section_.t) (section_align : option string)
    (item : Card.t) : result string :=
  let item_align := match Card.align item with
                    | Some a => Some a
                    | None => section_align
                    end in
  inner <- convert_aligned (Card.content item) item_align ;;
  let cs := get_or CardStyle.empty (Card.card_style item) in
  let section_styling := get_or Styling.empty (Section_.styling section) in
  let item_bg := por (CardStyle.background_color cs) (Card.background_color item) in
  let item_border_color := por (CardStyle.border_color cs) (Card.border_color item) in
  let item_border_width := por (CardStyle.border_width cs) (Card.border_width item) in
  let '(item_border_color, item_border_width) :=
    if negb (truthy item_bg) && negb (truthy item_border_color)
    then (Some "#e0e0e0", Some "1px")
    else (item_border_color, item_border_width) in
  Ok (_column inner None item_bg
        (por (CardStyle.text_color cs) (Card.text_color item))
        (Some (or_else (por (CardStyle.padding cs) (Card.padding item))
                 [("top", "20px"); ("right", "20px"); ("bottom", "20px"); ("left", "20px")]))
        (por (por (CardStyle.border_radius cs) (Card.border_radius item))
             (Styling.card_border_radius section_styling))
        item_border_color item_border_width).

Definition _convert_columns_section (section : Section_.t) : result string :=
  let items := Section_.items section in
  let section_align := _resolve_section_align section in
  col_blocks <- mapM_get (_convert_card section section_align) items ;;
  section_content <- convert_aligned (Section_.content section) section_align ;;
  let cols_html := _columns col_blocks (Some "wide") in
  let bg := Section_.background_color section in
  let pad := Section_.padding section in
  if truthy bg || truthy pad || truthy section_content
  then Ok (_group (section_content ++ [cols_html])%list bg None pad None None
                  (Some "full") "constrained")
  else Ok cols_html.

Definition _convert_cta (section : Section_.t) : result string :=
  let bg := Section_.background section in
  let bg_color := match bg with
                  | None => Background.value Background.empty
                  | Some (Background.Object o) => Background.value o
                  | Some (Background.Flat _) => Section_.background_color section
                  end in
  let bg_color := if negb (truthy bg_color)
                  then Some (get_or "#333333" (Section_.background_color section))
                  else bg_color in
  let section_align := Some (or_else (_resolve_section_align section) "center") in
  content <- convert_aligned (Section_.content section) section_align ;;
  let styling := get_or Styling.empty (Section_.styling section) in
  let pad := or_else (por (Styling.padding styling) (Section_.padding section))
                     [("top", "80px"); ("bottom", "80px")] in
  let min_h := Section_.min_height section in
  Ok (_group content bg_color None (Some (with_side_padding pad))
             (if truthy min_h then Some (str_of_int (get_or 0 min_h) ++ "px") else None)
             None (Some "full") "constrained").

Definition _gallery_entry (img : Image.t) : GalleryImage.t :=
  let caption_parts : list string := [] in
  let caption_parts :=
    if truthy (Image.caption_title img)
    then list_append caption_parts ("<strong>" ++ fstr (Image.caption_title img) ++ "</strong>")
    else caption_parts in
  let caption_parts :=
    if truthy (Image.caption_meta img)
    then list_append caption_parts (fstr (Image.caption_meta img))
    else caption_parts in
  GalleryImage.Build (Some (get_or "Bilde" (Image.description img)))
                     (Image.url img)
                     (Some (if truthy caption_parts
                            then String.concat "<br>" caption_parts else "")).

Definition _convert_image_gallery (section : Section_.t) : result string :=
  let section_align := _resolve_section_align section in
  content_blocks <- convert_aligned (Section_.content section) section_align ;;
  let images := get_or [] (Section_.images section) in
  let layout := get_or Layout.empty (Section_.layout section) in
  let num_cols := get_or (Z.min (len images) 3) (Layout.columns layout) in
  let gallery_images := map _gallery_entry images in
  let gallery_block := _gallery gallery_images num_cols true in
  let bg := Section_.background_color section in
  let pad := Section_.padding section in
  let all_inner := (content_blocks ++ [gallery_block])%list in
  if truthy bg || truthy pad
  then Ok (_group all_inner bg None pad None None (Some "full") "constrained")
  else Ok (String.concat (nl ++ nl) all_inner).

Definition _logo_entry (img : Image.t) : GalleryImage.t :=
  GalleryImage.Build (Some (get_or "Logo" (Image.description img))) (Image.url img) (Some "").

Definition _convert_logo_strip (section : Section_.t) : result string :=
  let section_align := Some (or_else (_resolve_section_align section) "center") in
  content_blocks <- convert_aligned (Section_.content section) section_align ;;
  let images := get_or [] (Section_.images section) in
  let num_logos := if truthy images then len images else 6 in
  let gallery_images := map _logo_entry images in
  let gallery_block := _gallery gallery_images (Z.min num_logos 8) false in
  let bg := Section_.background_color section in
  let pad := get_or [("top", "40px"); ("bottom", "40px")] (Section_.padding section) in
  let all_inner := (content_blocks ++ [gallery_block])%list in
  Ok (_group all_inner bg None (Some pad) None None (Some "full") "constrained").

(** *** The footer: column groups *)

(** One turn of the loop [for c in content] of [_convert_footer], on the
    pair ([col_groups], [current]). *)
Definition footer_scan_step (st : list (list Item.t) * list Item.t) (c : Item.t)
  : list (list Item.t) * list Item.t :=
  let '(col_groups, current) := st in
  let '(col_groups, current) :=
    if eq_str (Item.type c) "heading" && truthy current
    then (list_append col_groups current, [])
    else (col_groups, current) in
  (col_groups, list_append current c).

(** [col_groups] after the loop and the [if current:] that follows it. *)
Definition footer_col_groups (content : list Item.t) : list (list Item.t) :=
  let '(col_groups, current) := fold_left footer_scan_step content ([], []) in
  if truthy current then list_append col_groups current else col_groups.

(** [while len(col_groups) < num_cols: col_groups.append([])] *)
Equations? footer_pad_groups (col_groups : list (list Item.t)) (num_cols : Z)
  : list (list Item.t) by wf (Z.to_nat (num_cols - len col_groups)) lt :=
  footer_pad_groups col_groups num_cols with Z_lt_dec (len col_groups) num_cols := {
    | left _ := footer_pad_groups (list_append col_groups []) num_cols ;
    | right _ := col_groups }.
Proof.
  unfold len, list_append in *. rewrite length_app. simpl. lia.
Qed.

(** [col_blocks] of [_convert_footer]. *)
Definition footer_col_blocks (col_groups : list (list Item.t)) : result (list string) :=
  mapM (fun grp =>
          inner <- mapM _convert_content_item grp ;;
          Ok (_column inner None None None None None None None))
       col_groups.

Definition _convert_footer (section : Section_.t) : result string :=
  let bg_obj := Section_.background section in
  let bg := or_else
              (por (Section_.background_color section)
                   (match bg_obj with
                    | None => Background.value Background.empty
                    | Some (Background.Object o) => Background.value o
                    | Some (Background.Flat _) => None
                    end))
              "#333333" in
  let pad := get_or [("top", "60px"); ("bottom", "60px")] (Section_.padding section) in
  let layout := get_or Layout.empty (Section_.layout section) in
  let num_cols := get_or 1 (Layout.columns layout) in
  let content := get_or [] (Section_.content section) in
  if (num_cols >? 1)%Z then
    let col_groups := footer_col_groups content in
    let col_groups := footer_pad_groups col_groups num_cols in
    col_blocks <- footer_col_blocks col_groups ;;
    let cols := _columns col_blocks (Some "wide") in
    Ok (_group [cols] (Some bg) None (Some (with_side_padding pad)) None None
               (Some "full") "constrained")
  else
    inner <- mapM _convert_content_item content ;;
    Ok (_group inner (Some bg) None (Some (with_side_padding pad)) None None
               (Some "full") "constrained").

Definition _convert_generic (section : Section_.t) : result string :=
  let section_align := _resolve_section_align section in
  content <- convert_aligned (Section_.content section) section_align ;;
  let bg := Section_.background_color section in
  let pad := Section_.padding section in
  if truthy bg || truthy pad || truthy content
  then Ok (_group content bg None pad None None (Some "full") "constrained")
  else Ok "".

(** ** [converter.py]: dispatcher and entry point *)

Definition convert_section (section : Section_.t) : result string :=
  let t := get_or "" (Section_.type section) in
  if String.eqb t "hero" then _convert_hero section
  else if String.eqb t "columns" || String.eqb t "features" || String.eqb t "stats"
       then _convert_columns_section section
  else if String.eqb t "cta" then _convert_cta section
  else if String.eqb t "image-gallery" then _convert_image_gallery section
  else if String.eqb t "logo-strip" then _convert_logo_strip section
  else if String.eqb t "footer" then _convert_footer section
  else _convert_generic section.

Definition _theme_override_css : string :=
  let css :=
    ".site-header { display: none !important; }" ++
    " .site-footer { display: none !important; }" ++
    " .entry-hero-container-inner { display: none !important; }" ++
    " .entry-content-wrap { padding: 0 !important; max-width: 100% !important; }" ++
    " .wp-block-gallery:not(.is-cropped) .wp-block-image img" ++
    " { max-height: 60px; width: auto; object-fit: contain; }" in
  "<!-- wp:html -->" ++ nl ++
  "<style>" ++ css ++ "</style>" ++ nl ++
  "<!-- /wp:html -->".

(** The loop [for i, section in enumerate(sections)] of [convert_layout],
    from index [i] on, with [n = len(sections)]; it returns [blocks]. *)
Fixpoint convert_layout_loop (n i : Z) (sections : list Section_.t) (blocks : list string)
  : result (list string) :=
  match sections with
  | [] => Ok blocks
  | section :: rest =>
      block <- convert_section section ;;
      let blocks :=
        if truthy block then
          let blocks := list_append blocks block in
          if (i <? n - 1)%Z then list_append blocks (_spacer 30) else blocks
        else blocks in
      convert_layout_loop n (i + 1) rest blocks
  end.

(** The list [blocks] of [convert_layout] when it is joined. *)
Definition convert_layout_blocks (layout_data : Document.t) : result (list string) :=
  let sections := get_or [] (Document.sections layout_data) in
  let blocks := [_theme_override_css] in
  convert_layout_loop (len sections) 0 sections blocks.

Definition convert_layout (layout_data : Document.t) : result string :=
  blocks <- convert_layout_blocks layout_data ;;
  Ok (String.concat (nl ++ nl) blocks).

End Converter.
Export Converter.

(** ** [kadence_blocks.py]: the native-extension dialect

    The builders of this dialect call [random.choices] through [_uid].
    The module's random source is modelled by the sequence of the indices
    it will draw; a builder is a function from that source to its markup
    and the source that remains. *)

Module Rand.

(** The random source: [draws i] is the outcome of the [i]-th draw still
    to come. *)
Definition source : Type := nat -> nat.

Definition t (A : Type) : Type := source -> A * source.

Definition ret {A} (a : A) : t A := fun r => (a, r).

Definition bind {A B} (m : t A) (k : A -> t B) : t B :=
  fun r => let '(a, r') := m r in k a r'.

(** One draw. *)
Definition draw : t nat := fun r => (r 0%nat, fun i => r (S i)).

(** [[f(x) for x in l]] when [f] draws. *)
Fixpoint mapM {A B} (f : A -> t B) (l : list A) : t (list B) :=
  match l with
  | [] => ret []
  | x :: l' => bind (f x) (fun y => bind (mapM f l') (fun ys => ret (y :: ys)))
  end.

(** The results of two calls made one after the other. *)
Definition twice {A} (m : t A) : t (A * A) :=
  bind m (fun a => bind m (fun b => ret (a, b))).

(** Calling twice gives the same result, whatever the source holds. *)
Definition repeatable {A} (m : t A) : Prop :=
  forall r : source, fst (fst (twice m r)) = snd (fst (twice m r)).

(** The call draws nothing: one result for every source, which it leaves
    as it found it. *)
Definition draws_nothing {A} (m : t A) : Prop :=
  exists a : A, forall r : source, m r = (a, r).

(** The source that draws 0, 1, 2, ... *)
Definition counting : source := fun i => i.

End Rand.

Notation "x <~ m ;; k" := (Rand.bind m (fun x => k))
  (at level 61, m at next level, right associativity).

Module Kadence.

(** [random.choices(chars, k)] *)
Fixpoint choices (chars : string) (k : nat) : Rand.t string :=
  match k with
  | O => Rand.ret ""
  | S k' =>
      i <~ Rand.draw ;;
      rest <~ choices chars k' ;;
      Rand.ret (String (get_or " "%char (String.get (i mod String.length chars) chars)) rest)
  end.

Definition _uid (prefix : string) : Rand.t string :=
  let chars := "abcdefghijklmnopqrstuvwxyz" ++ "0123456789" in
  rand <~ choices chars 6 ;;
  Rand.ret ("_" ++ prefix ++ rand).

(** [html.escape(text)] *)
Fixpoint html_escape (text : string) : string :=
  match text with
  | EmptyString => EmptyString
  | String c rest =>
      (if Ascii.eqb c "&" then "&amp;"
       else if Ascii.eqb c "<" then "&lt;"
       else if Ascii.eqb c ">" then "&gt;"
       else if Ascii.eqb c dq then "&quot;"
       else if Ascii.eqb c "'" then "&#x27;"
       else String c EmptyString) ++ html_escape rest
  end.

Definition _esc (text : string) : string :=
  if truthy text then html_escape text else "".

Definition _attrs (d : obj) : string :=
  let clean := filter (fun kv => match snd kv with JNull => false | _ => true end) d in
  if negb (truthy clean) then ""
  else " " ++ dumps_with false "," ":" (JObj clean).

(** [uid = unique_id or _uid(prefix)] *)
Definition uid_or (unique_id : option string) (prefix : string) : Rand.t string :=
  if truthy unique_id then Rand.ret (fstr unique_id) else _uid prefix.

(** The four padding attributes that [row_layout] and [kb_column] set. *)
Definition set_padding (padding : option (list Z)) (attrs : obj) : obj :=
  match padding with
  | Some (top :: rest) =>
      let attrs := set "topPadding" (JInt top) attrs in
      let attrs := set "bottomPadding"
                       (JInt (if (len (top :: rest) >? 1)%Z then nth 1 (top :: rest) 0 else top))
                       attrs in
      let attrs := if (len (top :: rest) >? 2)%Z
                   then set "leftPadding" (JInt (nth 2 (top :: rest) 0)) attrs else attrs in
      let attrs := if (len (top :: rest) >? 3)%Z
                   then set "rightPadding" (JInt (nth 3 (top :: rest) 0)) attrs else attrs in
      attrs
  | _ => attrs
  end.

Definition row_layout (inner_blocks : list string) (unique_id : option string)
    (columns : Z) (col_layout : string) (bg_color bg_img : option string)
    (overlay_opacity : option float) (overlay_color : option string)
    (padding margin : option (list Z)) (min_height : option Z) (align : option string)
    (max_width : option Z) (vertical_align : option string) : Rand.t string :=
  uid <~ uid_or unique_id "r" ;;
  let attrs : obj := [("uniqueID", JStr uid); ("columns", JInt columns);
                      ("colLayout", JStr col_layout)] in
  let attrs := if truthy bg_color then set "bgColor" (jstr bg_color) attrs else attrs in
  let attrs := if truthy bg_img
               then set "bgImg"
                        (JArr [JObj [("bgImg", jstr bg_img); ("bgImgSize", JStr "cover");
                                     ("bgImgPosition", JStr "center center")]])
                        attrs
               else attrs in
  let attrs := match overlay_opacity with
               | Some x => set "overlayOpacity" (JFloat x) attrs
               | None => attrs
               end in
  let attrs := if truthy overlay_color
               then set "overlay" (jstr overlay_color) attrs else attrs in
  let attrs := set_padding padding attrs in
  let attrs := match margin with
               | Some (top :: rest) =>
                   let attrs := set "topMargin" (JInt top) attrs in
                   set "bottomMargin"
                       (JInt (if (len (top :: rest) >? 1)%Z then nth 1 (top :: rest) 0 else top))
                       attrs
               | _ => attrs
               end in
  let attrs := if truthy min_height
               then set "minHeightUnit" (JStr "px")
                        (set "minHeight" (JInt (get_or 0 min_height)) attrs)
               else attrs in
  let attrs := if truthy align then set "align" (jstr align) attrs else attrs in
  let attrs := if truthy max_width
               then set "maxWidth" (JInt (get_or 0 max_width)) attrs else attrs in
  let attrs := if truthy vertical_align
               then set "verticalAlignment" (jstr vertical_align) attrs else attrs in
  let inner := String.concat nl inner_blocks in
  Rand.ret ("<!-- wp:kadence/rowlayout" ++ _attrs attrs ++ " -->" ++ nl ++
            inner ++ nl ++
            "<!-- /wp:kadence/rowlayout -->").

Definition kb_column (inner_blocks : list string) (unique_id bg_color : option string)
    (padding : option (list Z)) (text_color text_align : option string) : Rand.t string :=
  uid <~ uid_or unique_id "c" ;;
  let attrs : obj := [("uniqueID", JStr uid); ("id", JInt 1)] in
  let attrs := if truthy bg_color then set "background" (jstr bg_color) attrs else attrs in
  let attrs := if truthy text_color then set "textColor" (jstr text_color) attrs else attrs in
  let attrs := if truthy text_align
               then set "textAlign" (JArr [jstr text_align; JStr ""; JStr ""]) attrs
               else attrs in
  let attrs := set_padding padding attrs in
  let inner := String.concat nl inner_blocks in
  Rand.ret ("<!-- wp:kadence/column" ++ _attrs attrs ++ " -->" ++ nl ++
            lit "<div class=`wp-block-kadence-column kadence-column" ++ uid ++
            lit "`><div class=`kt-inside-inner-col`>" ++ inner ++ "</div></div>" ++ nl ++
            "<!-- /wp:kadence/column -->").

Definition adv_heading (text : string) (unique_id : option string) (level : Z)
    (color : option string) (size : option Z) (align font_weight : option string)
    (line_height letter_spacing : option float) (margin padding : option (list Z))
    (font_family : option string) : Rand.t string :=
  uid <~ uid_or unique_id "h" ;;
  let attrs : obj := [("uniqueID", JStr uid); ("level", JInt level)] in
  let attrs := if truthy color then set "color" (jstr color) attrs else attrs in
  let attrs := if truthy size
               then set "fontSize" (JArr [JInt (get_or 0 size); JStr ""; JStr ""]) attrs
               else attrs in
  let attrs := if truthy align then set "align" (jstr align) attrs else attrs in
  let attrs := if truthy font_weight
               then set "fontWeight" (jstr font_weight) attrs else attrs in
  let attrs := match line_height with
               | Some x => if truthy x
                           then set "lineHeight" (JArr [JFloat x; JStr ""; JStr ""]) attrs
                           else attrs
               | None => attrs
               end in
  let attrs := match letter_spacing with
               | Some x => if truthy x then set "letterSpacing" (JFloat x) attrs else attrs
               | None => attrs
               end in
  let attrs := if truthy margin
               then set "margin" (JArr (map JInt (get_or [] margin))) attrs else attrs in
  let attrs := if truthy padding
               then set "padding" (JArr (map JInt (get_or [] padding))) attrs else attrs in
  let attrs := if truthy font_family
               then set "typography" (jstr font_family) attrs else attrs in
  let tag := "h" ++ str_of_int level in
  Rand.ret ("<!-- wp:kadence/advancedheading" ++ _attrs attrs ++ " -->" ++ nl ++
            "<" ++ tag ++ lit " class=`kt-adv-heading" ++ uid ++
            lit " wp-block-kadence-advancedheading` data-kb-block=`kb-adv-heading" ++ uid ++
            lit "`>" ++ _esc text ++ "</" ++ tag ++ ">" ++ nl ++
            "<!-- /wp:kadence/advancedheading -->").

(** One turn of the loop [for btn in buttons_data] of [adv_btn]: the
    markup of one button.  A button is a dictionary of JSON values. *)
Definition single_btn (btn : obj) : Rand.t string :=
  btn_uid <~ _uid "sb" ;;
  let btn_attrs : obj :=
    [("uniqueID", JStr btn_uid);
     ("text", get_or (JStr "Button") (Json.get "text" btn));
     ("sizePreset", get_or (JStr "medium") (Json.get "size" btn))] in
  let btn_attrs := if truthy (Json.get "link" btn)
                   then set "link" (get_or JNull (Json.get "link" btn)) btn_attrs
                   else btn_attrs in
  let btn_attrs := if truthy (Json.get "color" btn)
                   then set "color" (get_or JNull (Json.get "color" btn)) btn_attrs
                   else btn_attrs in
  let btn_attrs := if truthy (Json.get "background" btn)
                   then set "background" (get_or JNull (Json.get "background" btn)) btn_attrs
                   else btn_attrs in
  let btn_attrs := if truthy (Json.get "border_radius" btn)
                   then set "borderRadius" (get_or JNull (Json.get "border_radius" btn))
                            btn_attrs
                   else btn_attrs in
  Rand.ret ("<!-- wp:kadence/singlebtn" ++ _attrs btn_attrs ++ " /-->").

Definition adv_btn (buttons_data : list obj) (unique_id : option string) (align : string)
  : Rand.t string :=
  uid <~ uid_or unique_id "b" ;;
  btn_blocks <~ Rand.mapM single_btn buttons_data ;;
  let attrs : obj := [("uniqueID", JStr uid); ("hAlign", JStr align)] in
  let inner := String.concat nl btn_blocks in
  Rand.ret ("<!-- wp:kadence/advancedbtn" ++ _attrs attrs ++ " -->" ++ nl ++
            lit "<div class=`wp-block-kadence-advancedbtn kb-buttons-wrap kb-btns" ++ uid ++
            " kt-btn-align-" ++ align ++ " kt-btns-wrap kt-btns" ++ uid ++ lit "`>" ++ nl ++
            inner ++ nl ++ "</div>" ++ nl ++
            "<!-- /wp:kadence/advancedbtn -->").

Definition info_box (title text : string) (unique_id icon : option string)
    (media_type : string) (img_url link title_color text_color bg_color : option string)
    (align : string) : Rand.t string :=
  uid <~ uid_or unique_id "ib" ;;
  let attrs : obj := [("uniqueID", JStr uid); ("mediaType", JStr media_type);
                      ("hAlign", JStr align)] in
  let attrs := if truthy icon
               then set "mediaIcon" (JArr [JObj [("icon", jstr icon)]]) attrs else attrs in
  let attrs := if truthy img_url
               then set "mediaImage" (JArr [JObj [("url", jstr img_url)]]) attrs else attrs in
  let attrs := if truthy link then set "link" (jstr link) attrs else attrs in
  let attrs := if truthy title_color
               then set "titleColor" (jstr title_color) attrs else attrs in
  let attrs := if truthy text_color
               then set "textColor" (jstr text_color) attrs else attrs in
  let attrs := if truthy bg_color
               then set "containerBackground" (jstr bg_color) attrs else attrs in
  Rand.ret ("<!-- wp:kadence/infobox" ++ _attrs attrs ++ " /-->").

Definition kb_spacer (height : Z) (unique_id : option string) : Rand.t string :=
  uid <~ uid_or unique_id "s" ;;
  let attrs : obj := [("uniqueID", JStr uid); ("spacerHeight", JInt height)] in
  Rand.ret ("<!-- wp:kadence/spacer" ++ _attrs attrs ++ " /-->").

Definition kb_image (url : string) (unique_id : option string) (alt : string)
    (wp_id : option Z) (align : option string) (max_width : option Z) : Rand.t string :=
  uid <~ uid_or unique_id "i" ;;
  let attrs : obj := [("uniqueID", JStr uid); ("imgLink", JStr url)] in
  let attrs := if truthy wp_id then set "id" (JInt (get_or 0 wp_id)) attrs else attrs in
  let attrs := if truthy align then set "align" (jstr align) attrs else attrs in
  let attrs := if truthy max_width
               then set "maxWidth" (JInt (get_or 0 max_width)) attrs else attrs in
  Rand.ret ("<!-- wp:kadence/image" ++ _attrs attrs ++ " -->" ++ nl ++
            lit "<figure class=`wp-block-kadence-image kb-image" ++ uid ++ lit "`>" ++
            lit "<img src=`" ++ url ++ lit "` alt=`" ++ _esc alt ++
            lit "` class=`kb-img`/></figure>" ++ nl ++
            "<!-- /wp:kadence/image -->").

Definition testimonials (items : list obj) (unique_id : option string) (columns : Z)
    (style : string) : Rand.t string :=
  uid <~ uid_or unique_id "t" ;;
  let test_data :=
    map (fun item =>
           JObj [("content", get_or (JStr "") (Json.get "text" item));
                 ("name", get_or (JStr "") (Json.get "name" item));
                 ("title", get_or (JStr "") (Json.get "title" item));
                 ("icon", JStr "star");
                 ("rating", get_or (JInt 5) (Json.get "rating" item))])
        items in
  let attrs : obj := [("uniqueID", JStr uid); ("testimonials", JArr test_data);
                      ("columns", JArr [JInt columns; JInt columns; JInt 1]);
                      ("style", JStr style)] in
  Rand.ret ("<!-- wp:kadence/testimonials" ++ _attrs attrs ++ " /-->").

Definition icon_list (items : list obj) (unique_id : option string) (icon : string)
    (color : option string) : Rand.t string :=
  uid <~ uid_or unique_id "il" ;;
  let list_items :=
    map (fun item =>
           JObj [("icon", get_or (JStr icon) (Json.get "icon" item));
                 ("text", get_or (JStr "") (Json.get "text" item))])
        items in
  let attrs : obj := [("uniqueID", JStr uid); ("items", JArr list_items)] in
  let attrs := if truthy color
               then set "listStyles" (JArr [JObj [("color", jstr color)]]) attrs
               else attrs in
  Rand.ret ("<!-- wp:kadence/iconlist" ++ _attrs attrs ++ " /-->").

Definition form_field (label type : string) (required : bool) (width : string) : json :=
  JObj [("label", JStr label); ("type", JStr type); ("required", JBool required);
        ("width", JArr [JStr width; JStr ""; JStr ""])].

Definition form_block (unique_id : option string) (email subject submit_text : string)
    (fields : option (list json)) : Rand.t string :=
  uid <~ uid_or unique_id "f" ;;
  let fields :=
    if negb (truthy fields)
    then [form_field "Navn" "text" true "50";
          form_field "E-post" "email" true "50";
          form_field "Telefon" "text" false "50";
          form_field "Emne" "text" false "50";
          form_field "Melding" "textarea" true "100"]
    else get_or [] fields in
  let attrs : obj :=
    [("uniqueID", JStr uid); ("fields", JArr fields);
     ("email", JArr [JObj [("emailTo", JStr email); ("subject", JStr subject)]]);
     ("submit", JArr [JObj [("label", JStr submit_text)]]);
     ("actions", JArr [JStr "email"])] in
  Rand.ret ("<!-- wp:kadence/form" ++ _attrs attrs ++ " /-->").

End Kadence.

(** ** [gutenberg_blocks.py]: the core blocks that the page builder uses *)

Module Gutenberg.

Definition _attrs (block_attrs : obj) : string :=
  if negb (truthy block_attrs) then ""
  else
    let clean := filter (fun kv => match snd kv with JNull => false | _ => true end)
                        block_attrs in
    if negb (truthy clean) then ""
    else " " ++ dumps_with false ", " ": " (JObj clean).

Definition _esc (text : string) : string :=
  if truthy text then Kadence.html_escape text else "".

Definition paragraph (text : string) (align text_color background_color font_size
    : option string) (drop_cap : bool) (style : option obj) : string :=
  let attrs : obj := [] in
  let attrs := if truthy align then set "align" (jstr align) attrs else attrs in
  let attrs := if truthy text_color then set "textColor" (jstr text_color) attrs else attrs in
  let attrs := if truthy background_color
               then set "backgroundColor" (jstr background_color) attrs else attrs in
  let attrs := if truthy font_size then set "fontSize" (jstr font_size) attrs else attrs in
  let attrs := if drop_cap then set "dropCap" (JBool true) attrs else attrs in
  let attrs := if truthy style then set "style" (JObj (get_or [] style)) attrs else attrs in
  let classes : list string := [] in
  let classes := if truthy align
                 then list_append classes ("has-text-align-" ++ fstr align) else classes in
  let classes := if truthy text_color
                 then list_append classes ("has-" ++ fstr text_color ++ "-color has-text-color")
                 else classes in
  let classes := if truthy background_color
                 then list_append classes
                        ("has-" ++ fstr background_color ++ "-background-color has-background")
                 else classes in
  let classes := if truthy font_size
                 then list_append classes ("has-" ++ fstr font_size ++ "-font-size")
                 else classes in
  let classes := if drop_cap then list_append classes "has-drop-cap" else classes in
  let class_attr := if truthy classes
                    then lit " class=`" ++ String.concat " " classes ++ lit "`" else "" in
  "<!-- wp:paragraph" ++ _attrs attrs ++ " -->" ++ nl ++
  "<p" ++ class_attr ++ ">" ++ _esc text ++ "</p>" ++ nl ++
  "<!-- /wp:paragraph -->".

Definition separator (style_type : string) (color : option string) : string :=
  let attrs : obj := [] in
  let classes := ["wp-block-separator has-alpha-channel-opacity"] in
  let '(attrs, classes) :=
    if String.eqb style_type "wide"
    then (set "className" (JStr "is-style-wide") attrs, list_append classes "is-style-wide")
    else if String.eqb style_type "dots"
    then (set "className" (JStr "is-style-dots") attrs, list_append classes "is-style-dots")
    else (attrs, classes) in
  let attrs := if truthy color then set "backgroundColor" (jstr color) attrs else attrs in
  "<!-- wp:separator" ++ _attrs attrs ++ " -->" ++ nl ++
  lit "<hr class=`" ++ String.concat " " classes ++ lit "`/>" ++ nl ++
  "<!-- /wp:separator -->".

Definition list_block (items : list string) (ordered : bool) : string :=
  let attrs : obj := [] in
  let attrs := if ordered then set "ordered" (JBool true) attrs else attrs in
  let tag := if ordered then "ol" else "ul" in
  let li_html :=
    String.concat nl
      (map (fun item => "<!-- wp:list-item -->" ++ nl ++ "<li>" ++ _esc item ++ "</li>" ++ nl ++
                        "<!-- /wp:list-item -->") items) in
  "<!-- wp:list" ++ _attrs attrs ++ " -->" ++ nl ++
  "<" ++ tag ++ ">" ++ nl ++ li_html ++ nl ++ "</" ++ tag ++ ">" ++ nl ++
  "<!-- /wp:list -->".

Definition quote (text : string) (citation align : option string) : string :=
  let attrs : obj := [] in
  let attrs := if truthy align then set "align" (jstr align) attrs else attrs in
  let cite := if truthy citation
              then nl ++ "<cite>" ++ _esc (fstr citation) ++ "</cite>" else "" in
  "<!-- wp:quote" ++ _attrs attrs ++ " -->" ++ nl ++
  lit "<blockquote class=`wp-block-quote`>" ++ nl ++
  "<p>" ++ _esc text ++ "</p>" ++ cite ++ nl ++
  "</blockquote>" ++ nl ++
  "<!-- /wp:quote -->".

End Gutenberg.

(** ** The layout document as [page_builder.py] reads it

    The page builder reads more keys of the same document than the
    converter does; its records are declared on their own. *)

(** An entry of [uploaded_images]. *)
Module Upload.
Record t : Type := Build {
  filename : option string;
  original_index : option Z;
  url : option string;
  id : option Z }.
End Upload.

(** A key of [img_map]: a file name or an index. *)
Module Key.
Inductive t : Type :=
  | Str (s : string)
  | Int (n : Z).
Definition eqb (a b : t) : bool :=
  match a, b with
  | Str x, Str y => String.eqb x y
  | Int x, Int y => (x =? y)%Z
  | _, _ => false
  end.
End Key.

(** An entry of the [fields] list of a form item. *)
Module Field.
Record t : Type := Build {
  label : option string;
  type : option string;
  required : option bool }.
End Field.

(** An entry of the [images] list of a nested image gallery. *)
Module Logo.
Record t : Type := Build {
  alt : option string;
  width : option Z;
  height : option Z }.
End Logo.

(** A content item.  The key [items] holds button entries in a [buttons]
    item, strings in a [list] or [icon_list] item and column entries in a
    [columns] item: [buttons], [entries] and [column_items]. *)
Module PageItem.
Inductive t : Type := Build {
  type : option string;
  text : option string;
  level : option Z;
  color : option string;
  font_size : option string;
  align : option string;
  font_weight : option string;
  url : option string;
  alt : option string;
  width : option Z;
  height : option Z;
  buttons : option (list Button.t);
  entries : option (list string);
  ordered : option bool;
  citation : option string;
  images : option (list Logo.t);
  fields : option (list Field.t);
  columns : option Z;
  column_items : option (list entry) }
with entry : Type := Entry {
  content : option (list t) }.

Definition of_type (type : string) : t :=
  Build (Some type) None None None None None None None None None None None None None
        None None None None None.
End PageItem.

Module PageBackground.
Record object : Type := Build {
  type : option string;
  value : option string;
  overlay_color : option string;
  overlay_opacity : option Z }.
Inductive t : Type :=
  | Object (o : object)
  | Flat (s : string).
Definition empty : object := Build None None None None.
End PageBackground.

Module PageSection.
Record t : Type := Build {
  type : option string;
  background : option PageBackground.t;
  background_color : option string;
  min_height : option Z;
  align : option string;
  content : option (list PageItem.t);
  items : option (list PageItem.entry);
  columns : option Z;
  media_description : option string;
  media_position : option string;
  text : option string;
  citation : option string;
  address : option string }.

Definition of_type (type : string) (content : option (list PageItem.t)) : t :=
  Build (Some type) None None None None content None None None None None None None.
End PageSection.

Module PageDocument.
Record t : Type := Build {
  page_title : option string;
  sections : option (list PageSection.t) }.
End PageDocument.

(** ** [page_builder.py]

    A function of the page builder draws identifiers and may raise: it
    maps the random source to a [result] and the source that remains. *)

Module Build.

Definition t (A : Type) : Type := Rand.t (result A).

Definition ok {A} (a : A) : t A := Rand.ret (Ok a).

Definition raise {A} (e : py_error) : t A := Rand.ret (Raise e).

Definition bind {A B} (m : t A) (k : A -> t B) : t B :=
  fun r => match m r with
           | (Ok a, r') => k a r'
           | (Raise e, r') => (Raise e, r')
           end.

(** A builder of the dialect, which draws and does not raise. *)
Definition call {A} (m : Rand.t A) : t A :=
  fun r => let '(a, r') := m r in (Ok a, r').

(** A step that raises and does not draw. *)
Definition try {A} (m : result A) : t A := Rand.ret m.

(** [[f(x) for x in l]] and the loops that append [f(x)] for each [x]. *)
Definition mapM {A B} (f : A -> t B) : list A -> t (list B) :=
  fix go (l : list A) : t (list B) :=
    match l with
    | [] => ok []
    | x :: l' => bind (f x) (fun y => bind (go l') (fun ys => ok (y :: ys)))
    end.

Definition mapM_get {A B} (f : A -> t B) (o : option (list A)) : t (list B) :=
  match o with
  | None => ok []
  | Some l => mapM f l
  end.

End Build.

Notation "x <~~ m ;; k" := (Build.bind m (fun x => k))
  (at level 61, m at next level, right associativity).

Module PageBuilder.

(** [img_map] *)
Definition img_map : Type := list (Key.t * Upload.t).

Fixpoint img_get (k : Key.t) (m : img_map) : option Upload.t :=
  match m with
  | [] => None
  | (k', v) :: m' => if Key.eqb k' k then Some v else img_get k m'
  end.

(** [img_map[k] = img] *)
Fixpoint img_set (k : Key.t) (img : Upload.t) (m : img_map) : img_map :=
  match m with
  | [] => [(k, img)]
  | (k', v) :: m' => if Key.eqb k' k then (k', img) :: m' else (k', v) :: img_set k img m'
  end.

(** [s.replace(pat, by)] for a pattern of one character or more; [skip]
    counts the characters of a match still to pass. *)
Fixpoint replace_from (pat by_ : string) (skip : nat) (s : string) : string :=
  match s with
  | EmptyString => EmptyString
  | String c s' =>
      match skip with
      | S k => replace_from pat by_ k s'
      | O => if prefix pat s
             then by_ ++ replace_from pat by_ (String.length pat - 1) s'
             else String c (replace_from pat by_ 0 s')
      end
  end.

Definition replace (pat by_ s : string) : string := replace_from pat by_ 0 s.

(** [f(i, x) for i, x in enumerate(l)] *)
Definition enumerate {A} (l : list A) : list (Z * A) :=
  combine (map Z.of_nat (seq 0 (List.length l))) l.

(** The six letters that [sanitize_norwegian] rewrites, as code points. *)
Definition ae : ascii := ascii_of_nat 230.
Definition AE : ascii := ascii_of_nat 198.
Definition oslash : ascii := ascii_of_nat 248.
Definition Oslash : ascii := ascii_of_nat 216.
Definition aring : ascii := ascii_of_nat 229.
Definition Aring : ascii := ascii_of_nat 197.

Definition sanitize_norwegian (text : string) : string :=
  replace_char Aring "A"
    (replace_char aring "a"
       (replace_char Oslash "O"
          (replace_char oslash "o"
             (replace_char AE "Ae"
                (replace_char ae "ae" text))))).

Section Library.

(** The functions of Python's library that the page builder calls:
    [urllib.parse.quote], [str.lower], [str.split], [str.strip], [int] on a
    string ([None] when it raises [ValueError]) and [repr] on a float. *)
Variable url_quote : string -> string.
Variable str_lower : string -> string.
Variable str_split : string -> list string.
Variable str_strip : string -> string.
Variable int_of_str : string -> option Z.
Variable repr_float : Q -> string.

Definition _placeholder_svg (desc : string) (w h : Z) : string :=
  let safe_desc := replace_char dq "'" (take 40 desc) in
  let svg :=
    lit "<svg xmlns=`http://www.w3.org/2000/svg` width=`" ++ str_of_int w ++
    lit "` height=`" ++ str_of_int h ++ lit "`>" ++
    lit "<rect width=`100%` height=`100%` fill=`#e0e0e0`/>" ++
    lit "<text x=`50%` y=`50%` dominant-baseline=`middle` text-anchor=`middle` " ++
    lit "font-family=`Arial,sans-serif` font-size=`16` fill=`#666`>" ++ safe_desc ++
    "</text>" ++
    "</svg>" in
  let encoded := url_quote svg in
  "data:image/svg+xml," ++ encoded.

(** [img["url"], img.get("id", 0)] *)
Definition url_and_id (img : Upload.t) : result (string * Z) :=
  match Upload.url img with
  | None => Raise (KeyError "url")
  | Some url => Ok (url, get_or 0 (Upload.id img))
  end.

Definition _get_image_url (m : img_map) (description : string) (index fallback_w
    fallback_h : Z) : result (string * Z) :=
  match img_get (Key.Int index) m with
  | Some img => url_and_id img
  | None =>
      let desc_lower := if truthy description then str_lower description else "" in
      let words := filter (fun w => (Z.of_nat (String.length w) >? 3)%Z)
                          (firstn 2 (str_split desc_lower)) in
      let matches kv :=
        match fst kv with
        | Key.Str key => existsb (fun w => contains w (str_lower key)) words
        | Key.Int _ => false
        end in
      match find matches m with
      | Some (_, img) => url_and_id img
      | None => Ok (_placeholder_svg description fallback_w fallback_h, 0)
      end
  end.

Definition _parse_px (val : option string) : result (option Z) :=
  match val with
  | None => Ok None
  | Some val =>
      let digits := str_strip (replace "em" "" (replace "px" "" val)) in
      match int_of_str (if truthy digits then digits else "0") with
      | Some n => Ok (Some n)
      | None => Raise (ValueError "int")
      end
  end.

(** The dictionary that [_build_content_item] makes of a button entry. *)
Definition btn_data (btn : Button.t) : obj :=
  [("text", JStr (get_or "Knapp" (Button.text btn)));
   ("link", JStr (get_or "#" (Button.url btn)));
   ("background", JStr (get_or "#c8a97e" (Button.bg_color btn)));
   ("color", JStr (get_or "#ffffff" (Button.text_color btn)));
   ("border_radius", match Button.border_radius btn with
                     | Some radius => JStr radius
                     | None => JInt 4
                     end)].

(** One column of a nested image gallery. *)
Definition logo_column (img : Logo.t) : Build.t string :=
  let alt := get_or "Logo" (Logo.alt img) in
  let url := _placeholder_svg alt (get_or 100 (Logo.width img)) (get_or 50 (Logo.height img)) in
  image <~~ Build.call (Kadence.kb_image url None alt None None None) ;;
  Build.call (Kadence.kb_column [image] None None None None None).

Fixpoint _build_content_item (item : PageItem.t) (m : img_map) : Build.t string :=
  let t := get_or "" (PageItem.type item) in
  if String.eqb t "heading" then
    size <~~ Build.try (_parse_px (PageItem.font_size item)) ;;
    Build.call (Kadence.adv_heading (get_or "" (PageItem.text item)) None
                  (get_or 2 (PageItem.level item)) (PageItem.color item) size
                  (PageItem.align item) (PageItem.font_weight item)
                  None None None None None)
  else if String.eqb t "paragraph" then
    let style : obj := [] in
    let style := if truthy (PageItem.color item)
                 then set "color" (JObj [("text", jstr (PageItem.color item))]) style
                 else style in
    let style := if truthy (PageItem.font_size item)
                 then set "typography" (JObj [("fontSize", jstr (PageItem.font_size item))])
                          style
                 else style in
    Build.ok (Gutenberg.paragraph (get_or "" (PageItem.text item)) (PageItem.align item)
                None None None false (if truthy style then Some style else None))
  else if String.eqb t "image" then
    let url := PageItem.url item in
    let alt := get_or "Bilde" (PageItem.alt item) in
    url <~~ (if negb (truthy url)
             then found <~~ Build.try (_get_image_url m alt (-1)
                                         (get_or 800 (PageItem.width item))
                                         (get_or 400 (PageItem.height item))) ;;
                  Build.ok (fst found)
             else Build.ok (fstr url)) ;;
    Build.call (Kadence.kb_image url None alt None None None)
  else if String.eqb t "buttons" then
    let btns := map btn_data (get_or [] (PageItem.buttons item)) in
    Build.call (Kadence.adv_btn btns None (get_or "center" (PageItem.align item)))
  else if String.eqb t "list" then
    Build.ok (Gutenberg.list_block (get_or [] (PageItem.entries item))
                (get_or false (PageItem.ordered item)))
  else if String.eqb t "spacer" then
    Build.call (Kadence.kb_spacer (get_or 40 (PageItem.height item)) None)
  else if String.eqb t "separator" then
    Build.ok (Gutenberg.separator "default" None)
  else if String.eqb t "quote" then
    Build.ok (Gutenberg.quote (get_or "" (PageItem.text item)) (PageItem.citation item) None)
  else if String.eqb t "icon_list" then
    let list_items := map (fun i => [("text", JStr i)]) (get_or [] (PageItem.entries item)) in
    Build.call (Kadence.icon_list list_items None "fe_check" None)
  else if String.eqb t "image-gallery" && truthy (get_or [] (PageItem.images item)) then
    let images := get_or [] (PageItem.images item) in
    let cols := Z.min (len images) 6 in
    col_blocks <~~ Build.mapM logo_column images ;;
    Build.call (Kadence.row_layout col_blocks None cols "equal" None None None None
                  (Some [20; 20; 15; 15]) None None (Some "full") None (Some "middle"))
  else if String.eqb t "columns" then
    let items := PageItem.column_items item in
    let num_cols := get_or (len (get_or [] items)) (PageItem.columns item) in
    col_blocks <~~
      Build.mapM_get
        (fun col_item =>
           col_inner <~~ Build.mapM_get (fun c => _build_content_item c m)
                           (PageItem.content col_item) ;;
           Build.call (Kadence.kb_column col_inner None None None None None))
        items ;;
    Build.call (Kadence.row_layout col_blocks None num_cols "equal" None None None None
                  (Some [20; 20; 15; 15]) None None (Some "full") None (Some "middle"))
  else
    Build.ok ("<!-- Unknown: " ++ t ++ " -->").

(** [[_build_content_item(c, img_map) for c in content]] *)
Definition build_items (content : option (list PageItem.t)) (m : img_map)
  : Build.t (list string) :=
  Build.mapM_get (fun c => _build_content_item c m) content.

(** [bg.get(...)] on the value of the key [background]. *)
Definition as_object (bg : option PageBackground.t) : result PageBackground.object :=
  match bg with
  | None => Ok PageBackground.empty
  | Some (PageBackground.Object o) => Ok o
  | Some (PageBackground.Flat _) => Raise (AttributeError "get")
  end.

Definition _build_hero (section : PageSection.t) (m : img_map) : Build.t string :=
  let bg := PageSection.background section in
  inner_blocks <~~ build_items (PageSection.content section) m ;;
  bg <~~ Build.try (as_object bg) ;;
  colours <~~
    (if eq_str (PageBackground.type bg) "image" then
       found <~~ Build.try (_get_image_url m
                              (get_or "hero background" (PageBackground.value bg))
                              0 1920 800) ;;
       Build.ok (Some (fst found), None)
     else if eq_str (PageBackground.type bg) "color" then
       Build.ok (None, Some (get_or "#1a1a2e" (PageBackground.value bg)))
     else if prefix "#" (get_or "" (PageBackground.value bg)) then
       Build.ok (None, PageBackground.value bg)
     else Build.ok (None, None)) ;;
  let '(bg_img_url, bg_color) := colours in
  let bg_color := if negb (truthy bg_color) && negb (truthy bg_img_url)
                  then Some "#1a1a2e" else bg_color in
  col <~~ Build.call (Kadence.kb_column inner_blocks None None None None
                        (Some (get_or "center" (PageSection.align section)))) ;;
  let opacity := true_div (get_or 50 (PageBackground.overlay_opacity bg)) 100 in
  Build.call (Kadence.row_layout [col] None 1 "equal" bg_color bg_img_url
                (if truthy bg_img_url then Some (Float opacity (repr_float opacity)) else None)
                (if truthy bg_img_url
                 then Some (get_or "#000000" (PageBackground.overlay_color bg)) else None)
                (Some [80; 80; 30; 30]) None
                (Some (get_or 600 (PageSection.min_height section)))
                (Some "full") None (Some "middle")).

(** One column of a columns section or of a card grid, before its
    [kb_column] call. *)
Definition card_inner (m : img_map) (item : PageItem.entry) : Build.t (list string) :=
  build_items (PageItem.content item) m.

Definition _build_columns_section (section : PageSection.t) (m : img_map) : Build.t string :=
  let items := get_or [] (PageSection.items section) in
  let num_cols := get_or (if truthy (len items) then len items else 3)
                         (PageSection.columns section) in
  let bg_color := PageSection.background_color section in
  col_blocks <~~
    Build.mapM (fun item =>
                  inner <~~ card_inner m item ;;
                  Build.call (Kadence.kb_column inner None None None None (Some "center")))
               items ;;
  Build.call (Kadence.row_layout col_blocks None num_cols "equal" bg_color None None None
                (Some [60; 60; 30; 30]) None None (Some "full") None (Some "middle")).

Definition _build_text_section (section : PageSection.t) (m : img_map) : Build.t string :=
  inner <~~ build_items (PageSection.content section) m ;;
  col <~~ Build.call (Kadence.kb_column inner None None None None
                        (Some (get_or "center" (PageSection.align section)))) ;;
  Build.call (Kadence.row_layout [col] None 1 "equal"
                (PageSection.background_color section) None None None
                (Some [60; 60; 30; 30]) None None (Some "full") None (Some "middle")).

Definition _build_media_text (section : PageSection.t) (m : img_map) : Build.t string :=
  inner <~~ build_items (PageSection.content section) m ;;
  let media_desc := get_or "image" (PageSection.media_description section) in
  found <~~ Build.try (_get_image_url m media_desc (-1) 600 400) ;;
  let '(img_url, wp_id) := found in
  let pos := get_or "left" (PageSection.media_position section) in
  image <~~ Build.call (Kadence.kb_image img_url None media_desc (Some wp_id) None None) ;;
  img_col <~~ Build.call (Kadence.kb_column [image] None None None None None) ;;
  text_col <~~ Build.call (Kadence.kb_column inner None None None None None) ;;
  let cols := if String.eqb pos "left" then [img_col; text_col] else [text_col; img_col] in
  Build.call (Kadence.row_layout cols None 2 "equal" None None None None
                (Some [60; 60; 30; 30]) None None (Some "full") None (Some "middle")).

(** One turn of the loop of [_build_testimonial] on ([text], [citation]). *)
Definition testimonial_step (st : string * string) (c : PageItem.t) : string * string :=
  let '(text, citation) := st in
  if eq_str (PageItem.type c) "paragraph" then (get_or text (PageItem.text c), citation)
  else if eq_str (PageItem.type c) "heading" then (text, get_or citation (PageItem.text c))
  else (text, citation).

Definition _build_testimonial (section : PageSection.t) : Build.t string :=
  let text := get_or "" (PageSection.text section) in
  let citation := get_or "" (PageSection.citation section) in
  let '(text, citation) :=
    if truthy (PageSection.content section)
    then fold_left testimonial_step (get_or [] (PageSection.content section)) (text, citation)
    else (text, citation) in
  let items : list obj := [[("text", JStr text); ("name", JStr citation); ("title", JStr "")]] in
  block <~~ Build.call (Kadence.testimonials items None 1 "card") ;;
  col <~~ Build.call (Kadence.kb_column [block] None None None None None) ;;
  Build.call (Kadence.row_layout [col] None 1 "equal" None None None None
                (Some [60; 60]) None None (Some "full") None (Some "middle")).

Definition _build_cta (section : PageSection.t) (m : img_map) : Build.t string :=
  inner <~~ build_items (PageSection.content section) m ;;
  col <~~ Build.call (Kadence.kb_column inner None None None None (Some "center")) ;;
  Build.call (Kadence.row_layout [col] None 1 "equal"
                (Some (get_or "#1a1a2e" (PageSection.background_color section)))
                None None None (Some [80; 80; 30; 30]) None None (Some "full") None
                (Some "middle")).

(** One card of the grid of [_build_gallery]. *)
Definition gallery_card (m : img_map) (indexed : Z * PageItem.entry) : Build.t string :=
  let '(i, item) := indexed in
  inner <~~ card_inner m item ;;
  inner <~~ (if negb (truthy inner)
             then found <~~ Build.try (_get_image_url m ("gallery " ++ str_of_int i) i 800 400) ;;
                  image <~~ Build.call (Kadence.kb_image (fst found) None ""
                                          (Some (snd found)) None None) ;;
                  Build.ok (list_append inner image)
             else Build.ok inner) ;;
  Build.call (Kadence.kb_column inner None None None None None).

(** One image of the list of [_build_gallery]. *)
Definition gallery_image (m : img_map) (indexed : Z * PageItem.t) : Build.t string :=
  let '(i, img) := indexed in
  let alt := get_or ("Bilde " ++ str_of_int (i + 1)) (PageItem.alt img) in
  found <~~ Build.try (_get_image_url m alt i (get_or 300 (PageItem.width img))
                         (get_or 200 (PageItem.height img))) ;;
  image <~~ Build.call (Kadence.kb_image (fst found) None alt (Some (snd found)) None None) ;;
  Build.call (Kadence.kb_column [image] None None None None None).

Definition _build_gallery (section : PageSection.t) (m : img_map) : Build.t string :=
  let items := get_or [] (PageSection.items section) in
  let content := get_or [] (PageSection.content section) in
  if truthy items then
    let cols := if truthy items then Z.min (len items) 4 else 3 in
    col_blocks <~~ Build.mapM (gallery_card m) (enumerate items) ;;
    Build.call (Kadence.row_layout col_blocks None cols "equal"
                  (PageSection.background_color section) None None None
                  (Some [40; 40; 15; 15]) None None (Some "full") None (Some "middle"))
  else if truthy content then
    let images := filter (fun c => eq_str (PageItem.type c) "image") content in
    let cols := if truthy images then Z.min (len images) 4 else 3 in
    col_blocks <~~ Build.mapM (gallery_image m) (enumerate images) ;;
    if truthy col_blocks
    then Build.call (Kadence.row_layout col_blocks None cols "equal" None None None None
                       (Some [40; 40; 15; 15]) None None (Some "full") None (Some "middle"))
    else Build.ok ""
  else Build.ok "".

(** The form field that [_build_contact] makes of a field of the layout. *)
Definition contact_field (f : Field.t) : json :=
  let label := get_or "" (Field.label f) in
  let ftype := get_or "text" (Field.type f) in
  let ftype := if String.eqb ftype "tel" then "text" else ftype in
  let width := if negb (String.eqb ftype "textarea") then "50" else "100" in
  Kadence.form_field label ftype (get_or false (Field.required f)) width.

(** One turn of the loop of [_build_contact] on ([inner], [form_fields]). *)
Definition contact_step (st : list string * option (list Field.t)) (c : PageItem.t)
  : Build.t (list string * option (list Field.t)) :=
  let '(inner, form_fields) := st in
  if eq_str (PageItem.type c) "form"
  then Build.ok (inner, Some (get_or [] (PageItem.fields c)))
  else block <~~ _build_content_item c [] ;;
       Build.ok (list_append inner block, form_fields).

Fixpoint contact_loop (content : list PageItem.t) (st : list string * option (list Field.t))
  : Build.t (list string * option (list Field.t)) :=
  match content with
  | [] => Build.ok st
  | c :: rest => st <~~ contact_step st c ;; contact_loop rest st
  end.

Definition _build_contact (section : PageSection.t) : Build.t string :=
  let content := get_or [] (PageSection.content section) in
  st <~~ contact_loop content ([], None) ;;
  let '(inner, form_fields) := st in
  form <~~ (if truthy form_fields
            then Build.call (Kadence.form_block None "post@haugli.no"
                               "Ny henvendelse fra nettsiden" "Send melding"
                               (Some (map contact_field (get_or [] form_fields))))
            else Build.call (Kadence.form_block None "post@haugli.no"
                               "Ny henvendelse fra nettsiden" "Send melding" None)) ;;
  let inner := list_append inner form in
  col <~~ Build.call (Kadence.kb_column inner None None None None None) ;;
  Build.call (Kadence.row_layout [col] None 1 "equal"
                (PageSection.background_color section) None None None
                (Some [60; 60; 30; 30]) None None (Some "full") None (Some "middle")).

Definition _build_map (section : PageSection.t) : Build.t string :=
  let address := get_or "Haugesund, Norway" (PageSection.address section) in
  let embed :=
    "<!-- wp:html -->" ++ nl ++
    lit "<div style=`width:100%;height:400px`>" ++
    lit "<iframe src=`https://maps.google.com/maps?q=" ++ replace_char " " "+" address ++
    lit "&output=embed` " ++
    lit "width=`100%` height=`400` style=`border:0` allowfullscreen loading=`lazy`></iframe>" ++
    "</div>" ++ nl ++
    "<!-- /wp:html -->" in
  col <~~ Build.call (Kadence.kb_column [embed] None None None None None) ;;
  Build.call (Kadence.row_layout [col] None 1 "equal" None None None None
                (Some [0; 0]) None None (Some "full") None (Some "middle")).

Definition _build_generic (section : PageSection.t) (m : img_map) : Build.t string :=
  let content := get_or [] (PageSection.content section) in
  if negb (truthy content) then Build.ok ""
  else
    inner <~~ Build.mapM (fun c => _build_content_item c m) content ;;
    col <~~ Build.call (Kadence.kb_column inner None None None None None) ;;
    Build.call (Kadence.row_layout [col] None 1 "equal" None None None None
                  (Some [40; 40; 30; 30]) None None (Some "full") None (Some "middle")).

Definition one_of (t : string) (names : list string) : bool :=
  existsb (String.eqb t) names.

Definition _build_section (section : PageSection.t) (m : img_map) (page_role : string)
  : Build.t string :=
  let t := get_or "generic" (PageSection.type section) in
  if String.eqb t "hero" then _build_hero section m
  else if one_of t ["columns"; "features"; "stats"; "services"; "team"; "about-team"]
       then _build_columns_section section m
  else if one_of t ["text-section"; "content"] then _build_text_section section m
  else if String.eqb t "media-text" then _build_media_text section m
  else if one_of t ["quote"; "testimonial"] then _build_testimonial section
  else if one_of t ["cta"; "call-to-action"] then _build_cta section m
  else if one_of t ["image-gallery"; "gallery"; "properties-grid"]
       then _build_gallery section m
  else if one_of t ["contact"; "contact-form"] then _build_contact section
  else if String.eqb t "map" then _build_map section
  else _build_generic section m.

(** The loop that fills [img_map] from [uploaded_images]. *)
Definition register_upload (m : img_map) (img : Upload.t) : img_map :=
  let m := img_set (Key.Str (get_or "" (Upload.filename img))) img m in
  match Upload.original_index img with
  | Some index => img_set (Key.Int index) img m
  | None => m
  end.

(** One turn of the loop over the sections, on [blocks]. *)
Definition page_step (m : img_map) (page_role : string) (blocks : list string)
    (section : PageSection.t) : Build.t (list string) :=
  if eq_str (PageSection.type section) "footer" then Build.ok blocks
  else
    block <~~ _build_section section m page_role ;;
    Build.ok (if truthy block then list_append blocks block else blocks).

Fixpoint page_loop (m : img_map) (page_role : string) (sections : list PageSection.t)
    (blocks : list string) : Build.t (list string) :=
  match sections with
  | [] => Build.ok blocks
  | section :: rest =>
      blocks <~~ page_step m page_role blocks section ;;
      page_loop m page_role rest blocks
  end.

Definition build_page_content (layout : PageDocument.t)
    (uploaded_images : option (list Upload.t)) (page_role : string) : Build.t string :=
  let sections := get_or [] (PageDocument.sections layout) in
  let m := if truthy uploaded_images
           then fold_left register_upload (get_or [] uploaded_images) []
           else [] in
  blocks <~~ page_loop m page_role sections [] ;;
  Build.ok (String.concat (nl ++ nl) blocks).

(** *** The footer *)




(** *** Search-engine metadata *)

(** The string of the one character U+2014, the dash of the fallback
    titles; its code point lies above the characters of the embedding. *)
Variable em_dash : string.

(** The dictionary that [generate_seo_meta] returns. *)
Record seo_meta : Type := SeoMeta {
  rank_math_title : string;
  rank_math_description : string }.

(** One turn of the loop [for c in section.get("content", [])], on
    ([title_parts], [description_parts]). *)
Definition seo_item_step (st : list string * list string) (c : PageItem.t)
  : list string * list string :=
  let '(title_parts, description_parts) := st in
  if eq_str (PageItem.type c) "heading" && truthy (PageItem.text c) then
    if negb (truthy title_parts)
    then (list_append title_parts (get_or "" (PageItem.text c)), description_parts)
    else (title_parts, description_parts)
  else if eq_str (PageItem.type c) "paragraph" && truthy (PageItem.text c) then
    (title_parts, list_append description_parts (get_or "" (PageItem.text c)))
  else (title_parts, description_parts).

(** One turn of the loop over the first three sections. *)
Definition seo_section_step (st : list string * list string) (section : PageSection.t)
  : list string * list string :=
  if eq_str (PageSection.type section) "footer" then st
  else fold_left seo_item_step (get_or [] (PageSection.content section)) st.

Definition generate_seo_meta (layout : PageDocument.t) (page_role project_name : string)
  : seo_meta :=
  let title_parts : list string := [] in
  let description_parts : list string := [] in
  let page_title := get_or "" (PageDocument.page_title layout) in
  let title_parts := if truthy page_title then list_append title_parts page_title
                     else title_parts in
  let '(title_parts, description_parts) :=
    fold_left seo_section_step (firstn 3 (get_or [] (PageDocument.sections layout)))
              (title_parts, description_parts) in
  let role_titles : dict :=
    [("frontpage", project_name ++ " " ++ em_dash ++ " Eiendomsutvikling");
     ("about", "Om oss " ++ em_dash ++ " " ++ project_name);
     ("contact", "Kontakt oss " ++ em_dash ++ " " ++ project_name);
     ("properties", "Vare eiendommer " ++ em_dash ++ " " ++ project_name);
     ("single_property", "Eiendom " ++ em_dash ++ " " ++ project_name)] in
  let seo_title := match title_parts with
                   | first :: _ => first
                   | [] => get_or project_name (dict_get page_role role_titles)
                   end in
  let seo_desc := match description_parts with
                  | first :: _ => take 160 first
                  | [] => project_name ++ " " ++ em_dash ++ " profesjonell eiendomsutvikling."
                  end in
  SeoMeta seo_title seo_desc.

End Library.

End PageBuilder.

(** ** The style serializer as the specification words it (section 4.1)

    A table of the eleven properties in the canonical order, each with the
    value supplied for it or [None]; the serializer keeps the entries that
    have a value and joins their declarations. *)

Module StyleSpec.


Definition nonempty (v : option string) : option string :=
  if truthy v then v else None.

Definition side (padding : option dict) (s : string) : option string :=
  match padding with
  | Some d => dict_get s d
  | None => None
  end.

Definition style_table (border_color border_width border_radius color background_color
    min_height : option string) (padding : option dict) (font_size : option string)
  : list (string * option string) :=
  [ ("border-color", border_color);
    ("border-width", border_width);
    ("border-radius", border_radius);
    ("color", color);
    ("background-color", background_color);
    ("min-height", min_height);
    ("padding-top", side padding "top");
    ("padding-right", side padding "right");
    ("padding-bottom", side padding "bottom");
    ("padding-left", side padding "left");
    ("font-size", font_size) ].

Fixpoint present (table : list (string * option string)) : list (string * string) :=
  match table with
  | [] => []
  | (name, Some v) :: rest => (name, v) :: present rest
  | (_, None) :: rest => present rest
  end.

Definition declaration (p : string * string) : string := fst p ++ ":" ++ snd p.

Definition serialize_style (table : list (string * option string)) : string :=
  String.concat ";" (map declaration (present table)).

End StyleSpec.
Import StyleSpec.

(** ** The claims that fail, as they are worded *)

(** C4 as worded: the properties emitted are those whose value
    is not null. *)
Definition serializer_emits_every_non_null : Prop :=
  forall bc bw br c bg mh pad fs,
    _build_css bc bw br c bg mh pad fs
    = serialize_style (style_table bc bw br c bg mh pad fs).

(** C7 as worded: a background colour that is not null brings the
    presence class and the inline declaration. *)
Definition group_background_follows_non_null : Prop :=
  forall bg_color text_color padding min_height border_radius align,
    bg_color <> None ->
    In "has-background" (_group_classes bg_color text_color border_radius align)
    /\ exists value,
         In ("background-color:" ++ value)
            (_group_css_parts bg_color text_color padding min_height border_radius).

(** C6 as worded, in its weakest reading: an item with an explicit left
    alignment, converted inside a section whose default is centred, shows
    the left-alignment class in its markup. *)
Definition explicit_left_align_marks_every_item : Prop :=
  forall (section : Section_.t) (item : Item.t) (out : string),
    _resolve_section_align section = Some "center" ->
    Item.align item = Some "left" ->
    _convert_content_item (_apply_section_align item (_resolve_section_align section))
    = Ok out ->
    contains "has-text-align-left" out = true.

(** A hero section (its default alignment is centred) and three items
    that ask for left alignment. *)
Definition hero_section : Section_.t :=
  Section_.Build (Some "hero") None None None None None None None None None None.

Definition left_buttons : Item.t :=
  Item.Build (Some "buttons") None None None None (Some "left")
             None None None None None None None None.

Definition left_heading : Item.t :=
  Item.Build (Some "heading") (Some "Title") None None None (Some "left")
             None None None None None None None None.

Definition left_paragraph : Item.t :=
  Item.Build (Some "paragraph") (Some "Body") None None None (Some "left")
             None None None None None None None None.

(** One button, as [_build_content_item] hands it to [adv_btn]. *)
Definition go_button : obj :=
  [("text", JStr "Go"); ("link", JStr "#"); ("background", JStr "#c8a97e");
   ("color", JStr "#ffffff"); ("border_radius", JInt 4)].

(** ** The dim-ratio class, as a check

    What is asked of [dim_class_val] at one ratio, as a boolean. *)
Definition dim_class_ok (dim_ratio : Z) : bool :=
  let n := dim_class_val dim_ratio in
  (n mod 10 =? 0)%Z
  && (Z.abs (dim_ratio - n) <=? 5)%Z
  && (if (dim_ratio mod 10 =? 5)%Z then (n mod 20 =? 0)%Z else true).

(** ** The footer partition as the specification words it

    The shape of the footer's column groups, as spec section 4.4 words
    it: a group opens at a heading, except that the first group opens at
    the first item whatever it is. *)
Definition is_heading (c : Item.t) : bool := eq_str (Item.type c) "heading".

(** A group is not empty and holds no heading after its first item. *)
Definition well_formed_group (grp : list Item.t) : Prop :=
  grp <> [] /\ Forall (fun c => is_heading c = false) (tl grp).

(** A group opens with a heading. *)
Definition opens_with_heading (grp : list Item.t) : Prop :=
  exists h rest, grp = h :: rest /\ is_heading h = true.

(** What the loop keeps true of ([col_groups], [current]). *)
Definition scan_invariant (st : list (list Item.t) * list Item.t) : Prop :=
  Forall well_formed_group (fst st)
  /\ Forall opens_with_heading (tl (fst st))
  /\ Forall (fun c => is_heading c = false) (tl (snd st))
  /\ (fst st <> [] -> opens_with_heading (snd st)).

Definition scanned (st : list (list Item.t) * list Item.t) : list Item.t :=
  (concat (fst st) ++ snd st)%list.

Definition Hd (text : string) : Item.t :=
  Item.Build (Some "heading") (Some text) None None None None
             None None None None None None None None.

Definition Pa (text : string) : Item.t :=
  Item.Build (Some "paragraph") (Some text) None None None None
             None None None None None None None None.

(** The column that [_convert_footer] builds for an empty group. *)
Definition empty_column : string := _column [] None None None None None None None.

(** A footer that asks for three columns and whose content makes one group. *)
Definition three_column_footer : Section_.t :=
  Section_.Build (Some "footer") None None None None None
                 (Some [Hd "1"; Pa "1"]) None None (Some (Layout.Build (Some 3))) None.

(** ** Inputs on which the code leaves the specification *)

(** Two generic sections: the first holds a separator, the second holds
    nothing and converts to the empty string. *)
Definition separator_item : Item.t :=
  Item.Build (Some "separator") None None None None None
             None None None None None None None None.

Definition separator_section : Section_.t :=
  Section_.Build (Some "generic") None None None None None
                 (Some [separator_item]) None None None None.

Definition empty_generic_section : Section_.t :=
  Section_.Build (Some "generic") None None None None None None None None None None.

Definition trailing_empty_document : Document.t :=
  Document.Build None (Some [separator_section; empty_generic_section]).

(** A heading whose [text] key is absent. *)
Definition heading_without_text : Item.t :=
  Item.Build (Some "heading") None None None None None
             None None None None None None None None.

(** A hero section whose background is given by the flat key only. *)
Definition red_hero_section : Section_.t :=
  Section_.Build (Some "hero") None (Some "#ff0000") None None None None None None None None.

(** ** The spacing of the layout compiler, as the specification words it

    The units in order, one spacer between two neighbours. *)
Fixpoint interleave (spacer : string) (units : list string) : list string :=
  match units with
  | [] => []
  | [unit_] => [unit_]
  | unit_ :: rest => unit_ :: spacer :: interleave spacer rest
  end.

(** What the loop of [convert_layout] appends for the section outputs
    [outs]: a spacer follows a unit when a section follows its section. *)
Fixpoint emitted (outs : list string) : list string :=
  match outs with
  | [] => []
  | out :: rest =>
      ((if truthy out
        then out :: (if truthy rest then [_spacer 30] else [])
        else []) ++ emitted rest)%list
  end.

(** A page of one generic section that holds one spacer. *)
Definition spacer_page : PageDocument.t :=
  PageDocument.Build None
    (Some [PageSection.of_type "generic" (Some [PageItem.of_type "spacer"])]).

(** A call-to-action section whose background is given by the flat key only. *)
Definition red_cta_section : Section_.t :=
  Section_.Build (Some "cta") None (Some "#ff0000") None None None None None None None None.

(** ** Well-formed documents for [converter.py]

    The section types that [convert_section] knows. *)
Definition known_section_type (t : string) : bool :=
  String.eqb t "hero"
  || String.eqb t "columns" || String.eqb t "features" || String.eqb t "stats"
  || String.eqb t "cta" || String.eqb t "image-gallery" || String.eqb t "logo-strip"
  || String.eqb t "footer".

(** [forallb f] on the list under a key that may be absent. *)
Definition all_get {A} (f : A -> bool) (o : option (list A)) : bool :=
  match o with
  | None => true
  | Some l => forallb f l
  end.

Definition is_some {A} (o : option A) : bool :=
  match o with Some _ => true | None => false end.

(** Every heading, paragraph and button that the item converter reaches
    in [item] has its key [text]. *)
Fixpoint item_has_texts (item : Item.t) : bool :=
  let t := Item.type item in
  if eq_str t "heading" || eq_str t "paragraph" then is_some (Item.text item)
  else if eq_str t "buttons"
       then all_get (fun b => is_some (Button.text b)) (Item.buttons item)
  else if eq_str t "columns"
       then all_get (fun col_item => all_get item_has_texts (Item.content col_item))
                    (Item.columns item)
  else true.

(** The items that a section converter hands to the item converter have
    their texts, and a hero section's [background] is a dictionary when it
    is there. *)
Definition section_well_formed (section : Section_.t) : bool :=
  let t := get_or "" (Section_.type section) in
  all_get item_has_texts (Section_.content section)
  && (if String.eqb t "hero"
      then match Section_.background section with
           | Some (Background.Flat _) => false
           | _ => true
           end
      else if String.eqb t "columns" || String.eqb t "features" || String.eqb t "stats"
      then all_get (fun card => all_get item_has_texts (Card.content card))
                   (Section_.items section)
      else true).

(** A document whose only section holds a heading without its text. *)
Definition textless_document : Document.t :=
  Document.Build None
    (Some [Section_.Build (Some "generic") None None None None None
             (Some [heading_without_text]) None None None None]).

(** ** Characters of a string *)

(** Every character of [s] passes [p]. *)
Fixpoint all_chars (p : ascii -> bool) (s : string) : bool :=
  match s with
  | EmptyString => true
  | String c s' => p c && all_chars p s'
  end.

(** The five characters that [html.escape] replaces. *)
Definition html_special (c : ascii) : bool :=
  Ascii.eqb c "&" || Ascii.eqb c "<" || Ascii.eqb c ">" || Ascii.eqb c dq
  || Ascii.eqb c "'".

(** The characters that delimit markup and attribute values. *)
Definition html_delimiter (c : ascii) : bool :=
  Ascii.eqb c "<" || Ascii.eqb c ">" || Ascii.eqb c dq || Ascii.eqb c "'".

(** The alphabet of [_uid]. *)
Definition uid_char (c : ascii) : bool :=
  let n := nat_of_ascii c in
  ((97 <=? n)%nat && (n <=? 122)%nat) || ((48 <=? n)%nat && (n <=? 57)%nat).

(** What [html.escape] writes for one character. *)
Definition escape_char (c : ascii) : string :=
  if Ascii.eqb c "&" then "&amp;"
  else if Ascii.eqb c "<" then "&lt;"
  else if Ascii.eqb c ">" then "&gt;"
  else if Ascii.eqb c dq then "&quot;"
  else if Ascii.eqb c "'" then "&#x27;"
  else String c EmptyString.

(** ** Documents and uploads of the page builder *)

(** The sections that [build_page_content] does not skip. *)
Definition not_footer (section : PageSection.t) : bool :=
  negb (eq_str (PageSection.type section) "footer").

(** The upload carries the key [original_index] with the value [i]. *)
Definition has_index (i : Z) (img : Upload.t) : bool :=
  match Upload.original_index img with
  | Some n => (n =? i)%Z
  | None => false
  end.

(** Two uploads, the second of which is registered under the index 0. *)
Definition two_uploads : list Upload.t :=
  [Upload.Build (Some "a.png") None (Some "http://wp/a.png") (Some 11);
   Upload.Build (Some "b.png") (Some 0) (Some "http://wp/b.png") (Some 12)].

(** ** [svg_processor.py]: file stems and the chunks of a tall image *)

Module SvgProcessor.

(** The [stem] of [extract_embedded_images] after the two statements that
    rewrite it. *)
Definition sanitized_stem (stem : string) : string :=
  let stem := replace_char " " "_" stem in
  fold_left (fun stem (pair : ascii * string) => replace_char (fst pair) (snd pair) stem)
            [(PageBuilder.ae, "ae"); (PageBuilder.oslash, "o"); (PageBuilder.aring, "a");
             (PageBuilder.AE, "Ae"); (PageBuilder.Oslash, "O"); (PageBuilder.Aring, "A")]
            stem.

(** What [split_png_for_vision] does with an image of height [h]: it
    returns the image's own path, or it crops the boxes ([top], [bottom])
    over the full width, or the division by [max_height] raises. *)
Inductive split : Type :=
  | Whole
  | Chunks (boxes : list (Z * Z))
  | ZeroDivisionError.

(** [range(n)] *)
Definition range (n : Z) : list Z := map Z.of_nat (seq 0 (Z.to_nat n)).

(** The box of chunk [i]. *)
Definition chunk_box (h max_height i : Z) : Z * Z :=
  let top := i * max_height in
  let bottom := Z.min ((i + 1) * max_height) h in
  let top := if (i >? 0)%Z then Z.max 0 (top - 200) else top in
  (top, bottom).

Definition split_png_for_vision (h max_height : Z) : split :=
  if (h <=? max_height)%Z then Whole
  else if (max_height =? 0)%Z then ZeroDivisionError
  else
    let num_chunks := (h + max_height - 1) / max_height in
    Chunks (map (chunk_box h max_height) (range num_chunks)).

End SvgProcessor.

(** ** [main.py]: the slug of a page *)

Module Main.

(** [PAGE_CONFIG]: the keys [wp_title] and [wp_slug] of a role's entry. *)
Definition PAGE_CONFIG : list (string * (string * string)) :=
  [("frontpage", ("Hjem", "hjem"));
   ("about", ("Om oss", "om-oss"));
   ("properties", ("Vare eiendommer", "vare-eiendommer"));
   ("single_property", ("Eiendom", "eiendom"));
   ("contact", ("Kontakt oss", "kontakt-oss"))].

(** [PAGE_CONFIG.get(role, {})] *)
Definition page_config (role : string) : option (string * string) :=
  option_map snd (find (fun entry => String.eqb (fst entry) role) PAGE_CONFIG).

Section Slug.

(** [str.lower] *)
Variable str_lower : string -> string.

(** [slug] of [_publish_all]:
    [config.get("wp_slug", sanitize_norwegian(page_name.lower().replace(" ", "-")))] *)
Definition page_slug (role page_name : string) : string :=
  match page_config role with
  | Some (_, wp_slug) => wp_slug
  | None => PageBuilder.sanitize_norwegian (replace_char " " "-" (str_lower page_name))
  end.

End Slug.

End Main.

(** ** Characters of the slugs *)

(** One of the six letters that [sanitize_norwegian] rewrites. *)
Definition norwegian_letter (c : ascii) : bool :=
  Ascii.eqb c PageBuilder.ae || Ascii.eqb c PageBuilder.AE
  || Ascii.eqb c PageBuilder.oslash || Ascii.eqb c PageBuilder.Oslash
  || Ascii.eqb c PageBuilder.aring || Ascii.eqb c PageBuilder.Aring.

(** What the rewriting makes of one character. *)
Definition transliterate (c : ascii) : string :=
  if Ascii.eqb c PageBuilder.ae then "ae"
  else if Ascii.eqb c PageBuilder.AE then "Ae"
  else if Ascii.eqb c PageBuilder.oslash then "o"
  else if Ascii.eqb c PageBuilder.Oslash then "O"
  else if Ascii.eqb c PageBuilder.aring then "a"
  else if Ascii.eqb c PageBuilder.Aring then "A"
  else String c EmptyString.

(** [f] applied to each character, the results joined. *)
Fixpoint subst_chars (f : ascii -> string) (s : string) : string :=
  match s with
  | EmptyString => EmptyString
  | String c s' => f c ++ subst_chars f s'
  end.



(** The items that [generate_seo_meta] reads: the content of the first
    three sections, footers left out. *)
Definition seo_items (layout : PageDocument.t) : list PageItem.t :=
  flat_map (fun section => get_or [] (PageSection.content section))
           (filter not_footer (firstn 3 (get_or [] (PageDocument.sections layout)))).

Definition heading_with_text (c : PageItem.t) : bool :=
  eq_str (PageItem.type c) "heading" && truthy (PageItem.text c).

Definition paragraph_with_text (c : PageItem.t) : bool :=
  eq_str (PageItem.type c) "paragraph" && truthy (PageItem.text c).

(** The 256 characters. *)
Definition all_ascii : list ascii := map ascii_of_nat (seq 0 256).




(** ** The exceptions of the page builder *)

(** Every exception that the builder [m] raises, on whatever random
    source, passes [P]. *)
Definition raises_within {A} (P : py_error -> Prop) (m : Build.t A) : Prop :=
  forall (r r' : Rand.source) (e : py_error), m r = (Raise e, r') -> P e.

(** The three exceptions of the page builder: [int] on a font size that
    is no number, [img["url"]] on an upload without the key, and [bg.get]
    on a background that is not a dictionary. *)
Definition page_builder_error (e : py_error) : Prop :=
  e = ValueError "int" \/ e = KeyError "url" \/ e = AttributeError "get".

(** A page whose only item is a heading with a font size that is no
    number. *)
Definition unparsable_size_page : PageDocument.t :=
  PageDocument.Build None
    (Some [PageSection.of_type "generic"
             (Some [PageItem.Build (Some "heading") (Some "Hei") None None (Some "large")
                      None None None None None None None None None None None None None
                      None])]).

(** The characters that would end the quoted attributes of the
    placeholder image or start an entity in it. *)
Definition svg_unsafe (c : ascii) : bool := Ascii.eqb c "'" || Ascii.eqb c "&".

(** ** The footer's columns, as they are printed

    A column without attributes around the blocks [inner], and the wide
    columns block around its [children]. *)
Definition plain_column (inner : list string) : string :=
  "<!-- wp:column {} -->" ++ nl ++
  lit "<div class=`wp-block-column`>" ++ nl ++
  String.concat nl inner ++ nl ++
  "</div>" ++ nl ++
  "<!-- /wp:column -->".

Definition wide_columns (children : list string) : string :=
  lit "<!-- wp:columns {`align`:`wide`} -->" ++ nl ++
  lit "<div class=`wp-block-columns alignwide`>" ++ nl ++
  String.concat "" children ++ nl ++
  "</div>" ++ nl ++
  "<!-- /wp:columns -->".

(** * Properties *)

(** ** The style serializer *)

Lemma present_app t1 t2 : present (t1 ++ t2)%list = (present t1 ++ present t2)%list.
Proof.
  induction t1 as [|[n [v|]] t1 IH]; simpl; [reflexivity | f_equal; exact IH | exact IH].
Qed.

Lemma append_assoc' (a b c : string) : (a ++ b) ++ c = a ++ b ++ c.
Proof. induction a; simpl; congruence. Qed.

Lemma scalar_step (name pre : string) (v : option string) (parts : list string) :
  pre = name ++ ":" ->
  (if truthy v then list_append parts (pre ++ fstr v) else parts)
  = List.app parts (map declaration (present [(name, nonempty v)])).
Proof.
  intros ->. destruct v as [[|c s]|]; simpl; unfold list_append, declaration; simpl;
    now rewrite ?app_nil_r, ?append_assoc'.
Qed.

Lemma side_step (s : string) (d : dict) (parts : list string) :
  (if dict_in s d then list_append parts ("padding-" ++ s ++ ":" ++ fstr (dict_get s d))
   else parts)
  = List.app parts (map declaration (present [("padding-" ++ s, dict_get s d)])).
Proof.
  unfold dict_in. destruct (dict_get s d) as [v|]; simpl; unfold list_append, declaration.
  - reflexivity.
  - now rewrite app_nil_r.
Qed.

(** The imperative [parts] list is the canonical table filtered. *)
Lemma build_css_parts_table bc bw br c bg mh pad fs :
  _build_css_parts bc bw br c bg mh pad fs
  = map declaration
      (present (style_table (nonempty bc) (nonempty bw) (nonempty br) (nonempty c)
                            (nonempty bg) (nonempty mh) pad (nonempty fs))).
Proof.
  unfold _build_css_parts. cbv zeta.
  assert (Hpad : forall parts : list string,
    match pad with
    | Some d =>
        if truthy d then
          fold_left
            (fun parts side =>
               if dict_in side d
               then list_append parts ("padding-" ++ side ++ ":" ++ fstr (dict_get side d))
               else parts)
            ["top"; "right"; "bottom"; "left"] parts
        else parts
    | None => parts
    end
    = List.app parts (map declaration (present
        [("padding-top", side pad "top"); ("padding-right", side pad "right");
         ("padding-bottom", side pad "bottom"); ("padding-left", side pad "left")]))).
  { intros parts. destruct pad as [d|]; [|simpl; now rewrite app_nil_r].
    destruct d as [|kv d]; [simpl; now rewrite app_nil_r|].
    change (truthy (kv :: d)) with true. cbv iota. cbn [fold_left].
    rewrite !side_step. cbn [side].
    rewrite <- !app_assoc, <- !map_app, <- !present_app. reflexivity. }
  rewrite Hpad.
  rewrite (@scalar_step "font-size" "font-size:" _ _ eq_refl).
  rewrite (@scalar_step "min-height" "min-height:" _ _ eq_refl).
  rewrite (@scalar_step "background-color" "background-color:" _ _ eq_refl).
  rewrite (@scalar_step "color" "color:" _ _ eq_refl).
  rewrite (@scalar_step "border-radius" "border-radius:" _ _ eq_refl).
  rewrite (@scalar_step "border-width" "border-width:" _ _ eq_refl).
  rewrite (@scalar_step "border-color" "border-color:" _ _ eq_refl).
  rewrite <- !app_assoc, <- !map_app, <- !present_app. reflexivity.
Qed.

Lemma present_names_incl (table : list (string * option string)) (name : string) :
  In name (map fst (present table)) -> In name (map fst table).
Proof.
  induction table as [|[n [v|]] rest IH]; simpl; intuition.
Qed.

Lemma present_names_nodup (table : list (string * option string)) :
  NoDup (map fst table) -> NoDup (map fst (present table)).
Proof.
  induction table as [|[n [v|]] rest IH]; simpl; intros Hnd.
  - constructor.
  - inversion Hnd as [|? ? Hnotin Hrest]; subst. constructor.
    + intros Hin. apply Hnotin. now apply present_names_incl.
    + now apply IH.
  - inversion Hnd; subst. now apply IH.
Qed.

Lemma declaration_not_empty (p : string * string) : declaration p <> "".
Proof.
  destruct p as [[|c name] v]; unfold declaration; simpl; discriminate.
Qed.

(** C4, counterexample: a text colour that is the empty string is not
    null, and [_build_css] emits nothing for it. *)
Lemma build_css_drops_empty_value : ~ serializer_emits_every_non_null.
Proof.
  intros H. specialize (H None None None (Some "") None None None None).
  discriminate H.
Qed.

(** C4, amended: [_build_css] emits exactly the scalar properties whose
    value is neither null nor empty and the padding sides whose key is in
    the padding mapping, each once, in the order border-color,
    border-width, border-radius, color, background-color, min-height,
    padding-top, padding-right, padding-bottom, padding-left, font-size,
    joined by semicolons; no joined part is empty and nothing else is
    emitted. *)
Theorem build_css_canonical_order :
  forall bc bw br c bg mh pad fs,
    let table := style_table (nonempty bc) (nonempty bw) (nonempty br) (nonempty c)
                             (nonempty bg) (nonempty mh) pad (nonempty fs) in
    _build_css_parts bc bw br c bg mh pad fs = map declaration (present table)
    /\ _build_css bc bw br c bg mh pad fs = serialize_style table
    /\ NoDup (map fst (present table))
    /\ Forall (fun part => part <> "") (_build_css_parts bc bw br c bg mh pad fs).
Proof.
  intros bc bw br c bg mh pad fs table.
  pose proof (build_css_parts_table bc bw br c bg mh pad fs) as Hparts.
  fold table in Hparts. repeat split.
  - exact Hparts.
  - unfold _build_css, serialize_style. now rewrite Hparts.
  - apply present_names_nodup. simpl.
    repeat (constructor; [simpl; intuition discriminate|]). constructor.
  - rewrite Hparts. apply Forall_forall. intros part Hin.
    apply in_map_iff in Hin. destruct Hin as [p [<- _]]. apply declaration_not_empty.
Qed.

(** ** The group container *)

Lemma append_4 (a b c d rest : string) :
  a ++ b ++ c ++ d ++ rest = (a ++ b ++ c ++ d) ++ rest.
Proof. now rewrite !append_assoc'. Qed.

Lemma present_in (table : list (string * option string)) (name value : string) :
  In (name, value) (present table) <-> In (name, Some value) table.
Proof.
  induction table as [|[n [v|]] rest IH]; simpl.
  - tauto.
  - rewrite IH. split; (intros [H|H]; [left; injection H as -> ->; reflexivity|now right]).
  - rewrite IH. split; [auto|]. intros [H|H]; [discriminate|exact H].
Qed.

Lemma nonempty_some (v : option string) (s : string) :
  nonempty v = Some s <-> v = Some s /\ truthy v = true.
Proof.
  unfold nonempty.
  destruct v as [[|c r]|]; cbv [truthy truthy_option truthy_string];
    intuition (try discriminate; try congruence).
Qed.

Lemma truthy_fstr (v : option string) : truthy v = true -> v = Some (fstr v).
Proof.
  destruct v as [[|c r]|]; cbv [truthy truthy_option truthy_string fstr get_or];
    congruence.
Qed.

Lemma group_classes_background bg_color text_color border_radius align :
  In "has-background" (_group_classes bg_color text_color border_radius align)
  <-> truthy bg_color = true.
Proof.
  unfold _group_classes, list_append.
  destruct bg_color as [[|b bs]|], text_color as [[|t ts]|], align as [[|a al]|],
    border_radius as [[|r rs]|]; simpl;
    intuition (try discriminate; try congruence).
Qed.

Lemma group_css_background bg_color text_color padding min_height border_radius :
  (exists part,
      In part (_group_css_parts bg_color text_color padding min_height border_radius)
      /\ prefix "background-color:" part = true)
  <-> truthy bg_color = true.
Proof.
  unfold _group_css_parts. rewrite build_css_parts_table. split.
  - intros [part [Hin Hpre]].
    apply in_map_iff in Hin. destruct Hin as [[name value] [<- Hin]].
    apply present_in in Hin. unfold style_table in Hin. simpl in Hin.
    repeat match goal with
           | H : _ \/ _ |- _ => destruct H as [H|H]
           | H : False |- _ => contradiction
           end;
      inversion Hin; subst; clear Hin; unfold declaration in Hpre; simpl in Hpre;
      try discriminate.
    match goal with H : nonempty _ = Some _ |- _ => apply nonempty_some in H end.
    tauto.
  - intros Ht. exists ("background-color:" ++ fstr bg_color). split.
    + apply in_map_iff. exists ("background-color", fstr bg_color). split; [reflexivity|].
      apply present_in. unfold style_table.
      do 4 right. left. f_equal. apply nonempty_some. split; [now apply truthy_fstr|exact Ht].
    + simpl. now destruct (fstr bg_color).
Qed.

(** C7, counterexample: a section whose [background_color] is the empty
    string gives a group whose colour is not null and that carries
    neither the class nor the declaration. *)
Lemma group_empty_background_has_no_class : ~ group_background_follows_non_null.
Proof.
  intros H.
  destruct (H (Some "") None None None None None) as [Hin _]; [discriminate|].
  simpl in Hin. intuition discriminate.
Qed.

(** A declaration is never empty, so the [style] attribute is printed
    exactly when there is a declaration. *)
Lemma style_attr_of_declarations (decls : list (string * string)) :
  style_attr_of (String.concat ";" (map declaration decls))
  = match map declaration decls with
    | [] => ""
    | _ :: _ => lit " style=`" ++ String.concat ";" (map declaration decls) ++ lit "`"
    end.
Proof.
  unfold style_attr_of. destruct decls as [|[name value] decls]; [reflexivity|].
  assert (Hne : truthy (String.concat ";" (map declaration ((name, value) :: decls))) = true).
  { simpl map. unfold declaration at 1. simpl fst. simpl snd.
    destruct (map declaration decls); simpl; now destruct name. }
  now rewrite Hne.
Qed.

(** The strings [has-background] and [background-color:] in the markup of
    a group need not be the group's own: a group without a background
    colour that holds a filled button shows both, in the button. *)
Lemma group_child_may_carry_background :
  let out := _group [_button "Go" "#" (Some "#c8a97e") None "fill" None]
                    None None None None None None "constrained" in
  ~ In "has-background" (_group_classes None None None None)
  /\ contains "has-background" out = true
  /\ contains "background-color:" out = true.
Proof.
  cbv zeta. split.
  - simpl. intuition discriminate.
  - split; vm_compute; reflexivity.
Qed.

(** C7, amended: the [div] that [_group] prints around its children has
    the class list joined by spaces in its [class] attribute and the
    declarations joined by semicolons in its [style] attribute, which is
    left out when there is no declaration.  The class list holds
    [has-background] exactly when the declarations hold a
    [background-color] declaration, and both exactly when [bg_color] is
    neither null nor empty; the declaration then carries that colour. *)
Theorem group_background_class_iff_declaration :
  forall inner bg_color text_color padding min_height border_radius align layout_type,
    let classes := _group_classes bg_color text_color border_radius align in
    let parts := _group_css_parts bg_color text_color padding min_height border_radius in
    (In "has-background" classes <-> truthy bg_color = true)
    /\ ((exists part, In part parts /\ prefix "background-color:" part = true)
        <-> truthy bg_color = true)
    /\ (In "has-background" classes <-> In ("background-color:" ++ fstr bg_color) parts)
    /\ exists attrs,
         _group inner bg_color text_color padding min_height border_radius align layout_type
         = "<!-- wp:group " ++ attrs ++ " -->" ++ nl ++
           lit "<div class=`" ++ String.concat " " classes ++ lit "`" ++
           match parts with
           | [] => ""
           | _ :: _ => lit " style=`" ++ String.concat ";" parts ++ lit "`"
           end ++ ">" ++ nl ++
           String.concat nl inner ++ nl ++
           "</div>" ++ nl ++
           "<!-- /wp:group -->".
Proof.
  intros inner bg_color text_color padding min_height border_radius align layout_type
         classes parts.
  pose proof (group_classes_background bg_color text_color border_radius align) as Hc.
  pose proof (group_css_background bg_color text_color padding min_height border_radius)
    as Hp.
  split; [exact Hc|]. split; [exact Hp|]. split.
  - fold classes in Hc. rewrite Hc. fold parts in Hp. split.
    + intros Ht. unfold parts, _group_css_parts. rewrite build_css_parts_table.
      apply in_map_iff. exists ("background-color", fstr bg_color). split; [reflexivity|].
      apply present_in. unfold style_table.
      do 4 right. left. f_equal. apply nonempty_some. split; [now apply truthy_fstr|exact Ht].
    + intros Hin. apply Hp. exists ("background-color:" ++ fstr bg_color).
      split; [exact Hin|]. simpl. now destruct (fstr bg_color).
  - unfold _group. cbv zeta. fold classes. fold parts.
    match goal with |- context [_J ?a] => exists (_J a) end.
    assert (Hstyle : style_attr_of (String.concat ";" parts)
                     = match parts with
                       | [] => ""
                       | _ :: _ => lit " style=`" ++ String.concat ";" parts ++ lit "`"
                       end).
    { unfold parts, _group_css_parts. rewrite build_css_parts_table.
      apply style_attr_of_declarations. }
    rewrite Hstyle. reflexivity.
Qed.

(** ** Alignment: the item's own value against the section default *)

Lemma apply_section_align_explicit (item : Item.t) (section_align : option string) :
  truthy (Item.align item) = true ->
  _apply_section_align item section_align = item.
Proof.
  intros Ha. unfold _apply_section_align. rewrite Ha.
  now destruct (negb (truthy section_align)).
Qed.

Lemma heading_classes_align (color : option string) (a : string) :
  truthy a = true ->
  In ("has-text-align-" ++ a) (_heading_classes color (Some a))
  /\ forall b, In ("has-text-align-" ++ b) (_heading_classes color (Some a)) -> b = a.
Proof.
  intros Ha. unfold _heading_classes, list_append.
  change (truthy (Some a)) with (truthy a). rewrite Ha.
  destruct color as [[|c cs]|]; cbn; split; try tauto;
    intros b Hb; repeat (destruct Hb as [Hb|Hb]; try discriminate; try contradiction);
    now injection Hb.
Qed.

Lemma paragraph_classes_align (color : option string) (a : string) :
  truthy a = true ->
  In ("has-text-align-" ++ a) (_paragraph_classes color (Some a))
  /\ forall b, In ("has-text-align-" ++ b) (_paragraph_classes color (Some a)) -> b = a.
Proof.
  intros Ha. unfold _paragraph_classes, list_append.
  change (truthy (Some a)) with (truthy a). rewrite Ha.
  destruct color as [[|c cs]|]; cbn; split; try tauto;
    intros b Hb; repeat (destruct Hb as [Hb|Hb]; try discriminate; try contradiction);
    now injection Hb.
Qed.

(** C6, counterexample: a [buttons] item with [align: "left"] in a hero
    section is rendered without any left-alignment class; its alignment
    goes into the block's [layout] attribute only. *)
Lemma left_buttons_carry_no_alignment_class : ~ explicit_left_align_marks_every_item.
Proof.
  intros H.
  specialize (H hero_section left_buttons _ eq_refl eq_refl eq_refl).
  vm_compute in H. discriminate H.
Qed.

(** C6, amended: in a section whose resolved default alignment is
    "center", a heading or paragraph item that carries [align: "left"] (and
    a text) is left untouched by the propagation and is rendered with a
    class list that contains [has-text-align-left] and does not contain
    [has-text-align-center]; that class list, joined by spaces, is the
    value of the [class] attribute of the tag that is printed. *)
Theorem explicit_align_overrides_section_default :
  forall (section : Section_.t) (item : Item.t) (text : string),
    _resolve_section_align section = Some "center" ->
    Item.align item = Some "left" ->
    Item.text item = Some text ->
    let item' := _apply_section_align item (_resolve_section_align section) in
    item' = item
    /\ (Item.type item = Some "heading" ->
        let classes := _heading_classes (Item.color item) (Some "left") in
        let tag := "h" ++ str_of_int (get_or 2 (Item.level item)) in
        (_convert_content_item item'
         = Ok (_heading text (get_or 2 (Item.level item)) (Item.color item)
                        (Item.font_size item) (Some "left"))
         /\ In "has-text-align-left" classes
         /\ ~ In "has-text-align-center" classes)
        /\ String.concat " " classes
           = "wp-block-heading"
             ++ (if truthy (Item.color item) then " has-text-color" else "")
             ++ " has-text-align-left"
        /\ exists attrs style_attr,
             _convert_content_item item'
             = Ok ("<!-- wp:heading " ++ attrs ++ " -->" ++ nl ++
                   "<" ++ tag ++ (lit " class=`" ++ String.concat " " classes ++ lit "`") ++
                   style_attr ++ ">" ++ text ++ "</" ++ tag ++ ">" ++ nl ++
                   "<!-- /wp:heading -->"))
    /\ (Item.type item = Some "paragraph" ->
        let classes := _paragraph_classes (Item.color item) (Some "left") in
        (_convert_content_item item'
         = Ok (_paragraph text (Item.color item) (Item.font_size item) (Some "left"))
         /\ In "has-text-align-left" classes
         /\ ~ In "has-text-align-center" classes)
        /\ String.concat " " classes
           = "has-text-align-left"
             ++ (if truthy (Item.color item) then " has-text-color" else "")
        /\ exists attr_str style_attr,
             _convert_content_item item'
             = Ok ("<!-- wp:paragraph" ++ attr_str ++ " -->" ++ nl ++
                   "<p" ++ (lit " class=`" ++ String.concat " " classes ++ lit "`") ++
                   style_attr ++ ">" ++ replace_char (ascii_of_nat 10) "<br>" text ++
                   "</p>" ++ nl ++
                   "<!-- /wp:paragraph -->")).
Proof.
  intros section item text Hsec Halign Htext item'.
  assert (Hsame : item' = item).
  { unfold item'. apply apply_section_align_explicit. now rewrite Halign. }
  split; [exact Hsame|]. rewrite Hsame. clear Hsame item'.
  split; intros Htype classes.
  - intros tag.
    assert (Hconv : _convert_content_item item
                    = Ok (_heading text (get_or 2 (Item.level item)) (Item.color item)
                                   (Item.font_size item) (Some "left"))).
    { destruct item; simpl in *. subst. reflexivity. }
    split; [split; [exact Hconv|]|split].
    + destruct (heading_classes_align (Item.color item) "left" eq_refl) as [Hin Huniq].
      split; [exact Hin|]. intros Hc. specialize (Huniq "center" Hc). discriminate Huniq.
    + unfold classes, _heading_classes. now destruct (truthy (Item.color item)).
    + rewrite Hconv. unfold _heading. cbv zeta. fold classes. fold tag.
      match goal with |- context [_J ?a] => exists (_J a) end.
      match goal with |- context [style_attr_of ?c] => exists (style_attr_of c) end.
      reflexivity.
  - assert (Hconv : _convert_content_item item
                    = Ok (_paragraph text (Item.color item) (Item.font_size item)
                                     (Some "left"))).
    { destruct item; simpl in *. subst. reflexivity. }
    split; [split; [exact Hconv|]|split].
    + destruct (paragraph_classes_align (Item.color item) "left" eq_refl) as [Hin Huniq].
      split; [exact Hin|]. intros Hc. specialize (Huniq "center" Hc). discriminate Huniq.
    + unfold classes, _paragraph_classes. now destruct (truthy (Item.color item)).
    + rewrite Hconv. unfold _paragraph. cbv zeta. fold classes.
      assert (Hne : truthy classes = true).
      { unfold classes, _paragraph_classes. now destruct (truthy (Item.color item)). }
      rewrite Hne.
      match goal with
      | |- context [(if ?b then " " ++ _J ?a else "")] =>
          exists (if b then " " ++ _J a else "")
      end.
      match goal with |- context [style_attr_of ?c] => exists (style_attr_of c) end.
      reflexivity.
Qed.

Lemma explicit_align_overrides_section_default_witness :
  _apply_section_align left_heading (_resolve_section_align hero_section) = left_heading
  /\ In "has-text-align-left" (_heading_classes None (Some "left"))
  /\ ~ In "has-text-align-center" (_heading_classes None (Some "left"))
  /\ exists attrs style_attr,
       _convert_content_item
         (_apply_section_align left_heading (_resolve_section_align hero_section))
       = Ok ("<!-- wp:heading " ++ attrs ++ " -->" ++ nl ++
             "<" ++ "h2" ++
             (lit " class=`" ++ String.concat " " (_heading_classes None (Some "left"))
                  ++ lit "`") ++
             style_attr ++ ">" ++ "Title" ++ "</" ++ "h2" ++ ">" ++ nl ++
             "<!-- /wp:heading -->").
Proof.
  destruct (explicit_align_overrides_section_default
              hero_section left_heading eq_refl eq_refl eq_refl) as [Hsame [Hh _]].
  destruct (Hh eq_refl) as [[_ [Hin Hnot]] [_ Hprint]].
  exact (conj Hsame (conj Hin (conj Hnot Hprint))).
Defined.

(** ** The cover block: the dim-ratio class *)

Lemma dim_class_ok_upto_100 :
  forallb dim_class_ok (map Z.of_nat (seq 0 101)) = true.
Proof. vm_compute. reflexivity. Qed.

Lemma dim_class_ok_in_range (dim_ratio : Z) :
  0 <= dim_ratio <= 100 -> dim_class_ok dim_ratio = true.
Proof.
  intros Hr.
  apply (proj1 (forallb_forall dim_class_ok (map Z.of_nat (seq 0 101)))
               dim_class_ok_upto_100).
  apply in_map_iff. exists (Z.to_nat dim_ratio). split; [lia|].
  apply in_seq. lia.
Qed.

Lemma prepend_to_split (a s k n l : string) :
  (exists pre post, s = pre ++ k ++ n ++ l ++ post) ->
  exists pre post, a ++ s = pre ++ k ++ n ++ l ++ post.
Proof.
  intros [pre [post ->]]. exists (a ++ pre), post. now rewrite append_assoc'.
Qed.

Lemma split_here (k n l post : string) :
  exists pre post', k ++ n ++ l ++ post = pre ++ k ++ n ++ l ++ post'.
Proof. exists "", post. reflexivity. Qed.

Lemma cover_dim_class_in_markup inner bg_image_url dim_ratio min_height overlay_color align :
  exists pre post,
    _cover inner bg_image_url dim_ratio min_height overlay_color align
    = pre ++ "has-background-dim-" ++ str_of_int (dim_class_val dim_ratio)
          ++ lit " has-background-dim`" ++ post.
Proof.
  unfold _cover. cbv zeta.
  match goal with |- context [_J ?a] => set (attrs := _J a) end.
  match goal with |- context [String.concat " " ?a] => set (classes := String.concat " " a) end.
  match goal with |- context [if truthy bg_image_url then ?a else ?b] =>
    set (img_tag := if truthy bg_image_url then a else b) end.
  set (content := String.concat nl inner).
  set (height := str_of_int min_height). set (n := str_of_int (dim_class_val dim_ratio)).
  clearbody attrs classes img_tag content height n.
  change (lit "<span aria-hidden=`true` class=`wp-block-cover__background has-background-dim-")
    with (lit "<span aria-hidden=`true` class=`wp-block-cover__background "
          ++ "has-background-dim-").
  change (lit " has-background-dim`></span>")
    with (lit " has-background-dim`" ++ "></span>").
  rewrite !append_assoc'.
  do 11 apply prepend_to_split.
  apply split_here.
Qed.

(** C8: for an integer [dim_ratio] from 0 to 100 the number in the class
    [has-background-dim-N] of the cover markup is a multiple of 10 nearest
    to [dim_ratio] (no multiple of 10 is closer); a ratio halfway between
    two multiples goes to the one that is an even number of tens.  54 gives
    50 and 55 gives 60. *)
Theorem cover_dim_class_nearest_ten :
  (forall dim_ratio : Z,
      0 <= dim_ratio <= 100 ->
      let n := dim_class_val dim_ratio in
      n mod 10 = 0
      /\ (forall m : Z, m mod 10 = 0 -> Z.abs (dim_ratio - n) <= Z.abs (dim_ratio - m))
      /\ (dim_ratio mod 10 = 5 -> n mod 20 = 0)
      /\ forall inner bg_image_url min_height overlay_color align,
         exists pre post,
           _cover inner bg_image_url dim_ratio min_height overlay_color align
           = pre ++ "has-background-dim-" ++ str_of_int n
                 ++ lit " has-background-dim`" ++ post)
  /\ dim_class_val 54 = 50
  /\ dim_class_val 55 = 60.
Proof.
  split; [|split; reflexivity].
  intros dim_ratio Hr n.
  pose proof (dim_class_ok_in_range Hr) as Hok. unfold dim_class_ok in Hok.
  fold n in Hok.
  apply andb_true_iff in Hok. destruct Hok as [Hok Htie].
  apply andb_true_iff in Hok. destruct Hok as [Hmul Hnear].
  apply Z.eqb_eq in Hmul. apply Z.leb_le in Hnear.
  split; [exact Hmul|]. split; [|split].
  - intros m Hm.
    apply Z.mod_divide in Hmul; [|lia]. apply Z.mod_divide in Hm; [|lia].
    destruct Hmul as [a Ha]. destruct Hm as [b Hb]. lia.
  - intros Hhalf. apply Z.eqb_eq in Hhalf. rewrite Hhalf in Htie. now apply Z.eqb_eq.
  - intros inner bg_image_url min_height overlay_color align.
    apply cover_dim_class_in_markup.
Qed.

Lemma cover_dim_class_nearest_ten_witness :
  dim_class_val 25 mod 10 = 0 /\ dim_class_val 25 mod 20 = 0.
Proof.
  destruct (proj1 cover_dim_class_nearest_ten 25 ltac:(lia)) as [Hm [_ [Ht _]]].
  exact (conj Hm (Ht eq_refl)).
Defined.

(** ** The footer: partition into column groups *)

Lemma tl_app_nonempty {A} (l1 l2 : list A) : l1 <> [] -> tl (l1 ++ l2)%list = (tl l1 ++ l2)%list.
Proof. destruct l1; [congruence|reflexivity]. Qed.

Lemma footer_scan_step_spec (st : list (list Item.t) * list Item.t) (c : Item.t) :
  footer_scan_step st c
  = if is_heading c && truthy (snd st)
    then (list_append (fst st) (snd st), [c])
    else (fst st, list_append (snd st) c).
Proof.
  destruct st as [groups current]. unfold footer_scan_step, is_heading. simpl.
  now destruct (eq_str (Item.type c) "heading" && truthy current).
Qed.

Lemma footer_scan_step_invariant st c :
  scan_invariant st ->
  scan_invariant (footer_scan_step st c)
  /\ scanned (footer_scan_step st c) = (scanned st ++ [c])%list.
Proof.
  destruct st as [groups current]. rewrite footer_scan_step_spec.
  unfold scan_invariant, scanned, list_append. simpl.
  intros [Hwf [Hopen [Htail Hcur]]].
  destruct (is_heading c) eqn:Hc; simpl.
  - destruct current as [|x current]; simpl.
    + (* a heading while the current group is empty *)
      assert (groups = []) as ->.
      { destruct groups as [|g gs]; [reflexivity|].
        destruct Hcur as [h [rest [Habs _]]]; [discriminate|discriminate]. }
      repeat split; auto. intros Hne. now contradiction Hne.
    + (* a heading while the current group holds items: the group is closed *)
      repeat split.
      * apply Forall_app. split; [exact Hwf|]. constructor; [|constructor].
        split; [discriminate|exact Htail].
      * destruct groups as [|g gs]; simpl; [constructor|].
        apply Forall_app. split; [exact Hopen|]. constructor; [|constructor].
        apply Hcur. discriminate.
      * constructor.
      * intros _. exists c, []. now split.
      * rewrite concat_app. simpl. rewrite app_nil_r. now rewrite <- app_assoc.
  - repeat split; auto.
    + destruct current as [|x current]; simpl; [constructor|].
      apply Forall_app. split; [exact Htail|]. constructor; [exact Hc|constructor].
    + intros Hne. destruct (Hcur Hne) as [h [rest [-> Hh]]].
      exists h, (rest ++ [c])%list. now split.
    + now rewrite app_assoc.
Qed.

Lemma footer_scan_invariant (content : list Item.t) :
  forall st, scan_invariant st ->
    scan_invariant (fold_left footer_scan_step content st)
    /\ scanned (fold_left footer_scan_step content st) = (scanned st ++ content)%list.
Proof.
  induction content as [|c content IH]; intros st Hst; simpl.
  - split; [exact Hst|]. now rewrite app_nil_r.
  - destruct (footer_scan_step_invariant c Hst) as [Hinv Hsc].
    destruct (IH _ Hinv) as [Hinv' Hsc']. split; [exact Hinv'|].
    rewrite Hsc', Hsc. now rewrite <- app_assoc.
Qed.

Lemma footer_col_groups_shape (content : list Item.t) :
  concat (footer_col_groups content) = content
  /\ Forall well_formed_group (footer_col_groups content)
  /\ Forall opens_with_heading (tl (footer_col_groups content)).
Proof.
  unfold footer_col_groups.
  assert (Hinit : scan_invariant ([], [])).
  { unfold scan_invariant. simpl. repeat split; auto. intros Hne. now contradiction Hne. }
  destruct (footer_scan_invariant content Hinit) as [Hinv Hsc].
  destruct (fold_left footer_scan_step content ([], [])) as [groups current].
  unfold scan_invariant, scanned in *. simpl in *.
  destruct Hinv as [Hwf [Hopen [Htail Hcur]]].
  destruct current as [|x current]; simpl.
  - rewrite app_nil_r in Hsc. auto.
  - unfold list_append. repeat split.
    + rewrite concat_app. simpl. now rewrite app_nil_r.
    + apply Forall_app. split; [exact Hwf|]. constructor; [|constructor].
      split; [discriminate|exact Htail].
    + destruct groups as [|g gs]; simpl; [constructor|].
      apply Forall_app. split; [exact Hopen|]. constructor; [|constructor].
      apply Hcur. discriminate.
Qed.

(** C5: the column groups of a multi-column footer are cut by the
    left-to-right scan: a heading met while the current group holds items
    closes that group and opens the next, a heading met while the current
    group is empty joins it, any other item joins the current group.  So
    the groups, in order, make up the content; none is empty; a heading is
    only ever the first item of a group; and every group after the first
    opens with a heading.  These groups, padded, are the columns of a
    footer that asks for more than one column.  [H1, P1, P2, H2, P3] gives
    [H1, P1, P2] and [H2, P3]. *)
Theorem footer_groups_cut_at_headings :
  (forall st c,
      footer_scan_step st c
      = if is_heading c && truthy (snd st)
        then (list_append (fst st) (snd st), [c])
        else (fst st, list_append (snd st) c))
  /\ (forall content,
         concat (footer_col_groups content) = content
         /\ Forall well_formed_group (footer_col_groups content)
         /\ Forall opens_with_heading (tl (footer_col_groups content)))
  /\ (forall (section : Section_.t) (num_cols : Z),
         Layout.columns (get_or Layout.empty (Section_.layout section)) = Some num_cols ->
         num_cols > 1 ->
         exists bg pad,
           _convert_footer section
           = (col_blocks <-
                footer_col_blocks
                  (footer_pad_groups
                     (footer_col_groups (get_or [] (Section_.content section))) num_cols) ;;
              Ok (_group [_columns col_blocks (Some "wide")] (Some bg) None (Some pad)
                         None None (Some "full") "constrained")))
  /\ footer_col_groups [Hd "1"; Pa "1"; Pa "2"; Hd "2"; Pa "3"]
     = [[Hd "1"; Pa "1"; Pa "2"]; [Hd "2"; Pa "3"]]
  /\ footer_col_groups [Pa "1"; Hd "1"; Pa "2"] = [[Pa "1"]; [Hd "1"; Pa "2"]].
Proof.
  split; [exact footer_scan_step_spec|].
  split; [exact footer_col_groups_shape|].
  split; [|split; reflexivity].
  intros section num_cols Hcols Hmany.
  do 2 eexists. unfold _convert_footer. rewrite Hcols. cbv zeta.
  change (get_or 1 (Some num_cols)) with num_cols.
  replace (num_cols >? 1)%Z with true by (symmetry; apply Z.gtb_lt; lia).
  reflexivity.
Qed.

Lemma footer_groups_cut_at_headings_witness :
  exists bg pad col_blocks,
    footer_col_blocks (footer_pad_groups (footer_col_groups [Hd "1"; Pa "1"]) 3)
    = Ok col_blocks
    /\ _convert_footer three_column_footer
       = Ok (_group [_columns col_blocks (Some "wide")] (Some bg) None (Some pad)
                    None None (Some "full") "constrained").
Proof.
  destruct (proj1 (proj2 (proj2 footer_groups_cut_at_headings))
              three_column_footer 3 eq_refl ltac:(lia)) as [bg [pad Hfooter]].
  exists bg, pad. eexists. split; [vm_compute; reflexivity|exact Hfooter].
Defined.

(** ** The footer: padding the groups to the requested column count *)

Lemma mapM_app {A B} (f : A -> result B) (l1 l2 : list A) (ys1 ys2 : list B) :
  mapM f l1 = Ok ys1 -> mapM f l2 = Ok ys2 ->
  mapM f (l1 ++ l2)%list = Ok (ys1 ++ ys2)%list.
Proof.
  revert ys1. induction l1 as [|x l1 IH]; intros ys1 H1 H2; simpl in *.
  - injection H1 as <-. exact H2.
  - destruct (f x) as [y|e]; [|discriminate].
    destruct (mapM f l1) as [ys|e]; [|discriminate].
    injection H1 as <-. now rewrite (IH ys eq_refl H2).
Qed.

Lemma mapM_ok {A B} (f : A -> result B) (l : list A) :
  Forall (fun x => exists y, f x = Ok y) l ->
  exists ys, mapM f l = Ok ys /\ List.length ys = List.length l.
Proof.
  induction 1 as [|x l [y Hy] _ [ys [Hys Hlen]]]; simpl.
  - now exists [].
  - rewrite Hy, Hys. exists (y :: ys). simpl. now rewrite Hlen.
Qed.

Lemma mapM_repeat {A B} (f : A -> result B) (x : A) (y : B) (n : nat) :
  f x = Ok y -> mapM f (repeat x n) = Ok (repeat y n).
Proof.
  intros Hf. induction n as [|n IH]; simpl; [reflexivity|]. now rewrite Hf, IH.
Qed.

(** The [while] loop adds empty groups up to [num_cols] and nothing else. *)
Lemma footer_pad_groups_spec (col_groups : list (list Item.t)) (num_cols : Z) :
  footer_pad_groups col_groups num_cols
  = (col_groups ++ repeat [] (Z.to_nat (num_cols - len col_groups)))%list.
Proof.
  funelim (footer_pad_groups col_groups num_cols).
  - match goal with
    | IH : footer_pad_groups _ _ = (_ ++ _)%list |- _ => rewrite IH
    end.
    unfold list_append, len in *. rewrite length_app. simpl.
    rewrite <- app_assoc. f_equal. simpl.
    replace (Z.to_nat (num_cols - Z.of_nat (List.length col_groups)))
      with (S (Z.to_nat (num_cols - Z.of_nat (List.length col_groups + 1)))) by lia.
    reflexivity.
  - replace (Z.to_nat (num_cols - len col_groups)) with 0%nat by lia.
    simpl. now rewrite app_nil_r.
Qed.

Lemma footer_col_blocks_ok (col_groups : list (list Item.t)) :
  Forall (Forall (fun c => exists out, _convert_content_item c = Ok out)) col_groups ->
  exists blocks,
    footer_col_blocks col_groups = Ok blocks /\ len blocks = len col_groups.
Proof.
  intros Hall. unfold footer_col_blocks, len.
  destruct (mapM_ok
              (fun grp => inner <- mapM _convert_content_item grp ;;
                          Ok (_column inner None None None None None None None))
              (l := col_groups)) as [blocks [Hb Hlen]].
  - apply Forall_forall. intros grp Hin.
    destruct (mapM_ok _convert_content_item (proj1 (Forall_forall _ _) Hall grp Hin))
      as [inner [Hinner _]].
    rewrite Hinner. simpl. eauto.
  - exists blocks. now rewrite Hlen.
Qed.

Lemma column_is_plain (inner : list string) :
  _column inner None None None None None None None = plain_column inner.
Proof. reflexivity. Qed.

Lemma columns_is_wide (children : list string) :
  _columns children (Some "wide") = wide_columns children.
Proof. reflexivity. Qed.

Lemma mapM_then_map {A B C} (f : A -> result B) (g : B -> C) (l : list A) (ys : list B) :
  mapM f l = Ok ys ->
  mapM (fun x => y <- f x ;; Ok (g y)) l = Ok (map g ys).
Proof.
  revert ys. induction l as [|x l IH]; intros ys H; simpl in *.
  - now injection H as <-.
  - destruct (f x) as [y|e]; [|discriminate]. simpl.
    destruct (mapM f l) as [ys'|e]; [|discriminate].
    injection H as <-. now rewrite (IH ys' eq_refl).
Qed.

Lemma mapM_concat {A B} (f : A -> result B) (ls : list (list A)) (yss : list (list B)) :
  mapM (mapM f) ls = Ok yss -> mapM f (concat ls) = Ok (concat yss).
Proof.
  revert yss. induction ls as [|l ls IH]; intros yss H; simpl in *.
  - now injection H as <-.
  - destruct (mapM f l) as [ys|e] eqn:Hl; [|discriminate].
    destruct (mapM (mapM f) ls) as [yss'|e]; [|discriminate].
    injection H as <-. simpl. apply mapM_app; [exact Hl|]. now apply IH.
Qed.

(** C10: a footer that asks for [num_cols > 1] columns and whose content
    scans into [g] groups prints a wide columns block whose children are
    one column per group, in order, each around the blocks of the items
    of its group, and, when [g < num_cols], [num_cols - g] empty columns
    after them, [num_cols] columns in all; when [g >= num_cols] the
    children are the [g] columns of the groups and no more.  The items of
    the content all appear, in their order, none cut and none merged. *)
Theorem footer_columns_padded_to_request :
  forall (section : Section_.t) (num_cols : Z),
    Layout.columns (get_or Layout.empty (Section_.layout section)) = Some num_cols ->
    num_cols > 1 ->
    Forall (fun c => exists out, _convert_content_item c = Ok out)
           (get_or [] (Section_.content section)) ->
    let groups := footer_col_groups (get_or [] (Section_.content section)) in
    let g := len groups in
    exists inners group_blocks col_blocks,
      mapM (mapM _convert_content_item) groups = Ok inners
      /\ mapM _convert_content_item (get_or [] (Section_.content section))
         = Ok (concat inners)
      /\ group_blocks = map plain_column inners
      /\ footer_col_blocks groups = Ok group_blocks
      /\ len group_blocks = g
      /\ footer_col_blocks (footer_pad_groups groups num_cols) = Ok col_blocks
      /\ (g < num_cols ->
          col_blocks = (group_blocks ++ repeat (plain_column []) (Z.to_nat (num_cols - g)))%list
          /\ len col_blocks = num_cols)
      /\ (g >= num_cols -> col_blocks = group_blocks)
      /\ (exists bg pad,
            _convert_footer section
            = Ok (_group [_columns col_blocks (Some "wide")] (Some bg) None (Some pad)
                         None None (Some "full") "constrained"))
      /\ exists attrs class_list style_attr,
           _convert_footer section
           = Ok ("<!-- wp:group " ++ attrs ++ " -->" ++ nl ++
                 lit "<div class=`" ++ class_list ++ lit "`" ++ style_attr ++ ">" ++ nl ++
                 wide_columns col_blocks ++ nl ++
                 "</div>" ++ nl ++
                 "<!-- /wp:group -->").
Proof.
  intros section num_cols Hcols Hmany Hconv groups g.
  assert (Hall : Forall (Forall (fun c => exists out, _convert_content_item c = Ok out))
                        groups).
  { apply Forall_concat. unfold groups.
    now rewrite (proj1 (footer_col_groups_shape _)). }
  destruct (mapM_ok (mapM _convert_content_item) (l := groups)) as [inners [Hinners Hlen]].
  { apply Forall_forall. intros grp Hin.
    destruct (mapM_ok _convert_content_item (proj1 (Forall_forall _ _) Hall grp Hin))
      as [inner [Hinner _]].
    eauto. }
  assert (Hgb : footer_col_blocks groups = Ok (map plain_column inners)).
  { unfold footer_col_blocks.
    rewrite (mapM_then_map (mapM _convert_content_item)
               (fun inner => _column inner None None None None None None None)
               groups Hinners).
    reflexivity. }
  assert (Hpad : footer_col_blocks (footer_pad_groups groups num_cols)
                 = Ok (map plain_column inners
                       ++ repeat (plain_column []) (Z.to_nat (num_cols - g)))%list).
  { rewrite footer_pad_groups_spec. fold g. unfold footer_col_blocks.
    apply mapM_app; [exact Hgb|]. now apply mapM_repeat. }
  assert (Hfooter : _convert_footer section
    = Ok (_group [_columns (map plain_column inners
                            ++ repeat (plain_column []) (Z.to_nat (num_cols - g)))%list
                           (Some "wide")]
            (Some (or_else
                     (por (Section_.background_color section)
                          (match Section_.background section with
                           | None => Background.value Background.empty
                           | Some (Background.Object o) => Background.value o
                           | Some (Background.Flat _) => None
                           end))
                     "#333333"))
            None
            (Some (with_side_padding
                     (get_or [("top", "60px"); ("bottom", "60px")]
                             (Section_.padding section))))
            None None (Some "full") "constrained")).
  { unfold _convert_footer. rewrite Hcols. cbv zeta.
    change (get_or 1 (Some num_cols)) with num_cols.
    replace (num_cols >? 1)%Z with true by (symmetry; apply Z.gtb_lt; lia).
    fold groups. rewrite Hpad. reflexivity. }
  exists inners, (map plain_column inners),
         (map plain_column inners ++ repeat (plain_column []) (Z.to_nat (num_cols - g)))%list.
  split; [exact Hinners|]. split.
  { unfold groups in Hinners. apply mapM_concat in Hinners.
    now rewrite (proj1 (footer_col_groups_shape _)) in Hinners. }
  split; [reflexivity|]. split; [exact Hgb|]. split.
  { unfold len, g, len. now rewrite length_map, Hlen. }
  split; [exact Hpad|]. split; [|split; [|split]].
  - intros Hlt. split; [reflexivity|].
    unfold len, g, len in *. rewrite length_app, repeat_length, length_map, Hlen. lia.
  - intros Hge. replace (Z.to_nat (num_cols - g)) with 0%nat by lia.
    simpl. now rewrite app_nil_r.
  - do 2 eexists. exact Hfooter.
  - rewrite Hfooter. rewrite columns_is_wide. unfold _group. cbv zeta.
    match goal with |- context [_J ?a] => exists (_J a) end.
    match goal with
    | |- context [String.concat " " ?c] => exists (String.concat " " c)
    end.
    match goal with |- context [style_attr_of ?c] => exists (style_attr_of c) end.
    reflexivity.
Qed.

Lemma footer_columns_padded_to_request_witness :
  exists inners col_blocks,
    mapM (mapM _convert_content_item) (footer_col_groups [Hd "1"; Pa "1"]) = Ok inners
    /\ col_blocks = (map plain_column inners ++ [plain_column []; plain_column []])%list
    /\ len col_blocks = 3
    /\ exists attrs class_list style_attr,
         _convert_footer three_column_footer
         = Ok ("<!-- wp:group " ++ attrs ++ " -->" ++ nl ++
               lit "<div class=`" ++ class_list ++ lit "`" ++ style_attr ++ ">" ++ nl ++
               wide_columns col_blocks ++ nl ++
               "</div>" ++ nl ++
               "<!-- /wp:group -->").
Proof.
  destruct (@footer_columns_padded_to_request three_column_footer 3 eq_refl ltac:(lia))
    as [inners [group_blocks [col_blocks
         [Hin [_ [Hgb [_ [_ [_ [Hlt [_ [_ Hprint]]]]]]]]]]]].
  - repeat constructor; eexists; reflexivity.
  - exists inners, col_blocks. destruct (Hlt ltac:(vm_compute; reflexivity)) as [Hc Hl].
    split; [exact Hin|]. split; [now rewrite Hc, Hgb|]. split; [exact Hl|exact Hprint].
Defined.

(** ** The layout compiler: spacers between the emitted units *)

(** C1, the code at the failing input: the document has one section that
    converts to a unit and, after it, one that converts to the empty
    string; the guard [i < len(sections) - 1] counts the sections of the
    input and not the emitted units, so a spacer follows the only, and
    last, emitted unit. *)
Theorem convert_layout_spacer_after_last_unit :
  exists unit_,
    convert_section separator_section = Ok unit_
    /\ unit_ <> ""
    /\ convert_section empty_generic_section = Ok ""
    /\ convert_layout_blocks trailing_empty_document
       = Ok [_theme_override_css; unit_; _spacer 30].
Proof.
  eexists. split; [vm_compute; reflexivity|].
  split; [discriminate|]. split; vm_compute; reflexivity.
Qed.

(** ** The item converter: an absent text *)

(** C2, the code on the failing inputs: a heading or paragraph item
    without the key [text] makes [_convert_content_item] raise
    [KeyError('text')]; nothing is rendered. *)
Theorem content_item_without_text_raises :
  forall item : Item.t,
    Item.type item = Some "heading" \/ Item.type item = Some "paragraph" ->
    Item.text item = None ->
    _convert_content_item item = Raise (KeyError "text").
Proof.
  intros item Htype Htext. destruct item; simpl in *. subst.
  destruct Htype as [-> | ->]; reflexivity.
Qed.

Lemma content_item_without_text_raises_witness :
  _convert_content_item heading_without_text = Raise (KeyError "text").
Proof.
  exact (content_item_without_text_raises heading_without_text
           (or_introl eq_refl) eq_refl).
Defined.

(** ** Section backgrounds: the flat [background_color] key *)

(** C3, the code on the failing inputs: a hero section that carries no
    [background] object is wrapped in a group whose colour is the
    hardcoded #1a1a2e, whatever its flat [background_color] says. *)
Theorem hero_ignores_flat_background_color :
  forall (section : Section_.t) (flat : string),
    Section_.type section = Some "hero" ->
    Section_.background section = None ->
    Section_.background_color section = Some flat ->
    convert_section section
    = (content <- convert_aligned (Section_.content section)
                    (Some (or_else (_resolve_section_align section) "center")) ;;
       Ok (_group content (Some "#1a1a2e") None
             (Some [("top", "80px"); ("bottom", "80px"); ("left", "40px"); ("right", "40px")])
             (Some (str_of_int (get_or 600 (Section_.min_height section)) ++ "px"))
             None (Some "full") "constrained")).
Proof.
  intros section flat Htype Hbg _.
  unfold convert_section, _convert_hero. rewrite Htype, Hbg. simpl.
  destruct (convert_aligned _ _); reflexivity.
Qed.

Lemma hero_ignores_flat_background_color_witness :
  convert_section red_hero_section
  = Ok (_group [] (Some "#1a1a2e") None
          (Some [("top", "80px"); ("bottom", "80px"); ("left", "40px"); ("right", "40px")])
          (Some "600px") None (Some "full") "constrained").
Proof.
  exact (@hero_ignores_flat_background_color red_hero_section "#ff0000"
           eq_refl eq_refl eq_refl).
Defined.

(** The sibling converter of call-to-action sections does read the flat
    key when no [background] object is given. *)
Lemma cta_reads_flat_background_color (section : Section_.t) (flat : string) :
  Section_.type section = Some "cta" ->
  Section_.background section = None ->
  Section_.background_color section = Some flat ->
  exists pad min_height,
    convert_section section
    = (content <- convert_aligned (Section_.content section)
                    (Some (or_else (_resolve_section_align section) "center")) ;;
       Ok (_group content (Some flat) None pad min_height None (Some "full") "constrained")).
Proof.
  intros Htype Hbg Hflat.
  unfold convert_section, _convert_cta. rewrite Htype, Hbg, Hflat. simpl.
  do 2 eexists. reflexivity.
Qed.

Lemma cta_reads_flat_background_color_witness :
  exists pad min_height,
    convert_section red_cta_section
    = Ok (_group [] (Some "#ff0000") None pad min_height None (Some "full") "constrained").
Proof.
  destruct (@cta_reads_flat_background_color red_cta_section "#ff0000"
              eq_refl eq_refl eq_refl) as [pad [min_height Hcta]].
  exists pad, min_height. exact Hcta.
Defined.

(** ** Determinism and identifier minting *)

Lemma uid_or_explicit (unique_id prefix : string) :
  truthy unique_id = true ->
  Kadence.uid_or (Some unique_id) prefix = Rand.ret unique_id.
Proof.
  intros Ht. unfold Kadence.uid_or.
  change (truthy (Some unique_id)) with (truthy unique_id). now rewrite Ht.
Qed.

Lemma draws_nothing_repeatable {A} (m : Rand.t A) :
  Rand.draws_nothing m -> Rand.repeatable m.
Proof.
  intros [a Ha] r. unfold Rand.twice, Rand.bind. rewrite Ha, Ha. reflexivity.
Qed.

Lemma explicit_uid_draws_nothing {A} (unique_id prefix : string) (k : string -> A) :
  truthy unique_id = true ->
  Rand.draws_nothing (uid <~ Kadence.uid_or (Some unique_id) prefix ;; Rand.ret (k uid)).
Proof.
  intros Ht. rewrite (uid_or_explicit unique_id prefix Ht). exists (k unique_id). reflexivity.
Qed.

Lemma choices_advances (chars : string) (k : nat) :
  forall (r : Rand.source) (i : nat),
    snd (Kadence.choices chars k r) i = r (i + k)%nat.
Proof.
  induction k as [|k IH]; intros r i; simpl.
  - now rewrite Nat.add_0_r.
  - unfold Rand.bind, Rand.draw, Rand.ret.
    specialize (IH (fun j => r (S j)) i).
    destruct (Kadence.choices chars k (fun j => r (S j))) as [rest r'].
    simpl in *. rewrite IH. f_equal. lia.
Qed.

Lemma single_btn_advances (btn : obj) (r : Rand.source) (i : nat) :
  snd (Kadence.single_btn btn r) i = r (i + 6)%nat.
Proof.
  unfold Kadence.single_btn, Kadence._uid, Rand.bind, Rand.ret.
  pose proof (choices_advances ("abcdefghijklmnopqrstuvwxyz" ++ "0123456789") 6 r i) as H.
  destruct (Kadence.choices _ 6 r) as [rand r']. exact H.
Qed.

Lemma single_btns_advance (buttons_data : list obj) :
  forall (r : Rand.source) (i : nat),
    snd (Rand.mapM Kadence.single_btn buttons_data r) i
    = r (i + 6 * List.length buttons_data)%nat.
Proof.
  induction buttons_data as [|btn rest IH]; intros r i.
  - simpl. now rewrite Nat.add_0_r.
  - cbn [Rand.mapM]. unfold Rand.bind at 1.
    pose proof (single_btn_advances btn r) as Hbtn.
    destruct (Kadence.single_btn btn r) as [block r1]. simpl in Hbtn.
    unfold Rand.bind at 1. specialize (IH r1 i).
    destruct (Rand.mapM Kadence.single_btn rest r1) as [blocks r2]. simpl in *.
    rewrite IH, Hbtn. f_equal. lia.
Qed.

(** C9, the code at the failing input: [adv_btn] is given its identifier
    and still mints one for each button, six draws apiece, whatever the
    caller supplies; called twice with the identifier "_b1" and one button
    it gives two markups that differ.  The other builders of the dialect
    draw nothing once they are given their identifier, so that two calls
    of one of them give one markup. *)
Theorem adv_btn_mints_despite_explicit_identifier :
  (forall (buttons_data : list obj) (unique_id align : string) (r : Rand.source) (i : nat),
      truthy unique_id = true ->
      snd (Kadence.adv_btn buttons_data (Some unique_id) align r) i
      = r (i + 6 * List.length buttons_data)%nat)
  /\ (exists first second,
         fst (Rand.twice (Kadence.adv_btn [go_button] (Some "_b1") "center") Rand.counting)
         = (first, second)
         /\ first <> second)
  /\ (forall unique_id : string,
         truthy unique_id = true ->
         (forall inner columns col_layout bg_color bg_img overlay_opacity overlay_color
                 padding margin min_height align max_width vertical_align,
             Rand.draws_nothing
               (Kadence.row_layout inner (Some unique_id) columns col_layout bg_color bg_img
                  overlay_opacity overlay_color padding margin min_height align max_width
                  vertical_align))
         /\ (forall inner bg_color padding text_color text_align,
                Rand.draws_nothing
                  (Kadence.kb_column inner (Some unique_id) bg_color padding text_color
                     text_align))
         /\ (forall text level color size align font_weight line_height letter_spacing
                    margin padding font_family,
                Rand.draws_nothing
                  (Kadence.adv_heading text (Some unique_id) level color size align
                     font_weight line_height letter_spacing margin padding font_family))
         /\ (forall title text icon media_type img_url link title_color text_color bg_color
                    align,
                Rand.draws_nothing
                  (Kadence.info_box title text (Some unique_id) icon media_type img_url link
                     title_color text_color bg_color align))
         /\ (forall height, Rand.draws_nothing (Kadence.kb_spacer height (Some unique_id)))
         /\ (forall url alt wp_id align max_width,
                Rand.draws_nothing
                  (Kadence.kb_image url (Some unique_id) alt wp_id align max_width))
         /\ (forall items columns style,
                Rand.draws_nothing
                  (Kadence.testimonials items (Some unique_id) columns style))
         /\ (forall items icon color,
                Rand.draws_nothing (Kadence.icon_list items (Some unique_id) icon color))
         /\ (forall email subject submit_text fields,
                Rand.draws_nothing
                  (Kadence.form_block (Some unique_id) email subject submit_text fields))).
Proof.
  split; [|split].
  - intros buttons_data unique_id align r i Ht.
    unfold Kadence.adv_btn. rewrite (uid_or_explicit unique_id "b" Ht).
    unfold Rand.bind, Rand.ret.
    pose proof (single_btns_advance buttons_data r i) as H.
    destruct (Rand.mapM Kadence.single_btn buttons_data r) as [blocks r']. exact H.
  - do 2 eexists. split; [vm_compute; reflexivity|]. discriminate.
  - intros unique_id Ht.
    repeat split; intros; apply (explicit_uid_draws_nothing unique_id _ _ Ht).
Qed.

(** ** The layout compiler: units and spacers in general *)

Lemma mapM_length {A B} (f : A -> result B) (l : list A) (ys : list B) :
  mapM f l = Ok ys -> List.length ys = List.length l.
Proof.
  revert ys. induction l as [|x l IH]; intros ys H; simpl in *.
  - now injection H as <-.
  - destruct (f x); [|discriminate]. destruct (mapM f l) as [ys'|]; [|discriminate].
    injection H as <-. simpl. now rewrite (IH ys' eq_refl).
Qed.

Lemma convert_layout_loop_emitted (sections : list Section_.t) :
  forall (outs blocks : list string) (n i : Z),
    mapM convert_section sections = Ok outs ->
    (i + len sections = n)%Z ->
    convert_layout_loop n i sections blocks = Ok (blocks ++ emitted outs)%list.
Proof.
  induction sections as [|section rest IH]; intros outs blocks n i Hm Hn; simpl in *.
  - injection Hm as <-. simpl. now rewrite app_nil_r.
  - destruct (convert_section section) as [out|e]; [|discriminate].
    destruct (mapM convert_section rest) as [outs'|e] eqn:Hrest; [|discriminate].
    injection Hm as <-. simpl.
    pose proof (mapM_length _ _ Hrest) as Hlen.
    rewrite (@IH outs' _ n (i + 1)%Z eq_refl) by (unfold len in *; simpl in Hn; lia).
    f_equal. unfold list_append. unfold len in Hn. simpl in Hn.
    destruct (truthy out); [|reflexivity].
    destruct rest as [|s rest']; destruct outs' as [|o outs'']; try discriminate.
    + replace (i <? n - 1)%Z with false by (symmetry; apply Z.ltb_ge; simpl in Hn; lia).
      simpl. now rewrite <- app_assoc.
    + replace (i <? n - 1)%Z with true
        by (symmetry; apply Z.ltb_lt; simpl in Hn; lia).
      simpl. rewrite <- !app_assoc. reflexivity.
Qed.

Lemma emitted_last_nonempty (outs : list string) (last_out : string) :
  truthy last_out = true ->
  emitted (outs ++ [last_out])%list
  = interleave (_spacer 30) (filter (fun out => truthy out) (outs ++ [last_out])%list).
Proof.
  intros Hlast. induction outs as [|out outs IH]; simpl.
  - now rewrite Hlast.
  - rewrite IH. destruct (truthy out) eqn:Hout; [|reflexivity].
    assert (Hrest : truthy (outs ++ [last_out])%list = true) by now destruct outs.
    rewrite Hrest. simpl.
    destruct (filter (fun out0 => truthy out0) (outs ++ [last_out])%list) eqn:Hf.
    + exfalso. assert (Hin : In last_out (filter (fun o => truthy o) (outs ++ [last_out])%list)).
      { apply filter_In. split; [apply in_or_app; right; now left|exact Hlast]. }
      rewrite Hf in Hin. contradiction.
    + reflexivity.
Qed.

(** When the sections convert to the outputs [outs] and the last of them
    is not empty, [convert_layout] emits the style override and then the
    non-empty outputs in the order of their sections, one spacer between
    two neighbours and none after the last; its result is these blocks
    joined by blank lines. *)
Theorem convert_layout_interleaves_spacers :
  forall (layout_data : Document.t) (outs : list string) (last_out : string),
    mapM convert_section (get_or [] (Document.sections layout_data))
    = Ok (outs ++ [last_out])%list ->
    truthy last_out = true ->
    convert_layout_blocks layout_data
    = Ok (_theme_override_css
            :: interleave (_spacer 30)
                 (filter (fun out => truthy out) (outs ++ [last_out])%list))
    /\ convert_layout layout_data
       = Ok (String.concat (nl ++ nl)
               (_theme_override_css
                  :: interleave (_spacer 30)
                       (filter (fun out => truthy out) (outs ++ [last_out])%list))).
Proof.
  intros layout_data outs last_out Hm Hlast.
  assert (Hblocks : convert_layout_blocks layout_data
                    = Ok (_theme_override_css
                            :: interleave (_spacer 30)
                                 (filter (fun out => truthy out) (outs ++ [last_out])%list))).
  { unfold convert_layout_blocks.
    rewrite (@convert_layout_loop_emitted _ _ [_theme_override_css]
               (len (get_or [] (Document.sections layout_data))) 0 Hm eq_refl).
    now rewrite emitted_last_nonempty. }
  split; [exact Hblocks|]. unfold convert_layout. now rewrite Hblocks.
Qed.

Lemma convert_layout_interleaves_spacers_witness :
  exists unit_,
    convert_layout_blocks
      (Document.Build None (Some [separator_section; empty_generic_section; separator_section]))
    = Ok [_theme_override_css; unit_; _spacer 30; unit_]
    /\ convert_layout
         (Document.Build None
            (Some [separator_section; empty_generic_section; separator_section]))
       = Ok (String.concat (nl ++ nl) [_theme_override_css; unit_; _spacer 30; unit_]).
Proof.
  eexists.
  exact (@convert_layout_interleaves_spacers
           (Document.Build None
              (Some [separator_section; empty_generic_section; separator_section]))
           [_; ""] _ eq_refl eq_refl).
Defined.

(** ** The page builder *)

(** The page builder hands no identifier to the builders it calls, so
    they mint them: whatever the library functions are, compiling the page
    [spacer_page] twice with [build_page_content] gives two markups that
    differ. *)
Theorem build_page_content_mints_identifiers :
  forall url_quote str_lower str_split str_strip int_of_str repr_float,
  exists first second,
    fst (Rand.twice
           (PageBuilder.build_page_content url_quote str_lower str_split str_strip
              int_of_str repr_float spacer_page None "generic")
           Rand.counting)
    = (Ok first, Ok second)
    /\ first <> second.
Proof.
  intros. do 2 eexists. split; [vm_compute; reflexivity|]. discriminate.
Qed.

(** The item converter of the page builder reads the text with a default:
    a paragraph without the key [text] is rendered with an empty text and
    nothing is raised; so is a heading, when its font size is absent too. *)
Theorem build_content_item_defaults_text :
  forall url_quote str_lower str_split str_strip int_of_str
         (item : PageItem.t) (m : PageBuilder.img_map),
    PageItem.text item = None ->
    (PageItem.type item = Some "paragraph" ->
     exists style,
       PageBuilder._build_content_item url_quote str_lower str_split str_strip
         int_of_str item m
       = Build.ok (Gutenberg.paragraph "" (PageItem.align item) None None None false style))
    /\ (PageItem.type item = Some "heading" ->
        PageItem.font_size item = None ->
        PageBuilder._build_content_item url_quote str_lower str_split str_strip
          int_of_str item m
        = Build.call (Kadence.adv_heading "" None (get_or 2 (PageItem.level item))
                        (PageItem.color item) None (PageItem.align item)
                        (PageItem.font_weight item) None None None None None)).
Proof.
  intros url_quote str_lower str_split str_strip int_of_str item m Htext.
  destruct item; simpl in *. subst. split.
  - intros ->. eexists. reflexivity.
  - intros -> ->. reflexivity.
Qed.

Lemma build_content_item_defaults_text_witness :
  PageBuilder._build_content_item (fun s => s) (fun s => s) (fun s => [s]) (fun s => s)
    (fun _ => None) (PageItem.of_type "heading") []
  = Build.call (Kadence.adv_heading "" None 2 None None None None None None None None None).
Proof.
  exact (proj2 (@build_content_item_defaults_text (fun s => s) (fun s => s) (fun s => [s])
                  (fun s => s) (fun _ => None)
                  (PageItem.of_type "heading") [] eq_refl)
               eq_refl eq_refl).
Defined.

(** ** The item converter: when it raises *)

Lemma mapM_ok_iff {A B} (f : A -> result B) (ok : A -> bool) (l : list A) :
  (forall x, In x l -> ((exists y, f x = Ok y) <-> ok x = true)) ->
  ((exists ys, mapM f l = Ok ys) <-> forallb ok l = true).
Proof.
  induction l as [|x l IH]; intros Hf; simpl.
  - split; eauto.
  - pose proof (Hf x (or_introl eq_refl)) as Hx.
    assert (Hl : (exists ys, mapM f l = Ok ys) <-> forallb ok l = true).
    { apply IH. intros y Hy. apply Hf. now right. }
    rewrite andb_true_iff, <- Hx, <- Hl. split.
    + intros [ys Hys]. destruct (f x) as [y|e]; [|discriminate].
      destruct (mapM f l) as [ys'|e]; [|discriminate]. eauto.
    + intros [[y Hy] [ys Hys]]. rewrite Hy, Hys. eauto.
Qed.

Lemma mapM_get_ok_iff {A B} (f : A -> result B) (ok : A -> bool) (o : option (list A)) :
  (forall x, In x (get_or [] o) -> ((exists y, f x = Ok y) <-> ok x = true)) ->
  ((exists ys, mapM_get f o = Ok ys) <-> all_get ok o = true).
Proof.
  destruct o as [l|]; simpl.
  - apply mapM_ok_iff.
  - intros _. split; eauto.
Qed.

Lemma convert_button_ok_iff (b : Button.t) :
  (exists out, _convert_button b = Ok out) <-> is_some (Button.text b) = true.
Proof.
  unfold _convert_button. destruct (Button.text b); simpl; split; eauto.
  - intros [out H]. discriminate.
  - discriminate.
Qed.

Lemma bind_ok_iff {A B} (m : result A) (k : A -> B) :
  (exists out, (x <- m ;; Ok (k x)) = Ok out) <-> (exists x, m = Ok x).
Proof.
  destruct m as [x|e]; simpl; split; eauto.
  - intros [out H]. discriminate.
  - intros [x H]. discriminate.
Qed.

Lemma eq_str_true (o : option string) (s : string) :
  eq_str o s = true -> o = Some s.
Proof.
  destruct o as [x|]; simpl; [|discriminate].
  intros H. apply String.eqb_eq in H. now subst.
Qed.

Lemma convert_content_item_ok_iff :
  forall item : Item.t,
    (exists out, _convert_content_item item = Ok out) <-> item_has_texts item = true.
Proof.
  fix IH 1. intros item.
  destruct item as [type text level color font_size align url alt width height
                    buttons entries ordered columns].
  cbn [_convert_content_item item_has_texts Item.type Item.text Item.level Item.color
       Item.font_size Item.align Item.url Item.alt Item.width Item.height Item.buttons
       Item.entries Item.ordered Item.columns].
  destruct (eq_str type "heading") eqn:Hh.
  { simpl. destruct text; simpl; split; eauto; try discriminate.
    intros [out H]. discriminate. }
  destruct (eq_str type "paragraph") eqn:Hp.
  { simpl. destruct text; simpl; split; eauto; try discriminate.
    intros [out H]. discriminate. }
  cbn [orb].
  destruct (eq_str type "image") eqn:Hi.
  { apply eq_str_true in Hi. subst type. simpl. split; eauto. }
  destruct (eq_str type "buttons") eqn:Hb.
  { rewrite bind_ok_iff. apply mapM_get_ok_iff. intros b _. apply convert_button_ok_iff. }
  destruct (eq_str type "list") eqn:Hl.
  { apply eq_str_true in Hl. subst type. simpl. split; eauto. }
  destruct (eq_str type "spacer") eqn:Hs.
  { apply eq_str_true in Hs. subst type. simpl. split; eauto. }
  destruct (eq_str type "separator") eqn:Hsep.
  { apply eq_str_true in Hsep. subst type. simpl. split; eauto. }
  destruct (eq_str type "columns") eqn:Hc; [|split; eauto].
  rewrite bind_ok_iff.
  destruct columns as [col_items|]; [|simpl; split; eauto].
  cbn [mapM_get all_get]. induction col_items as [|col_item col_items IHc].
  - simpl. split; eauto.
  - destruct col_item as [content].
    assert (Hcontent :
      (exists inner, mapM_get _convert_content_item content = Ok inner)
      <-> all_get item_has_texts content = true).
    { destruct content as [items|]; [|simpl; split; eauto].
      cbn [mapM_get all_get]. induction items as [|c items IHi].
      - simpl. split; eauto.
      - cbn [forallb]. rewrite andb_true_iff, <- (IH c), <- IHi. simpl. split.
        + intros [ys Hys]. destruct (_convert_content_item c); [|discriminate].
          destruct (mapM _convert_content_item items); [|discriminate]. eauto.
        + intros [[y Hy] [ys Hys]]. rewrite Hy, Hys. eauto. }
    cbn [forallb Item.content]. rewrite andb_true_iff, <- Hcontent, <- IHc.
    clear IHc Hcontent. simpl. split.
    + intros [ys Hys].
      destruct (mapM_get _convert_content_item content) as [inner|]; [|discriminate].
      simpl in Hys.
      match type of Hys with
      | match ?m with _ => _ end = _ => destruct m; [|discriminate]
      end.
      eauto.
    + intros [[inner Hinner] [ys Hys]]. rewrite Hinner. simpl. rewrite Hys. eauto.
Qed.

Lemma apply_section_align_has_texts (c : Item.t) (a : option string) :
  item_has_texts (_apply_section_align c a) = item_has_texts c.
Proof.
  unfold _apply_section_align.
  destruct (negb (truthy a)); [reflexivity|].
  destruct (truthy (Item.align c)); [reflexivity|].
  destruct (_ || _); [|reflexivity].
  now destruct c.
Qed.

Lemma convert_aligned_ok_iff (content : option (list Item.t)) (a : option string) :
  (exists ys, convert_aligned content a = Ok ys) <-> all_get item_has_texts content = true.
Proof.
  unfold convert_aligned. apply mapM_get_ok_iff. intros c _.
  rewrite convert_content_item_ok_iff. now rewrite apply_section_align_has_texts.
Qed.

Lemma mapM_items_ok_iff (l : list Item.t) :
  (exists ys, mapM _convert_content_item l = Ok ys) <-> forallb item_has_texts l = true.
Proof.
  apply mapM_ok_iff. intros c _. apply convert_content_item_ok_iff.
Qed.

Lemma forallb_concat {A} (f : A -> bool) (ls : list (list A)) :
  forallb (forallb f) ls = forallb f (concat ls).
Proof.
  induction ls as [|l ls IH]; simpl; [reflexivity|].
  now rewrite forallb_app, IH.
Qed.

Lemma forallb_repeat_nil {A} (f : A -> bool) (n : nat) :
  forallb (forallb f) (repeat [] n) = true.
Proof.
  induction n; simpl; auto.
Qed.

Lemma footer_col_blocks_ok_iff (content : list Item.t) (num_cols : Z) :
  (exists blocks,
     footer_col_blocks (footer_pad_groups (footer_col_groups content) num_cols) = Ok blocks)
  <-> forallb item_has_texts content = true.
Proof.
  unfold footer_col_blocks.
  rewrite (mapM_ok_iff _ (forallb item_has_texts)).
  - rewrite footer_pad_groups_spec, forallb_app, forallb_repeat_nil, andb_true_r.
    rewrite forallb_concat.
    now rewrite (proj1 (footer_col_groups_shape content)).
  - intros grp _. rewrite bind_ok_iff. apply mapM_items_ok_iff.
Qed.

Ltac ok_or_raise :=
  split; [eauto; intros [? ?]; discriminate | try discriminate; eauto].

Lemma convert_section_ok_iff (section : Section_.t) :
  (exists out, convert_section section = Ok out) <-> section_well_formed section = true.
Proof.
  unfold convert_section, section_well_formed.
  destruct (String.eqb (get_or "" (Section_.type section)) "hero").
  { unfold _convert_hero.
    rewrite andb_true_iff, <- (convert_aligned_ok_iff _
      (Some (or_else (_resolve_section_align section) "center"))).
    destruct (convert_aligned _ _) as [content|e]; simpl.
    - destruct (Section_.background section) as [[o|v]|]; simpl.
      + destruct (eq_str (Background.type o) "image"); split; eauto.
      + split; [intros [out H]; discriminate|intros [_ H]; discriminate].
      + split; eauto.
    - split; [intros [out H]; discriminate|intros [[ys H] _]; discriminate]. }
  destruct (_ || _).
  { unfold _convert_columns_section.
    rewrite andb_true_iff, <- (convert_aligned_ok_iff _ (_resolve_section_align section)).
    rewrite <- (mapM_get_ok_iff (_convert_card section (_resolve_section_align section))
                  (fun card => all_get item_has_texts (Card.content card))).
    - destruct (mapM_get _ (Section_.items section)) as [col_blocks|e]; simpl.
      + destruct (convert_aligned _ _) as [content|e]; simpl.
        * destruct (_ || _); split; eauto.
        * split; [intros [out H]; discriminate|intros [[ys H] _]; discriminate].
      + split; [intros [out H]; discriminate|intros [_ [ys H]]; discriminate].
    - intros card _. unfold _convert_card.
      rewrite <- (convert_aligned_ok_iff _
        (match Card.align card with Some a => Some a | None => _resolve_section_align section end)).
      destruct (convert_aligned _ _) as [inner|e]; simpl.
      + destruct (_ && _); split; eauto.
      + split; intros [out H]; discriminate. }
  rewrite andb_true_r.
  destruct (String.eqb _ "cta").
  { unfold _convert_cta.
    rewrite <- (convert_aligned_ok_iff _
      (Some (or_else (_resolve_section_align section) "center"))).
    destruct (convert_aligned _ _) as [content|e]; simpl; split; eauto;
      intros [out H]; discriminate. }
  destruct (String.eqb _ "image-gallery").
  { unfold _convert_image_gallery.
    rewrite <- (convert_aligned_ok_iff _ (_resolve_section_align section)).
    destruct (convert_aligned _ _) as [content|e]; simpl.
    - destruct (_ || _); split; eauto.
    - split; intros [out H]; discriminate. }
  destruct (String.eqb _ "logo-strip").
  { unfold _convert_logo_strip.
    rewrite <- (convert_aligned_ok_iff _
      (Some (or_else (_resolve_section_align section) "center"))).
    destruct (convert_aligned _ _) as [content|e]; simpl; split; eauto;
      intros [out H]; discriminate. }
  destruct (String.eqb _ "footer").
  { unfold _convert_footer.
    assert (Hc : all_get item_has_texts (Section_.content section)
                 = forallb item_has_texts (get_or [] (Section_.content section))).
    { now destruct (Section_.content section). }
    rewrite Hc.
    destruct (_ >? 1)%Z.
    - rewrite <- (footer_col_blocks_ok_iff _
        (get_or 1 (Layout.columns (get_or Layout.empty (Section_.layout section))))).
      destruct (footer_col_blocks _) as [blocks|e]; simpl; split; eauto;
        intros [out H]; discriminate.
    - rewrite <- mapM_items_ok_iff.
      destruct (mapM _ _) as [inner|e]; simpl; split; eauto;
        intros [out H]; discriminate. }
  unfold _convert_generic.
  rewrite <- (convert_aligned_ok_iff _ (_resolve_section_align section)).
  destruct (convert_aligned _ _) as [content|e]; simpl.
  - destruct (_ || _); split; eauto.
  - split; intros [out H]; discriminate.
Qed.

Lemma convert_layout_loop_ok_iff (sections : list Section_.t) :
  forall (n i : Z) (blocks : list string),
    (exists out, convert_layout_loop n i sections blocks = Ok out)
    <-> forallb section_well_formed sections = true.
Proof.
  induction sections as [|section rest IH]; intros n i blocks; simpl.
  - split; eauto.
  - rewrite andb_true_iff, <- convert_section_ok_iff.
    destruct (convert_section section) as [block|e]; simpl.
    + rewrite IH. split; eauto. now intros [_ H].
    + split; [intros [out H]; discriminate|intros [[out H] _]; discriminate].
Qed.

(** [convert_layout] returns a markup exactly for the well-formed
    documents: every heading, paragraph and button that the item converter
    reaches has its key [text], and no hero section holds a [background]
    that is not a dictionary.  On every other document it raises. *)
Theorem convert_layout_returns_iff_well_formed (layout_data : Document.t) :
  (exists out, convert_layout layout_data = Ok out)
  <-> forallb section_well_formed (get_or [] (Document.sections layout_data)) = true.
Proof.
  unfold convert_layout, convert_layout_blocks.
  rewrite <- (convert_layout_loop_ok_iff _
                (len (get_or [] (Document.sections layout_data))) 0 [_theme_override_css]).
  destruct (convert_layout_loop _ _ _ _) as [blocks|e]; simpl; split; eauto;
    intros [out H]; discriminate.
Qed.

(** ** The exceptions of the converter *)

Lemma mapM_raise {A B} (f : A -> result B) (P : py_error -> Prop) (l : list A) (e : py_error) :
  (forall x e', In x l -> f x = Raise e' -> P e') ->
  mapM f l = Raise e -> P e.
Proof.
  induction l as [|x l IH]; intros Hf H; simpl in H; [discriminate|].
  destruct (f x) as [y|e'] eqn:Hx.
  - destruct (mapM f l) as [ys|e'] eqn:Hl; [discriminate|].
    injection H as <-. apply IH; [|reflexivity].
    intros x' e'' Hin. apply Hf. now right.
  - injection H as <-. apply (Hf x); [now left|assumption].
Qed.

Lemma mapM_get_raise {A B} (f : A -> result B) (P : py_error -> Prop)
    (o : option (list A)) (e : py_error) :
  (forall x e', f x = Raise e' -> P e') ->
  mapM_get f o = Raise e -> P e.
Proof.
  intros Hf. destruct o as [l|]; simpl; [|discriminate].
  apply (@mapM_raise _ _ _ P). intros x e' _. apply Hf.
Qed.

Lemma convert_content_item_raises_key_error :
  forall (item : Item.t) (e : py_error),
    _convert_content_item item = Raise e -> e = KeyError "text".
Proof.
  fix IH 1. intros item e.
  destruct item as [type text level color font_size align url alt width height
                    buttons entries ordered columns].
  cbn [_convert_content_item Item.type Item.text Item.level Item.color
       Item.font_size Item.align Item.url Item.alt Item.width Item.height Item.buttons
       Item.entries Item.ordered Item.columns].
  destruct (eq_str type "heading").
  { destruct text; [discriminate|]. now intros [= <-]. }
  destruct (eq_str type "paragraph").
  { destruct text; [discriminate|]. now intros [= <-]. }
  destruct (eq_str type "image"); [discriminate|].
  destruct (eq_str type "buttons").
  { destruct (mapM_get _convert_button buttons) as [btns|e'] eqn:Hb; [discriminate|].
    simpl. intros [= <-]. revert Hb. apply (@mapM_get_raise _ _ _ (fun e => e = KeyError "text")).
    intros b e0. unfold _convert_button. destruct (Button.text b); [discriminate|].
    now intros [= <-]. }
  destruct (eq_str type "list"); [discriminate|].
  destruct (eq_str type "spacer"); [discriminate|].
  destruct (eq_str type "separator"); [discriminate|].
  destruct (eq_str type "columns"); [|discriminate].
  destruct columns as [col_items|]; [|discriminate].
  cbn [mapM_get]. induction col_items as [|col_item col_items IHc]; [discriminate|].
  destruct col_item as [content]. simpl. cbn [Item.content].
  destruct content as [items|].
  - cbn [mapM_get].
    assert (Hitems : forall e', mapM _convert_content_item items = Raise e' ->
                                e' = KeyError "text").
    { induction items as [|c items IHi]; simpl; [discriminate|].
      intros e'. destruct (_convert_content_item c) as [y|e0] eqn:Hc.
      - destruct (mapM _convert_content_item items); [discriminate|].
        intros [= <-]. now apply IHi.
      - intros [= <-]. now apply (IH c). }
    destruct (mapM _convert_content_item items) as [inner|e0]; simpl.
    + intros H. apply IHc. revert H.
      match goal with
      | |- context [mapM ?f col_items] => destruct (mapM f col_items); [discriminate|]
      end.
      exact (fun H => H).
    + intros [= <-]. now apply Hitems.
  - simpl. intros H. apply IHc. revert H.
    match goal with
    | |- context [mapM ?f col_items] => destruct (mapM f col_items); [discriminate|]
    end.
    exact (fun H => H).
Qed.

Lemma convert_aligned_raises_key_error (content : option (list Item.t))
    (a : option string) (e : py_error) :
  convert_aligned content a = Raise e -> e = KeyError "text".
Proof.
  unfold convert_aligned. apply (@mapM_get_raise _ _ _ (fun e => e = KeyError "text")).
  intros c e'. apply convert_content_item_raises_key_error.
Qed.

Ltac aligned_raise :=
  match goal with
  | |- context [convert_aligned ?c ?a] =>
      let H := fresh "Hal" in
      destruct (convert_aligned c a) eqn:H;
      [simpl | simpl; intros [= <-]; left; exact (convert_aligned_raises_key_error _ _ H)]
  end.

Lemma convert_section_raises (section : Section_.t) (e : py_error) :
  convert_section section = Raise e ->
  e = KeyError "text" \/ e = AttributeError "get".
Proof.
  unfold convert_section.
  destruct (String.eqb _ "hero").
  { unfold _convert_hero. aligned_raise.
    destruct (Section_.background section) as [[o|v]|]; simpl.
    - destruct (eq_str _ _); discriminate.
    - intros [= <-]. now right.
    - discriminate. }
  destruct (_ || _).
  { unfold _convert_columns_section.
    destruct (mapM_get _ (Section_.items section)) as [col_blocks|e'] eqn:Hcards; simpl.
    - aligned_raise. destruct (_ || _); discriminate.
    - intros [= <-]. left. revert Hcards. apply (@mapM_get_raise _ _ _ (fun e => e = KeyError "text")).
      intros card e0. unfold _convert_card.
      destruct (convert_aligned _ _) eqn:Hal; simpl.
      + destruct (_ && _); discriminate.
      + intros [= <-]. exact (convert_aligned_raises_key_error _ _ Hal). }
  destruct (String.eqb _ "cta").
  { unfold _convert_cta. aligned_raise. discriminate. }
  destruct (String.eqb _ "image-gallery").
  { unfold _convert_image_gallery. aligned_raise. destruct (_ || _); discriminate. }
  destruct (String.eqb _ "logo-strip").
  { unfold _convert_logo_strip. aligned_raise. discriminate. }
  destruct (String.eqb _ "footer").
  { unfold _convert_footer. destruct (_ >? 1)%Z.
    - destruct (footer_col_blocks _) as [blocks|e'] eqn:Hb; simpl; [discriminate|].
      intros [= <-]. left. revert Hb. unfold footer_col_blocks. apply (@mapM_raise _ _ _ (fun e => e = KeyError "text")).
      intros grp e0 _.
      destruct (mapM _convert_content_item grp) as [inner|e1] eqn:Hg; simpl; [discriminate|].
      intros [= <-]. revert Hg. apply (@mapM_raise _ _ _ (fun e => e = KeyError "text")).
      intros c e2 _. apply convert_content_item_raises_key_error.
    - destruct (mapM _ _) as [inner|e'] eqn:Hm; simpl; [discriminate|].
      intros [= <-]. left. revert Hm. apply (@mapM_raise _ _ _ (fun e => e = KeyError "text")).
      intros c e2 _. apply convert_content_item_raises_key_error. }
  unfold _convert_generic. aligned_raise. destruct (_ || _); discriminate.
Qed.

Lemma convert_layout_loop_raises (sections : list Section_.t) :
  forall (n i : Z) (blocks : list string) (e : py_error),
    convert_layout_loop n i sections blocks = Raise e ->
    exists section, In section sections /\ convert_section section = Raise e.
Proof.
  induction sections as [|section rest IH]; intros n i blocks e; simpl; [discriminate|].
  destruct (convert_section section) as [block|e'] eqn:Hs; simpl.
  - intros H. destruct (IH _ _ _ _ H) as [s [Hin Hr]]. exists s. auto.
  - intros [= <-]. exists section. auto.
Qed.

(** When [convert_layout] raises, the exception is the one of a
    section of the document, and it is [KeyError('text')] (an item
    without its text) or the [AttributeError] of [bg.get] on a hero
    background that is not a dictionary; the sections before the failing
    one convert. *)
Theorem convert_layout_raises_only (layout_data : Document.t) (e : py_error) :
  convert_layout layout_data = Raise e ->
  (e = KeyError "text" \/ e = AttributeError "get")
  /\ exists section,
       In section (get_or [] (Document.sections layout_data))
       /\ convert_section section = Raise e.
Proof.
  unfold convert_layout, convert_layout_blocks.
  destruct (convert_layout_loop _ _ _ _) as [blocks|e'] eqn:Hl; simpl; [discriminate|].
  intros [= <-].
  destruct (convert_layout_loop_raises _ _ _ _ Hl) as [section [Hin Hr]].
  split; [exact (convert_section_raises _ Hr)|]. exists section. auto.
Qed.

Lemma convert_layout_raises_only_witness :
  (KeyError "text" = KeyError "text" \/ KeyError "text" = AttributeError "get")
  /\ exists section,
       In section (get_or [] (Document.sections textless_document))
       /\ convert_section section = Raise (KeyError "text").
Proof.
  exact (@convert_layout_raises_only textless_document (KeyError "text") eq_refl).
Defined.

(** ** Sections that leave no block *)

Lemma group_truthy inner bg_color text_color padding min_height border_radius align layout_type :
  truthy (_group inner bg_color text_color padding min_height border_radius align layout_type)
  = true.
Proof. reflexivity. Qed.

Lemma cover_truthy inner bg_image_url dim_ratio min_height overlay_color align :
  truthy (_cover inner bg_image_url dim_ratio min_height overlay_color align) = true.
Proof. reflexivity. Qed.

Lemma columns_truthy inner align : truthy (_columns inner align) = true.
Proof. unfold _columns. destruct (truthy align); reflexivity. Qed.

Lemma gallery_truthy images columns crop : truthy (_gallery images columns crop) = true.
Proof. reflexivity. Qed.

Lemma append_empty (a b : string) : (a ++ b)%string = "" -> a = "" /\ b = "".
Proof. destruct a; simpl; [auto|discriminate]. Qed.

Lemma concat_empty (sep : string) (l : list string) :
  String.concat sep l = "" -> forall x, In x l -> x = "".
Proof.
  induction l as [|y l IH]; intros H x Hin; [contradiction|].
  destruct l as [|z l].
  - simpl in *. destruct Hin as [<-|[]]. exact H.
  - change (String.concat sep (y :: z :: l))
      with (y ++ sep ++ String.concat sep (z :: l))%string in H.
    apply append_empty in H. destruct H as [Hy H].
    apply append_empty in H. destruct H as [_ H].
    destruct Hin as [<-|Hin]; [exact Hy|]. now apply IH.
Qed.

Lemma not_truthy_empty (s : string) : truthy s = true -> Ok s <> Ok "".
Proof. intros H [= ->]. discriminate. Qed.

Lemma convert_aligned_length (content : option (list Item.t)) (a : option string)
    (ys : list string) :
  convert_aligned content a = Ok ys -> truthy ys = truthy content.
Proof.
  unfold convert_aligned. destruct content as [l|]; simpl.
  - intros H. apply mapM_length in H. destruct l, ys; try reflexivity; discriminate.
  - now intros [= <-].
Qed.

Lemma convert_generic_empty_iff (section : Section_.t) :
  _convert_generic section = Ok ""
  <-> truthy (Section_.background_color section) = false
      /\ truthy (Section_.padding section) = false
      /\ truthy (Section_.content section) = false.
Proof.
  unfold _convert_generic.
  destruct (convert_aligned _ _) as [content|e] eqn:Hal; simpl.
  - rewrite (convert_aligned_length _ _ Hal).
    destruct (truthy (Section_.background_color section)),
             (truthy (Section_.padding section)),
             (truthy (Section_.content section)); simpl;
      (split; [intros H; try (exfalso; revert H; apply not_truthy_empty, group_truthy); auto
              |intros [? [? ?]]; try discriminate; auto]).
  - split; [discriminate|]. intros [_ [_ Hc]].
    unfold convert_aligned in Hal. destruct (Section_.content section) as [[|c l]|];
      simpl in *; discriminate.
Qed.

Ltac never_empty :=
  let H := fresh "H" in
  intros H; exfalso; revert H; apply not_truthy_empty;
  first [apply group_truthy | apply cover_truthy | apply columns_truthy].

Ltac columns_never_empty :=
  simpl; split; [|intros [? _]; discriminate]; unfold _convert_columns_section;
  destruct (mapM_get _ _); simpl; [|discriminate];
  destruct (convert_aligned _ _); simpl; [|discriminate];
  destruct (_ || _); never_empty.

(** A section converts to the empty string, and so leaves no block
    in the page, exactly when its type is none of the eight known ones
    and it has no truthy [background_color], no truthy [padding] and no
    content item.  A section of a known type never converts to the empty
    string. *)
Theorem convert_section_empty_iff (section : Section_.t) :
  convert_section section = Ok ""
  <-> known_section_type (get_or "" (Section_.type section)) = false
      /\ truthy (Section_.background_color section) = false
      /\ truthy (Section_.padding section) = false
      /\ truthy (Section_.content section) = false.
Proof.
  unfold convert_section, known_section_type.
  set (t := get_or "" (Section_.type section)).
  destruct (String.eqb t "hero").
  { simpl. split; [|intros [H _]; discriminate]. unfold _convert_hero.
    destruct (convert_aligned _ _); simpl; [|discriminate].
    destruct (as_object _); simpl; [|discriminate].
    destruct (eq_str _ _); never_empty. }
  destruct (String.eqb t "columns"); [columns_never_empty|].
  destruct (String.eqb t "features"); [columns_never_empty|].
  destruct (String.eqb t "stats"); [columns_never_empty|].
  destruct (String.eqb t "cta").
  { simpl. split; [|intros [H _]; discriminate]. unfold _convert_cta.
    destruct (convert_aligned _ _); simpl; [|discriminate]. never_empty. }
  destruct (String.eqb t "image-gallery").
  { simpl. split; [|intros [H _]; discriminate]. unfold _convert_image_gallery.
    destruct (convert_aligned _ _) as [content|]; simpl; [|discriminate].
    destruct (_ || _); [never_empty|].
    intros [= H]. exfalso.
    match type of H with
    | String.concat _ (_ ++ [?g])%list = _ =>
        assert (Hg : g = "") by (apply (concat_empty _ _ H); apply in_or_app; right; now left)
    end.
    revert Hg. clear. intros H. apply (f_equal (fun s => truthy s)) in H.
    rewrite gallery_truthy in H. discriminate. }
  destruct (String.eqb t "logo-strip").
  { simpl. split; [|intros [H _]; discriminate]. unfold _convert_logo_strip.
    destruct (convert_aligned _ _); simpl; [|discriminate]. never_empty. }
  destruct (String.eqb t "footer").
  { simpl. split; [|intros [H _]; discriminate]. unfold _convert_footer.
    destruct (_ >? 1)%Z.
    - destruct (footer_col_blocks _); simpl; [|discriminate]. never_empty.
    - destruct (mapM _ _); simpl; [|discriminate]. never_empty. }
  simpl. rewrite convert_generic_empty_iff. tauto.
Qed.

(** ** The head of the page *)

Lemma convert_layout_loop_extends (sections : list Section_.t) :
  forall (n i : Z) (blocks out : list string),
    convert_layout_loop n i sections blocks = Ok out ->
    exists more, out = (blocks ++ more)%list.
Proof.
  induction sections as [|section rest IH]; intros n i blocks out; simpl.
  - intros [= <-]. exists []. now rewrite app_nil_r.
  - destruct (convert_section section) as [block|e]; simpl; [|discriminate].
    intros H. apply IH in H. destruct H as [more ->].
    destruct (truthy block).
    + destruct (i <? n - 1)%Z; unfold list_append; rewrite <- ?app_assoc; eauto.
    + eauto.
Qed.

(** Whatever the document holds, the markup that [convert_layout]
    returns opens with the block that hides the theme's header and
    footer; what follows is nothing at all or a blank line and the blocks
    of the sections. *)
Theorem convert_layout_opens_with_theme_override (layout_data : Document.t) (out : string) :
  convert_layout layout_data = Ok out ->
  out = _theme_override_css
  \/ exists more, out = _theme_override_css ++ nl ++ nl ++ more.
Proof.
  unfold convert_layout, convert_layout_blocks.
  destruct (convert_layout_loop _ _ _ _) as [blocks|e] eqn:Hl; simpl; [|discriminate].
  intros [= <-]. apply convert_layout_loop_extends in Hl. destruct Hl as [more ->].
  destruct more as [|b more]; [now left|right].
  exists (String.concat (nl ++ nl) (b :: more)).
  change ([_theme_override_css] ++ b :: more)%list with (_theme_override_css :: b :: more).
  change (String.concat (nl ++ nl) (_theme_override_css :: b :: more))
    with (_theme_override_css ++ (nl ++ nl) ++ String.concat (nl ++ nl) (b :: more)).
  reflexivity.
Qed.

Lemma convert_layout_opens_with_theme_override_witness :
  exists out,
    convert_layout trailing_empty_document = Ok out
    /\ (out = _theme_override_css
        \/ exists more, out = _theme_override_css ++ nl ++ nl ++ more).
Proof.
  eexists. split.
  - vm_compute. reflexivity.
  - exact (@convert_layout_opens_with_theme_override trailing_empty_document _ eq_refl).
Defined.

(** ** Alignment propagation and side padding *)

Lemma apply_section_align_cases (c : Item.t) (a : option string) :
  _apply_section_align c a = c
  \/ exists s, a = Some s /\ truthy s = true /\ truthy (Item.align c) = false
               /\ _apply_section_align c a = Item.with_align c s.
Proof.
  unfold _apply_section_align.
  destruct a as [s|]; [|now left].
  destruct (truthy (Some s)) eqn:Ha; [|now left].
  destruct (truthy (Item.align c)) eqn:Hc; [now left|].
  cbn [negb].
  match goal with |- context [if ?b then Item.with_align _ _ else _] => destruct b end;
    [right|now left].
  exists s. auto.
Qed.

(** The propagation of the section's alignment writes the key
    [align] and nothing else, it leaves an item alone whose own [align]
    is truthy, an item that it leaves without a truthy [align] is
    unchanged, and a second pass changes nothing. *)
Theorem apply_section_align_only_fills_align (c : Item.t) (a : option string) :
  (forall x, Item.with_align (_apply_section_align c a) x = Item.with_align c x)
  /\ (truthy (Item.align c) = true -> _apply_section_align c a = c)
  /\ (truthy (Item.align (_apply_section_align c a)) = false ->
      _apply_section_align c a = c)
  /\ _apply_section_align (_apply_section_align c a) a = _apply_section_align c a.
Proof.
  destruct (apply_section_align_cases c a) as [Hsame|[s [-> [Hs [Hc Hset]]]]].
  - rewrite !Hsame. repeat split; auto.
  - rewrite !Hset. repeat split; auto.
    + rewrite Hc. discriminate.
    + simpl. change (truthy (Some s)) with (truthy s). rewrite Hs. discriminate.
    + unfold _apply_section_align. simpl.
      change (truthy (Some s)) with (truthy s). now rewrite Hs.
Qed.

Lemma dict_get_set_same (k v : string) (d : dict) :
  dict_get k (dict_set k v d) = Some v.
Proof.
  induction d as [|[k' v'] d IH]; simpl.
  - now rewrite String.eqb_refl.
  - destruct (String.eqb k' k) eqn:Hk; simpl; now rewrite Hk.
Qed.

Lemma dict_get_set_other (k k' v : string) (d : dict) :
  k' <> k -> dict_get k' (dict_set k v d) = dict_get k' d.
Proof.
  intros Hne. induction d as [|[k0 v0] d IH]; simpl.
  - destruct (String.eqb k k') eqn:Hk; [|reflexivity].
    apply String.eqb_eq in Hk. congruence.
  - destruct (String.eqb k0 k) eqn:Hk; simpl.
    + apply String.eqb_eq in Hk. subst k0.
      destruct (String.eqb k k') eqn:Hk'; [|reflexivity].
      apply String.eqb_eq in Hk'. congruence.
    + now rewrite IH.
Qed.

Lemma dict_set_same (k v : string) (d : dict) :
  dict_get k d = Some v -> dict_set k v d = d.
Proof.
  induction d as [|[k' v'] d IH]; simpl; [discriminate|].
  destruct (String.eqb k' k); [now intros [= ->]|].
  intros H. now rewrite IH.
Qed.

(** The side padding that the call-to-action and the footer give
    their group: [left] and [right] are always there, with the section's
    value when it has one and [40px] otherwise; every other side is as
    the section has it; padding twice is padding once. *)
Theorem with_side_padding_lookup (pad : dict) :
  dict_get "left" (with_side_padding pad) = Some (get_or "40px" (dict_get "left" pad))
  /\ dict_get "right" (with_side_padding pad) = Some (get_or "40px" (dict_get "right" pad))
  /\ (forall k, k <> "left" -> k <> "right" ->
                dict_get k (with_side_padding pad) = dict_get k pad)
  /\ with_side_padding (with_side_padding pad) = with_side_padding pad.
Proof.
  assert (Hl : dict_get "left" (with_side_padding pad)
               = Some (get_or "40px" (dict_get "left" pad))).
  { unfold with_side_padding.
    rewrite dict_get_set_other by discriminate. apply dict_get_set_same. }
  assert (Hr : dict_get "right" (with_side_padding pad)
               = Some (get_or "40px" (dict_get "right" pad))).
  { unfold with_side_padding. apply dict_get_set_same. }
  repeat split; auto.
  - intros k Hkl Hkr. unfold with_side_padding.
    now rewrite !dict_get_set_other by assumption.
  - unfold with_side_padding at 1. rewrite Hl, Hr. simpl.
    rewrite (@dict_set_same "left" _ _ Hl). exact (@dict_set_same "right" _ _ Hr).
Qed.

(** ** The native-extension dialect: escaping and identifiers *)

Lemma all_chars_app (p : ascii -> bool) (a b : string) :
  all_chars p (a ++ b) = all_chars p a && all_chars p b.
Proof.
  induction a as [|c a IH]; simpl; [reflexivity|]. now rewrite IH, andb_assoc.
Qed.

Lemma html_escape_cons (c : ascii) (rest : string) :
  Kadence.html_escape (String c rest) = escape_char c ++ Kadence.html_escape rest.
Proof. reflexivity. Qed.

Lemma escape_char_cases (c : ascii) :
  (c = "&"%char /\ escape_char c = "&amp;")
  \/ (c = "<"%char /\ escape_char c = "&lt;")
  \/ (c = ">"%char /\ escape_char c = "&gt;")
  \/ (c = dq /\ escape_char c = "&quot;")
  \/ (c = "'"%char /\ escape_char c = "&#x27;")
  \/ (html_special c = false /\ escape_char c = String c EmptyString).
Proof.
  unfold escape_char, html_special.
  destruct (Ascii.eqb c "&") eqn:H1; [apply Ascii.eqb_eq in H1; auto|].
  destruct (Ascii.eqb c "<") eqn:H2; [apply Ascii.eqb_eq in H2; auto|].
  destruct (Ascii.eqb c ">") eqn:H3; [apply Ascii.eqb_eq in H3; auto|].
  destruct (Ascii.eqb c dq) eqn:H4; [apply Ascii.eqb_eq in H4; auto 6|].
  destruct (Ascii.eqb c "'") eqn:H5; [apply Ascii.eqb_eq in H5; auto 7|].
  simpl. auto 8.
Qed.

Lemma html_special_amp (c : ascii) : html_special c = false -> c <> "&"%char.
Proof. intros H ->. discriminate. Qed.

Lemma escape_char_prefix_free (c c' : ascii) (x y : string) :
  escape_char c ++ x = escape_char c' ++ y -> c = c' /\ x = y.
Proof.
  destruct (escape_char_cases c) as [[-> ->]|[[-> ->]|[[-> ->]|[[-> ->]|[[-> ->]|[Hc ->]]]]]];
  destruct (escape_char_cases c') as [[-> ->]|[[-> ->]|[[-> ->]|[[-> ->]|[[-> ->]|[Hc' ->]]]]]];
  simpl; intros H; try discriminate H;
  try (injection H as H; split; [reflexivity|assumption]);
  try (injection H; intros; subst; discriminate);
  try (injection H; intros; subst; split; reflexivity).
Qed.

Lemma html_escape_injective (a b : string) :
  Kadence.html_escape a = Kadence.html_escape b -> a = b.
Proof.
  revert b. induction a as [|c a IH]; intros [|c' b].
  - reflexivity.
  - rewrite html_escape_cons. simpl.
    destruct (escape_char_cases c') as [[_ ->]|[[_ ->]|[[_ ->]|[[_ ->]|[[_ ->]|[_ ->]]]]]];
      discriminate.
  - rewrite html_escape_cons. simpl.
    destruct (escape_char_cases c) as [[_ ->]|[[_ ->]|[[_ ->]|[[_ ->]|[[_ ->]|[_ ->]]]]]];
      discriminate.
  - rewrite !html_escape_cons. intros H.
    apply escape_char_prefix_free in H. destruct H as [-> H]. now rewrite (IH b H).
Qed.

Lemma html_escape_no_delimiter (text : string) :
  all_chars (fun c => negb (html_delimiter c)) (Kadence.html_escape text) = true.
Proof.
  induction text as [|c text IH]; [reflexivity|].
  rewrite html_escape_cons, all_chars_app, IH, andb_true_r.
  destruct (escape_char_cases c) as [[_ ->]|[[_ ->]|[[_ ->]|[[_ ->]|[[_ ->]|[Hc ->]]]]]];
    try reflexivity.
  simpl. rewrite andb_true_r. unfold html_special in Hc. unfold html_delimiter.
  destruct (Ascii.eqb c "&"); [discriminate|]. simpl in Hc. now rewrite Hc.
Qed.

Lemma html_escape_plain (text : string) :
  all_chars (fun c => negb (html_special c)) text = true ->
  Kadence.html_escape text = text.
Proof.
  induction text as [|c text IH]; [reflexivity|].
  simpl all_chars. rewrite andb_true_iff, negb_true_iff. intros [Hc Ht].
  rewrite html_escape_cons, (IH Ht).
  destruct (escape_char_cases c) as [[-> _]|[[-> _]|[[-> _]|[[-> _]|[[-> _]|[_ ->]]]]]];
    try discriminate Hc.
  reflexivity.
Qed.

Lemma esc_is_html_escape (text : string) : Kadence._esc text = Kadence.html_escape text.
Proof. now destruct text. Qed.

(** The escaping of the texts that the builders put into markup: the
    result holds none of the characters [<], [>], the double and the
    single quote, whatever the text; a text without these four and the
    ampersand comes back as it is; and two different texts never escape to
    the same string. *)
Theorem esc_is_safe_and_injective :
  (forall text, all_chars (fun c => negb (html_delimiter c)) (Kadence._esc text) = true)
  /\ (forall text, all_chars (fun c => negb (html_special c)) text = true ->
                   Kadence._esc text = text)
  /\ (forall a b, Kadence._esc a = Kadence._esc b -> a = b).
Proof.
  repeat split; intros *; rewrite ?esc_is_html_escape.
  - apply html_escape_no_delimiter.
  - apply html_escape_plain.
  - apply html_escape_injective.
Qed.

Lemma get_in_range (p : ascii -> bool) (s : string) :
  forall n, (n < String.length s)%nat ->
            exists c, String.get n s = Some c /\ (all_chars p s = true -> p c = true).
Proof.
  induction s as [|c s IH]; intros n Hn; simpl in *; [lia|].
  destruct n as [|n].
  - exists c. split; [reflexivity|]. now intros [H _]%andb_true_iff.
  - destruct (IH n) as [c' [Hget Hp]]; [lia|].
    exists c'. split; [assumption|]. intros [_ H]%andb_true_iff. auto.
Qed.

Lemma choices_spec (p : ascii -> bool) (chars : string) :
  (0 < String.length chars)%nat -> all_chars p chars = true ->
  forall (k : nat) (r : Rand.source),
    String.length (fst (Kadence.choices chars k r)) = k
    /\ all_chars p (fst (Kadence.choices chars k r)) = true
    /\ (forall i, snd (Kadence.choices chars k r) i = r (i + k)%nat).
Proof.
  intros Hlen Hp. induction k as [|k IH]; intros r.
  - simpl. repeat split; auto.
  - simpl. unfold Rand.bind, Rand.draw, Rand.ret.
    specialize (IH (fun i => r (S i))).
    destruct (Kadence.choices chars k (fun i => r (S i))) as [rest r'] eqn:Hk.
    simpl in *. destruct IH as [IHlen [IHp IHr]].
    destruct (@get_in_range p chars (r 0%nat mod String.length chars))
      as [c [Hget Hc]].
    { apply Nat.mod_upper_bound. lia. }
    rewrite Hget. simpl. rewrite IHlen, IHp, (Hc Hp). repeat split; auto.
    intros i. rewrite IHr. f_equal. lia.
Qed.

(** An identifier that [_uid] mints is an underscore, the prefix and six
    characters out of [a-z0-9]; minting it takes six draws from the random
    source, neither more nor fewer. *)
Theorem uid_is_prefix_and_six_characters (prefix : string) (r : Rand.source) :
  exists rand,
    fst (Kadence._uid prefix r) = "_" ++ prefix ++ rand
    /\ String.length rand = 6%nat
    /\ all_chars uid_char rand = true
    /\ forall i, snd (Kadence._uid prefix r) i = r (i + 6)%nat.
Proof.
  unfold Kadence._uid, Rand.bind, Rand.ret.
  destruct (@choices_spec uid_char ("abcdefghijklmnopqrstuvwxyz" ++ "0123456789")
              ltac:(simpl; lia) eq_refl 6%nat r) as [Hlen [Hp Hr]].
  destruct (Kadence.choices _ 6 r) as [rand r'] eqn:Hk. simpl in *.
  exists rand. auto.
Qed.

(** ** The page builder: skipped sections and the image registry *)

Section PageBuilderProperties.

Variable url_quote : string -> string.
Variable str_lower : string -> string.
Variable str_split : string -> list string.
Variable str_strip : string -> string.
Variable int_of_str : string -> option Z.
Variable repr_float : Q -> string.

Lemma page_loop_skips_footers (m : PageBuilder.img_map) (page_role : string)
    (sections : list PageSection.t) :
  forall (blocks : list string) (r : Rand.source),
    PageBuilder.page_loop url_quote str_lower str_split str_strip int_of_str repr_float
      m page_role sections blocks r
    = PageBuilder.page_loop url_quote str_lower str_split str_strip int_of_str repr_float
        m page_role (filter not_footer sections) blocks r.
Proof.
  induction sections as [|section rest IH]; intros blocks r; [reflexivity|].
  simpl. unfold not_footer at 1.
  destruct (eq_str (PageSection.type section) "footer") eqn:Hf; simpl.
  - unfold Build.bind at 1, PageBuilder.page_step. rewrite Hf. simpl. apply IH.
  - unfold Build.bind.
    destruct (PageBuilder.page_step _ _ _ _ _ _ _ _ _ _ r) as [[blocks'|e] r'];
      [apply IH|reflexivity].
Qed.

(** A section of type [footer] inside a page layout contributes nothing:
    the page built from a document is the page built from the document
    without its footer sections, identifier for identifier. *)
Theorem build_page_content_skips_footer_sections
    (page_title : option string) (sections : list PageSection.t)
    (uploaded_images : option (list Upload.t)) (page_role : string) (r : Rand.source) :
  PageBuilder.build_page_content url_quote str_lower str_split str_strip int_of_str
    repr_float (PageDocument.Build page_title (Some sections)) uploaded_images page_role r
  = PageBuilder.build_page_content url_quote str_lower str_split str_strip int_of_str
      repr_float (PageDocument.Build page_title (Some (filter not_footer sections)))
      uploaded_images page_role r.
Proof.
  unfold PageBuilder.build_page_content. simpl.
  unfold Build.bind. now rewrite page_loop_skips_footers.
Qed.

Lemma key_eqb_eq (a b : Key.t) : Key.eqb a b = true <-> a = b.
Proof.
  destruct a as [x|x], b as [y|y]; simpl; split; try discriminate.
  - intros H. apply String.eqb_eq in H. now subst.
  - intros [= ->]. apply String.eqb_refl.
  - intros H. apply Z.eqb_eq in H. now subst.
  - intros [= ->]. apply Z.eqb_refl.
Qed.

Lemma img_get_set_same (k : Key.t) (img : Upload.t) (m : PageBuilder.img_map) :
  PageBuilder.img_get k (PageBuilder.img_set k img m) = Some img.
Proof.
  induction m as [|[k' v] m IH]; simpl.
  - now rewrite (proj2 (key_eqb_eq k k) eq_refl).
  - destruct (Key.eqb k' k) eqn:Hk; simpl; now rewrite Hk.
Qed.

Lemma img_get_set_other (k k' : Key.t) (img : Upload.t) (m : PageBuilder.img_map) :
  k <> k' ->
  PageBuilder.img_get k' (PageBuilder.img_set k img m) = PageBuilder.img_get k' m.
Proof.
  intros Hne. induction m as [|[k0 v] m IH]; simpl.
  - destruct (Key.eqb k k') eqn:Hk; [|reflexivity]. apply key_eqb_eq in Hk. contradiction.
  - destruct (Key.eqb k0 k) eqn:Hk; simpl.
    + apply key_eqb_eq in Hk. subst k0.
      destruct (Key.eqb k k') eqn:Hk'; [|reflexivity]. apply key_eqb_eq in Hk'. contradiction.
    + now rewrite IH.
Qed.

Lemma img_get_register (i : Z) (m : PageBuilder.img_map) (img : Upload.t) :
  PageBuilder.img_get (Key.Int i) (PageBuilder.register_upload m img)
  = if has_index i img then Some img else PageBuilder.img_get (Key.Int i) m.
Proof.
  unfold PageBuilder.register_upload, has_index.
  destruct (Upload.original_index img) as [n|].
  - destruct (n =? i)%Z eqn:Hn.
    + apply Z.eqb_eq in Hn. subst. apply img_get_set_same.
    + rewrite img_get_set_other by (intros [= ->]; now rewrite Z.eqb_refl in Hn).
      now rewrite img_get_set_other by discriminate.
  - now rewrite img_get_set_other by discriminate.
Qed.

Lemma find_snoc {A} (p : A -> bool) (l : list A) (x : A) :
  find p (l ++ [x]) = match find p l with
                      | Some y => Some y
                      | None => if p x then Some x else None
                      end.
Proof.
  induction l as [|y l IH]; simpl; [reflexivity|]. now destruct (p y).
Qed.

Lemma img_get_registered (i : Z) (uploads : list Upload.t) :
  forall m : PageBuilder.img_map,
    PageBuilder.img_get (Key.Int i) (fold_left PageBuilder.register_upload uploads m)
    = match find (has_index i) (rev uploads) with
      | Some img => Some img
      | None => PageBuilder.img_get (Key.Int i) m
      end.
Proof.
  induction uploads as [|img uploads IH]; intros m; simpl; [reflexivity|].
  rewrite IH, find_snoc, img_get_register.
  destruct (find (has_index i) (rev uploads)); [reflexivity|].
  now destruct (has_index i img).
Qed.

(** The image registry: an upload that carries [original_index = i] is
    what a lookup by the index [i] returns, whatever the description
    asked for; of several uploads with one index the last one wins; and
    the identifier that comes back is the upload's [id], or 0 without
    one. *)
Theorem image_lookup_by_index (uploads : list Upload.t) (img : Upload.t) (i : Z)
    (description : string) (fallback_w fallback_h : Z) :
  find (has_index i) (rev uploads) = Some img ->
  PageBuilder._get_image_url url_quote str_lower str_split
    (fold_left PageBuilder.register_upload uploads []) description i fallback_w fallback_h
  = match Upload.url img with
    | Some url => Ok (url, get_or 0 (Upload.id img))
    | None => Raise (KeyError "url")
    end.
Proof.
  intros Hfind. unfold PageBuilder._get_image_url.
  now rewrite img_get_registered, Hfind.
Qed.

End PageBuilderProperties.

Lemma image_lookup_by_index_witness :
  PageBuilder._get_image_url (fun s => s) (fun s => s) (fun s => [s])
    (fold_left PageBuilder.register_upload two_uploads []) "hero background" 0 1920 800
  = Ok ("http://wp/b.png", 12).
Proof.
  exact (@image_lookup_by_index (fun s => s) (fun s => s) (fun s => [s]) two_uploads
           (Upload.Build (Some "b.png") (Some 0) (Some "http://wp/b.png") (Some 12))
           0 "hero background" 1920 800 eq_refl).
Defined.

(** ** Slugs and file names *)

Lemma subst_chars_app (f : ascii -> string) (a b : string) :
  subst_chars f (a ++ b) = subst_chars f a ++ subst_chars f b.
Proof.
  induction a as [|c a IH]; simpl; [reflexivity|]. now rewrite IH, append_assoc'.
Qed.

Lemma subst_chars_ext (f g : ascii -> string) (s : string) :
  (forall c, f c = g c) -> subst_chars f s = subst_chars g s.
Proof.
  intros H. induction s as [|c s IH]; simpl; [reflexivity|]. now rewrite H, IH.
Qed.

Lemma replace_char_subst (c : ascii) (by_ s : string) :
  replace_char c by_ s
  = subst_chars (fun a => if Ascii.eqb a c then by_ else String a EmptyString) s.
Proof.
  induction s as [|a s IH]; simpl; [reflexivity|].
  rewrite IH. now destruct (Ascii.eqb a c).
Qed.

Lemma subst_chars_compose (f g : ascii -> string) (s : string) :
  subst_chars g (subst_chars f s) = subst_chars (fun a => subst_chars g (f a)) s.
Proof.
  induction s as [|c s IH]; simpl; [reflexivity|]. now rewrite subst_chars_app, IH.
Qed.

Lemma all_chars_subst (p q : ascii -> bool) (f : ascii -> string) (s : string) :
  (forall c, q c = true -> all_chars p (f c) = true) ->
  all_chars q s = true -> all_chars p (subst_chars f s) = true.
Proof.
  intros Hf. induction s as [|c s IH]; simpl; [reflexivity|].
  intros [Hc Hs]%andb_true_iff. now rewrite all_chars_app, (Hf c Hc), IH.
Qed.

Lemma all_chars_true (s : string) : all_chars (fun _ => true) s = true.
Proof. induction s; simpl; auto. Qed.

Lemma subst_chars_fixed (q : ascii -> bool) (f : ascii -> string) (s : string) :
  (forall c, q c = true -> f c = String c EmptyString) ->
  all_chars q s = true -> subst_chars f s = s.
Proof.
  intros Hf. induction s as [|c s IH]; simpl; [reflexivity|].
  intros [Hc Hs]%andb_true_iff. now rewrite (Hf c Hc), IH.
Qed.

Lemma forall_ascii (P : ascii -> bool) :
  forallb P all_ascii = true -> forall c, P c = true.
Proof.
  intros H c. rewrite forallb_forall in H. apply H.
  rewrite <- (ascii_nat_embedding c). unfold all_ascii.
  apply in_map, in_seq. pose proof (nat_ascii_bounded c). lia.
Qed.

(** A goal on one character [c], an equation between strings or a boolean
    that is [true], checked on the 256 characters. *)
Ltac every_character c :=
  try apply String.eqb_eq; revert c; apply forall_ascii; vm_compute; reflexivity.

Lemma sanitize_norwegian_by_character (text : string) :
  PageBuilder.sanitize_norwegian text = subst_chars transliterate text.
Proof.
  unfold PageBuilder.sanitize_norwegian.
  rewrite !replace_char_subst, !subst_chars_compose.
  apply subst_chars_ext. intros c. every_character c.
Qed.

Lemma transliterate_plain (c : ascii) :
  all_chars (fun a => negb (norwegian_letter a)) (transliterate c) = true.
Proof. every_character c. Qed.

Lemma transliterate_fixed (c : ascii) :
  negb (norwegian_letter c) = true -> transliterate c = String c EmptyString.
Proof.
  intros H. apply String.eqb_eq. revert H. apply implb_true_iff. every_character c.
Qed.

Lemma sanitize_norwegian_plain (text : string) :
  all_chars (fun c => negb (norwegian_letter c)) (PageBuilder.sanitize_norwegian text) = true.
Proof.
  rewrite sanitize_norwegian_by_character.
  apply (@all_chars_subst _ (fun _ => true)); [|apply all_chars_true].
  intros c _. apply transliterate_plain.
Qed.

Lemma sanitize_norwegian_fixed (text : string) :
  all_chars (fun c => negb (norwegian_letter c)) text = true ->
  PageBuilder.sanitize_norwegian text = text.
Proof.
  rewrite sanitize_norwegian_by_character.
  apply subst_chars_fixed. apply transliterate_fixed.
Qed.

(** [sanitize_norwegian] works letter by letter; its result holds none
    of the six letters; a text without them comes back as it is, so
    sanitising twice is sanitising once; and the result of a
    concatenation is the concatenation of the results. *)
Theorem sanitize_norwegian_removes_the_six_letters :
  (forall text, PageBuilder.sanitize_norwegian text = subst_chars transliterate text)
  /\ (forall text,
        all_chars (fun c => negb (norwegian_letter c)) (PageBuilder.sanitize_norwegian text)
        = true)
  /\ (forall text,
        all_chars (fun c => negb (norwegian_letter c)) text = true ->
        PageBuilder.sanitize_norwegian text = text)
  /\ (forall text,
        PageBuilder.sanitize_norwegian (PageBuilder.sanitize_norwegian text)
        = PageBuilder.sanitize_norwegian text)
  /\ (forall a b,
        PageBuilder.sanitize_norwegian (a ++ b)
        = PageBuilder.sanitize_norwegian a ++ PageBuilder.sanitize_norwegian b).
Proof.
  repeat split.
  - apply sanitize_norwegian_by_character.
  - apply sanitize_norwegian_plain.
  - apply sanitize_norwegian_fixed.
  - intros text. apply sanitize_norwegian_fixed, sanitize_norwegian_plain.
  - intros a b. rewrite !sanitize_norwegian_by_character. apply subst_chars_app.
Qed.

(** The file names of the extracted images are sanitised as the slugs
    are: the stem that [extract_embedded_images] computes with its own
    six replacements, made in another order, is [sanitize_norwegian] of
    the stem with its spaces turned into underscores; so it holds no
    space and none of the six letters. *)
Theorem sanitized_stem_agrees_with_sanitize_norwegian (stem : string) :
  SvgProcessor.sanitized_stem stem
  = PageBuilder.sanitize_norwegian (replace_char " " "_" stem)
  /\ all_chars (fun c => negb (norwegian_letter c) && negb (Ascii.eqb c " "))
               (SvgProcessor.sanitized_stem stem) = true.
Proof.
  assert (Hchar : SvgProcessor.sanitized_stem stem
                  = subst_chars (fun c => if Ascii.eqb c " " then "_" else transliterate c)
                                stem).
  { unfold SvgProcessor.sanitized_stem. simpl.
    rewrite !replace_char_subst, !subst_chars_compose.
    apply subst_chars_ext. intros c. every_character c. }
  split.
  - rewrite Hchar, sanitize_norwegian_by_character, replace_char_subst, subst_chars_compose.
    apply subst_chars_ext. intros c. every_character c.
  - rewrite Hchar. apply (@all_chars_subst _ (fun _ => true)); [|apply all_chars_true].
    intros c _. every_character c.
Qed.

(** The slug under which a page is published holds no space and none of
    the six letters, whether it comes from [PAGE_CONFIG] or from the
    page's name, and whatever [str.lower] returns. *)
Theorem page_slug_has_no_space_or_norwegian_letter
    (str_lower : string -> string) (role page_name : string) :
  all_chars (fun c => negb (norwegian_letter c) && negb (Ascii.eqb c " "))
            (Main.page_slug str_lower role page_name) = true.
Proof.
  unfold Main.page_slug.
  destruct (Main.page_config role) as [[wp_title wp_slug]|] eqn:Hc.
  - unfold Main.page_config in Hc.
    destruct (find _ Main.PAGE_CONFIG) as [entry|] eqn:Hf; [|discriminate Hc].
    apply find_some in Hf. destruct Hf as [Hin _]. injection Hc as Hc.
    unfold Main.PAGE_CONFIG in Hin. simpl in Hin.
    repeat (destruct Hin as [<-|Hin]; [injection Hc as _ <-; reflexivity|]).
    contradiction.
  - rewrite sanitize_norwegian_by_character, replace_char_subst, subst_chars_compose.
    apply (@all_chars_subst _ (fun _ => true)); [|apply all_chars_true].
    intros c _. every_character c.
Qed.

(** ** The chunks of a tall image *)

Lemma in_range (n i : Z) : In i (SvgProcessor.range n) <-> (0 <= i < n)%Z.
Proof.
  unfold SvgProcessor.range. rewrite in_map_iff. split.
  - intros [k [<- Hk]]. apply in_seq in Hk. lia.
  - intros Hi. exists (Z.to_nat i). split; [lia|]. apply in_seq. lia.
Qed.

(** An image taller than a positive [max_height] is cut into
    [ceil(h / max_height)] chunks, at least two; every chunk is a
    non-empty box inside the image, no taller than [max_height] and the
    200 rows of overlap; and every row of the image lies in a chunk, so
    nothing of the design is lost. *)
Theorem split_png_chunks_cover_the_image (h max_height : Z) :
  (0 < max_height)%Z -> (max_height < h)%Z ->
  exists boxes,
    SvgProcessor.split_png_for_vision h max_height = SvgProcessor.Chunks boxes
    /\ len boxes = ((h + max_height - 1) / max_height)%Z
    /\ (2 <= len boxes)%Z
    /\ (forall top bottom, In (top, bottom) boxes ->
          (0 <= top < bottom)%Z /\ (bottom <= h)%Z /\ (bottom - top <= max_height + 200)%Z)
    /\ (forall y, (0 <= y < h)%Z ->
          exists top bottom, In (top, bottom) boxes /\ (top <= y < bottom)%Z).
Proof.
  intros Hmax Hh. unfold SvgProcessor.split_png_for_vision.
  destruct (h <=? max_height)%Z eqn:Hle; [lia|].
  destruct (max_height =? 0)%Z eqn:Hz; [lia|].
  set (n := ((h + max_height - 1) / max_height)%Z).
  assert (Hn : (max_height * n <= h + max_height - 1 < max_height * (n + 1))%Z).
  { unfold n. pose proof (Z.mul_div_le (h + max_height - 1) max_height Hmax).
    pose proof (Z.mul_succ_div_gt (h + max_height - 1) max_height Hmax). lia. }
  assert (Hn2 : (2 <= n)%Z) by nia.
  eexists. split; [reflexivity|].
  assert (Hlen : len (map (SvgProcessor.chunk_box h max_height) (SvgProcessor.range n)) = n).
  { unfold len, SvgProcessor.range. rewrite !length_map, length_seq. lia. }
  rewrite Hlen. repeat split; try lia.
  - apply in_map_iff in H. destruct H as [i [Hbox Hi]]. apply in_range in Hi.
    unfold SvgProcessor.chunk_box in Hbox. injection Hbox as <- <-.
    destruct (i >? 0)%Z eqn:Hi0; lia.
  - apply in_map_iff in H. destruct H as [i [Hbox Hi]]. apply in_range in Hi.
    unfold SvgProcessor.chunk_box in Hbox. injection Hbox as <- <-.
    destruct (i >? 0)%Z eqn:Hi0; nia.
  - apply in_map_iff in H. destruct H as [i [Hbox Hi]]. apply in_range in Hi.
    unfold SvgProcessor.chunk_box in Hbox. injection Hbox as <- <-. lia.
  - apply in_map_iff in H. destruct H as [i [Hbox Hi]]. apply in_range in Hi.
    unfold SvgProcessor.chunk_box in Hbox. injection Hbox as <- <-.
    destruct (i >? 0)%Z eqn:Hi0; nia.
  - intros y Hy. set (i := (y / max_height)%Z).
    assert (Hi : (max_height * i <= y < max_height * (i + 1))%Z).
    { unfold i. pose proof (Z.mul_div_le y max_height Hmax).
      pose proof (Z.mul_succ_div_gt y max_height Hmax). lia. }
    assert (Hin : (0 <= i < n)%Z) by nia.
    exists (fst (SvgProcessor.chunk_box h max_height i)),
           (snd (SvgProcessor.chunk_box h max_height i)).
    split.
    + rewrite <- surjective_pairing. apply in_map, in_range, Hin.
    + unfold SvgProcessor.chunk_box. simpl. destruct (i >? 0)%Z; nia.
Qed.

Lemma split_png_chunks_cover_the_image_witness :
  exists boxes,
    SvgProcessor.split_png_for_vision 9000 4000 = SvgProcessor.Chunks boxes
    /\ len boxes = ((9000 + 4000 - 1) / 4000)%Z
    /\ (2 <= len boxes)%Z
    /\ (forall top bottom, In (top, bottom) boxes ->
          (0 <= top < bottom)%Z /\ (bottom <= 9000)%Z /\ (bottom - top <= 4000 + 200)%Z)
    /\ (forall y, (0 <= y < 9000)%Z ->
          exists top bottom, In (top, bottom) boxes /\ (top <= y < bottom)%Z).
Proof.
  apply (@split_png_chunks_cover_the_image 9000 4000); lia.
Defined.

(** ** Search-engine metadata *)

Section SeoProperties.

Variable em_dash : string.

Lemma hd_error_snoc {A} (l : list A) (x : A) :
  hd_error (list_append l x) = match hd_error l with Some y => Some y | None => Some x end.
Proof. now destruct l. Qed.

Lemma truthy_hd_error {A} (l : list A) :
  truthy l = match hd_error l with Some _ => true | None => false end.
Proof. now destruct l. Qed.

(** The first element of each accumulator after one item. *)
Lemma seo_item_step_heads (title_parts description_parts : list string) (c : PageItem.t) :
  hd_error (fst (PageBuilder.seo_item_step (title_parts, description_parts) c))
  = match hd_error title_parts with
    | Some first => Some first
    | None => if heading_with_text c then Some (get_or "" (PageItem.text c)) else None
    end
  /\ hd_error (snd (PageBuilder.seo_item_step (title_parts, description_parts) c))
     = match hd_error description_parts with
       | Some first => Some first
       | None => if paragraph_with_text c then Some (get_or "" (PageItem.text c)) else None
       end.
Proof.
  unfold PageBuilder.seo_item_step, heading_with_text, paragraph_with_text.
  destruct (eq_str (PageItem.type c) "heading") eqn:Hh.
  - apply eq_str_true in Hh. rewrite Hh. simpl.
    destruct (truthy (PageItem.text c)); simpl.
    + rewrite (truthy_hd_error title_parts).
      destruct (hd_error title_parts) eqn:Ht; simpl; rewrite ?hd_error_snoc, ?Ht;
        split; try reflexivity; now destruct (hd_error description_parts).
    + split; now destruct (hd_error _).
  - simpl. destruct (eq_str (PageItem.type c) "paragraph" && truthy (PageItem.text c)); simpl.
    + rewrite hd_error_snoc. split; now destruct (hd_error _).
    + split; now destruct (hd_error _).
Qed.

(** The first element of each accumulator after the items [l]. *)
Lemma seo_items_scan (l : list PageItem.t) :
  forall title_parts description_parts,
    hd_error (fst (fold_left PageBuilder.seo_item_step l (title_parts, description_parts)))
    = match hd_error title_parts with
      | Some first => Some first
      | None => option_map (fun c => get_or "" (PageItem.text c)) (find heading_with_text l)
      end
    /\ hd_error (snd (fold_left PageBuilder.seo_item_step l
                        (title_parts, description_parts)))
       = match hd_error description_parts with
         | Some first => Some first
         | None => option_map (fun c => get_or "" (PageItem.text c))
                              (find paragraph_with_text l)
         end.
Proof.
  induction l as [|c l IH]; intros title_parts description_parts.
  - simpl. split; now destruct (hd_error _).
  - cbn [fold_left find].
    destruct (seo_item_step_heads title_parts description_parts c) as [H1 H2].
    destruct (PageBuilder.seo_item_step (title_parts, description_parts) c)
      as [title_parts' description_parts'].
    simpl in H1, H2. destruct (IH title_parts' description_parts') as [IH1 IH2].
    rewrite IH1, IH2, H1, H2. split.
    + destruct (hd_error title_parts); [reflexivity|].
      now destruct (heading_with_text c).
    + destruct (hd_error description_parts); [reflexivity|].
      now destruct (paragraph_with_text c).
Qed.

Lemma seo_sections_scan (sections : list PageSection.t) :
  forall st,
    fold_left PageBuilder.seo_section_step sections st
    = fold_left PageBuilder.seo_item_step
        (flat_map (fun section => get_or [] (PageSection.content section))
                  (filter not_footer sections))
        st.
Proof.
  induction sections as [|section sections IH]; intros st; simpl; [reflexivity|].
  unfold PageBuilder.seo_section_step at 2, not_footer at 1.
  destruct (eq_str (PageSection.type section) "footer"); simpl.
  - apply IH.
  - now rewrite fold_left_app, IH.
Qed.

(** The metadata that [generate_seo_meta] returns.  The title is the page
    title when the document has one that is not empty, or else the text of
    the first heading with a text in the first three sections, footers
    left out, or else the role's title.  The description is the first 160
    characters of the first paragraph with a text in those sections, or
    else the fallback sentence; a description taken from the page is
    never longer than 160 characters. *)
Theorem generate_seo_meta_reads_first_heading_and_paragraph
    (layout : PageDocument.t) (page_role project_name : string) :
  let meta := PageBuilder.generate_seo_meta em_dash layout page_role project_name in
  (truthy (PageDocument.page_title layout) = true ->
   PageBuilder.rank_math_title meta = get_or "" (PageDocument.page_title layout))
  /\ (truthy (PageDocument.page_title layout) = false ->
      forall c, find heading_with_text (seo_items layout) = Some c ->
                PageBuilder.rank_math_title meta = get_or "" (PageItem.text c))
  /\ (forall c, find paragraph_with_text (seo_items layout) = Some c ->
                PageBuilder.rank_math_description meta = take 160 (get_or "" (PageItem.text c))
                /\ (String.length (PageBuilder.rank_math_description meta) <= 160)%nat)
  /\ (find paragraph_with_text (seo_items layout) = None ->
      PageBuilder.rank_math_description meta
      = project_name ++ " " ++ em_dash ++ " profesjonell eiendomsutvikling.").
Proof.
  unfold PageBuilder.generate_seo_meta, seo_items.
  rewrite seo_sections_scan.
  set (items := flat_map _ _).
  match goal with
  | |- context [fold_left PageBuilder.seo_item_step items (?t, ?d)] =>
      destruct (seo_items_scan items t d) as [Ht Hd];
      destruct (fold_left PageBuilder.seo_item_step items (t, d))
        as [title_parts description_parts] eqn:Hfold
  end.
  cbn [fst snd] in Ht, Hd. cbv zeta. simpl PageBuilder.rank_math_title.
  simpl PageBuilder.rank_math_description.
  assert (Hpt : truthy (PageDocument.page_title layout)
                = truthy (get_or "" (PageDocument.page_title layout))).
  { now destruct (PageDocument.page_title layout). }
  rewrite Hpt. repeat split.
  - intros Htitle. rewrite Htitle in Ht. simpl in Ht.
    destruct title_parts; [discriminate|]. now injection Ht.
  - intros Htitle c Hc. rewrite Htitle, Hc in Ht. simpl in Ht.
    destruct title_parts; [discriminate|]. now injection Ht.
  - rewrite H in Hd. simpl in Hd. destruct description_parts; [discriminate|].
    now injection Hd as ->.
  - rewrite H in Hd. simpl in Hd. destruct description_parts; [discriminate|].
    injection Hd as ->. unfold take.
    clear. generalize (get_or "" (PageItem.text c)). generalize 160%nat.
    intros n s. revert n. induction s as [|a s IH]; intros [|n]; simpl; try lia.
    specialize (IH n). lia.
  - intros Hnone. rewrite Hnone in Hd. simpl in Hd. now destruct description_parts.
Qed.

End SeoProperties.

(** ** The footer of the page builder *)

Section FooterProperties.

Variable url_quote : string -> string.
Variable str_lower : string -> string.
Variable str_split : string -> list string.
Variable str_strip : string -> string.
Variable int_of_str : string -> option Z.






End FooterProperties.


(** ** The exceptions of the page builder *)

Lemma raises_within_ok {A} (P : py_error -> Prop) (a : A) : raises_within P (Build.ok a).
Proof. intros r r' e H. discriminate. Qed.

Lemma raises_within_call {A} (P : py_error -> Prop) (m : Rand.t A) :
  raises_within P (Build.call m).
Proof. intros r r' e. unfold Build.call. destruct (m r). discriminate. Qed.

Lemma raises_within_try {A} (P : py_error -> Prop) (m : result A) :
  (forall e, m = Raise e -> P e) -> raises_within P (Build.try m).
Proof. intros H r r' e [= ->]. now apply H. Qed.

Lemma raises_within_bind {A B} (P : py_error -> Prop) (m : Build.t A) (k : A -> Build.t B) :
  raises_within P m -> (forall a, raises_within P (k a)) ->
  raises_within P (Build.bind m k).
Proof.
  intros Hm Hk r r' e. unfold Build.bind.
  destruct (m r) as [[a|e'] r''] eqn:Hr.
  - apply Hk.
  - intros [= <- <-]. exact (Hm _ _ _ Hr).
Qed.

Lemma raises_within_mapM {A B} (P : py_error -> Prop) (f : A -> Build.t B) (l : list A) :
  (forall x, In x l -> raises_within P (f x)) -> raises_within P (Build.mapM f l).
Proof.
  induction l as [|x l IH]; intros Hf; simpl.
  - apply raises_within_ok.
  - apply raises_within_bind; [apply Hf; now left|]. intros y.
    apply raises_within_bind; [apply IH; intros z Hz; apply Hf; now right|].
    intros ys. apply raises_within_ok.
Qed.

Lemma raises_within_mapM_get {A B} (P : py_error -> Prop) (f : A -> Build.t B)
    (o : option (list A)) :
  (forall x, raises_within P (f x)) -> raises_within P (Build.mapM_get f o).
Proof.
  intros Hf. destruct o as [l|]; simpl.
  - apply raises_within_mapM. auto.
  - apply raises_within_ok.
Qed.

Section PageBuilderExceptions.

Variable url_quote : string -> string.
Variable str_lower : string -> string.
Variable str_split : string -> list string.
Variable str_strip : string -> string.
Variable int_of_str : string -> option Z.
Variable repr_float : Q -> string.

Lemma get_image_url_raises (m : PageBuilder.img_map) (description : string)
    (index fallback_w fallback_h : Z) (e : py_error) :
  PageBuilder._get_image_url url_quote str_lower str_split m description index
    fallback_w fallback_h = Raise e ->
  page_builder_error e.
Proof.
  unfold PageBuilder._get_image_url, PageBuilder.url_and_id, page_builder_error.
  destruct (PageBuilder.img_get _ m) as [img|].
  - destruct (Upload.url img); [discriminate|]. intros [= <-]. auto.
  - destruct (find _ m) as [[k img]|]; [|discriminate].
    destruct (Upload.url img); [discriminate|]. intros [= <-]. auto.
Qed.

Lemma parse_px_raises (val : option string) (e : py_error) :
  PageBuilder._parse_px str_strip int_of_str val = Raise e -> page_builder_error e.
Proof.
  unfold PageBuilder._parse_px, page_builder_error.
  destruct val as [val|]; [|discriminate].
  destruct (int_of_str _); [discriminate|]. intros [= <-]. auto.
Qed.

Lemma as_object_raises (bg : option PageBackground.t) (e : py_error) :
  PageBuilder.as_object bg = Raise e -> page_builder_error e.
Proof.
  unfold page_builder_error. destruct bg as [[o|s]|]; simpl; try discriminate.
  intros [= <-]. auto.
Qed.

(** One step of a proof that a builder raises within the three
    exceptions. *)
Ltac raises_step :=
  lazymatch goal with
  | |- raises_within _ (Build.ok _) => apply raises_within_ok
  | |- raises_within _ (Build.call _) => apply raises_within_call
  | |- raises_within _ (Build.try _) =>
      apply raises_within_try;
      first [apply get_image_url_raises | apply parse_px_raises | apply as_object_raises]
  | |- raises_within _ (Build.mapM_get _ _) => apply raises_within_mapM_get; intro
  | |- raises_within _ (Build.mapM _ _) => apply raises_within_mapM; intros ? _
  | |- raises_within _ (Build.bind _ _) => apply raises_within_bind; [|intro]
  | |- raises_within _ (if ?b then _ else _) => destruct b
  | |- raises_within _ (let '(_, _) := ?p in _) => destruct p
  | |- raises_within _ (match ?o with Some _ => _ | None => _ end) => destruct o
  | |- raises_within _ (PageBuilder.logo_column _ _) => unfold PageBuilder.logo_column
  end.

Lemma build_content_item_raises :
  forall (item : PageItem.t) (m : PageBuilder.img_map),
    raises_within page_builder_error
      (PageBuilder._build_content_item url_quote str_lower str_split str_strip int_of_str
         item m).
Proof.
  fix IH 1. intros item m.
  destruct item as [type text level color font_size align font_weight url alt width height
                    buttons entries ordered citation images fields columns column_items].
  cbn [PageBuilder._build_content_item PageItem.type PageItem.column_items
       PageItem.columns].
  repeat match goal with
         | |- raises_within _ (if String.eqb ?t ?s then _ else _) =>
             destruct (String.eqb t s); [try solve [repeat raises_step]|]
         | |- raises_within _ (if String.eqb ?t ?s && _ then _ else _) =>
             destruct (String.eqb t s && _); [try solve [repeat raises_step]|]
         end.
  - apply raises_within_bind; [|intro; apply raises_within_call].
    destruct column_items as [col_items|]; [|apply raises_within_ok].
    cbn [Build.mapM_get]. induction col_items as [|col_item col_items IHc].
    + apply raises_within_ok.
    + destruct col_item as [content]. cbn [Build.mapM PageItem.content].
      apply raises_within_bind.
      * apply raises_within_bind; [|intro; apply raises_within_call].
        destruct content as [items|]; [|apply raises_within_ok].
        cbn [Build.mapM_get]. induction items as [|c items IHi].
        -- apply raises_within_ok.
        -- cbn [Build.mapM]. apply raises_within_bind; [apply IH|]. intros y.
           apply raises_within_bind; [apply IHi|]. intros ys. apply raises_within_ok.
      * intros y. apply raises_within_bind; [apply IHc|]. intros ys.
        apply raises_within_ok.
  - apply raises_within_ok.
Qed.

Lemma build_items_raises (content : option (list PageItem.t)) (m : PageBuilder.img_map) :
  raises_within page_builder_error
    (PageBuilder.build_items url_quote str_lower str_split str_strip int_of_str content m).
Proof.
  unfold PageBuilder.build_items. apply raises_within_mapM_get. intros c.
  apply build_content_item_raises.
Qed.

Ltac builder_raises :=
  repeat lazymatch goal with
         | |- raises_within _ (PageBuilder.build_items _ _ _ _ _ _ _) =>
             apply build_items_raises
         | |- raises_within _ (PageBuilder._build_content_item _ _ _ _ _ _ _) =>
             apply build_content_item_raises
         | |- _ => raises_step
         end.

Lemma build_section_raises (section : PageSection.t) (m : PageBuilder.img_map)
    (page_role : string) :
  raises_within page_builder_error
    (PageBuilder._build_section url_quote str_lower str_split str_strip int_of_str
       repr_float section m page_role).
Proof.
  unfold PageBuilder._build_section.
  repeat match goal with
         | |- raises_within _ (if ?b then _ else _) => destruct b
         end.
  - unfold PageBuilder._build_hero. builder_raises.
  - unfold PageBuilder._build_columns_section, PageBuilder.card_inner. builder_raises.
  - unfold PageBuilder._build_text_section. builder_raises.
  - unfold PageBuilder._build_media_text. builder_raises.
  - unfold PageBuilder._build_testimonial. builder_raises.
  - unfold PageBuilder._build_cta. builder_raises.
  - unfold PageBuilder._build_gallery, PageBuilder.gallery_card, PageBuilder.gallery_image,
      PageBuilder.card_inner.
    builder_raises.
  - unfold PageBuilder._build_contact. apply raises_within_bind.
    + generalize (@nil string, @None (list Field.t)).
      induction (get_or [] (PageSection.content section)) as [|c content IH]; intros st.
      * apply raises_within_ok.
      * cbn [PageBuilder.contact_loop]. apply raises_within_bind; [|intro; apply IH].
        unfold PageBuilder.contact_step. builder_raises.
    + intros st. builder_raises.
  - unfold PageBuilder._build_map. builder_raises.
  - unfold PageBuilder._build_generic. builder_raises.
Qed.

Lemma page_loop_raises (m : PageBuilder.img_map) (page_role : string)
    (sections : list PageSection.t) :
  forall blocks,
    raises_within page_builder_error
      (PageBuilder.page_loop url_quote str_lower str_split str_strip int_of_str repr_float
         m page_role sections blocks).
Proof.
  induction sections as [|section rest IH]; intros blocks; simpl.
  - apply raises_within_ok.
  - apply raises_within_bind; [|intro; apply IH].
    unfold PageBuilder.page_step.
    destruct (eq_str _ _); [apply raises_within_ok|].
    apply raises_within_bind; [apply build_section_raises|]. intros block.
    apply raises_within_ok.
Qed.

(** The page builder raises three exceptions and no other: the
    [ValueError] of [int] on a font size that is no number, the
    [KeyError] of [img["url"]] on an upload without its address, and the
    [AttributeError] of [bg.get] on a hero background that is not a
    dictionary.  An item without its text, which stops [convert_layout],
    does not stop [build_page_content]. *)
Theorem build_page_content_raises_only (layout : PageDocument.t)
    (uploaded_images : option (list Upload.t)) (page_role : string)
    (r r' : Rand.source) (e : py_error) :
  PageBuilder.build_page_content url_quote str_lower str_split str_strip int_of_str
    repr_float layout uploaded_images page_role r = (Raise e, r') ->
  e = ValueError "int" \/ e = KeyError "url" \/ e = AttributeError "get".
Proof.
  revert r r' e. change (raises_within page_builder_error
    (PageBuilder.build_page_content url_quote str_lower str_split str_strip int_of_str
       repr_float layout uploaded_images page_role)).
  unfold PageBuilder.build_page_content.
  apply raises_within_bind; [apply page_loop_raises|]. intros blocks.
  apply raises_within_ok.
Qed.

End PageBuilderExceptions.

Lemma build_page_content_raises_only_witness :
  ValueError "int" = ValueError "int" \/ ValueError "int" = KeyError "url"
  \/ ValueError "int" = AttributeError "get".
Proof.
  exact (@build_page_content_raises_only (fun s => s) (fun s => s) (fun s => [s])
           (fun s => s) (fun _ => None) (fun _ => "") unparsable_size_page None "generic"
           Rand.counting Rand.counting (ValueError "int") eq_refl).
Defined.

(** ** The placeholder image of the converter *)

Lemma all_chars_substring (p : ascii -> bool) (s : string) :
  all_chars p s = true -> forall n m, all_chars p (substring n m s) = true.
Proof.
  induction s as [|c s IH]; intros Hs n m.
  - now destruct n, m.
  - simpl in Hs. apply andb_true_iff in Hs. destruct Hs as [Hc Hs].
    destruct n as [|n]; simpl.
    + destruct m as [|m]; simpl; [reflexivity|]. now rewrite Hc, IH.
    + now apply IH.
Qed.

Lemma length_take (n : nat) (s : string) : (String.length (take n s) <= n)%nat.
Proof.
  unfold take. revert n. induction s as [|c s IH]; intros [|n]; simpl; try lia.
  specialize (IH n). lia.
Qed.

Lemma take_all (n : nat) (s : string) : (String.length s <= n)%nat -> take n s = s.
Proof.
  unfold take. revert n. induction s as [|c s IH]; intros [|n]; simpl; try lia; try reflexivity.
  intros H. rewrite IH; [reflexivity|lia].
Qed.

(** The description that the converter writes into a placeholder image
    is at most 60 characters long and holds neither an apostrophe nor an
    ampersand, whatever the layout gives, so it cannot leave the text
    element of the image; a description that is short and clean is
    written as it is. *)
Theorem placeholder_svg_description_is_safe (desc : string) (w h : Z) :
  exists t,
    _placeholder_svg desc w h
    = "data:image/svg+xml,%3Csvg xmlns='http://www.w3.org/2000/svg' " ++
      "width='" ++ str_of_int w ++ "' height='" ++ str_of_int h ++
      "'%3E%3Crect fill='%23ccc' width='" ++ str_of_int w ++ "' " ++
      "height='" ++ str_of_int h ++
      "'/%3E%3Ctext x='50%25' y='50%25' text-anchor='middle' " ++
      "fill='%23666' font-size='20'%3E" ++ t ++ "%3C/text%3E%3C/svg%3E"
    /\ (String.length t <= 60)%nat
    /\ all_chars (fun c => negb (svg_unsafe c)) t = true
    /\ ((String.length desc <= 60)%nat ->
        all_chars (fun c => negb (svg_unsafe c)) desc = true -> t = desc).
Proof.
  exists (take 60 (replace_char "&" "and" (replace_char "'" "" desc))).
  split; [reflexivity|]. split; [apply length_take|]. split.
  - unfold take. apply all_chars_substring.
    rewrite !replace_char_subst, subst_chars_compose.
    apply (@all_chars_subst _ (fun _ => true)); [|apply all_chars_true].
    intros c _. every_character c.
  - intros Hlen Hclean.
    assert (Hsame : replace_char "&" "and" (replace_char "'" "" desc) = desc).
    { rewrite !replace_char_subst, subst_chars_compose.
      apply (@subst_chars_fixed (fun c => negb (svg_unsafe c))); [|exact Hclean].
      intros c Hc. apply String.eqb_eq. revert Hc. apply implb_true_iff.
      every_character c. }
    rewrite Hsame. now apply take_all.
Qed.
